(** * ClassMood front-end script ([app/static/script.js])

    A shallow embedding of the browser script that guards the pages of the
    application ([checkAuth]), talks to the file API ([upload],
    [loadUserFiles], [deleteFile], [getCurrentUser]) and draws the engagement
    chart ([renderChart]), together with the properties the specification
    states about them.

    The source file holds two copies of the script.  The second copy (from the
    line [// Front-end helper functions.] on) is the one embedded here.  The
    first copy has no chart, lists the files without the Analyze button and
    has another [deleteFile]; its list refresh and its [deleteFile] are kept
    in [Module FirstCopy]. *)

From Stdlib Require Import QArith Qreduction Qcanon Qround ZArith Lia Bool.
From Stdlib Require Import DecimalString Lqa.
From stdpp Require Import gmap strings list.

Set Warnings "-register-all".
Local Open Scope string_scope.

(** ** JavaScript numbers

    A JavaScript number is an IEEE-754 double.  It is modelled by an extended
    rational: [NaN], the two infinities, or an exact finite value.  Rounding
    is not modelled (every finite operation is exact) and zero carries no
    sign.  Finite results are kept in lowest terms by [Qred], so that two
    results are the same number exactly when they are equal terms.

    The properties below that give coordinates are therefore stated where
    the script's arithmetic is exact in binary64 as well (integers of moderate
    size, a difference that is zero), or as inclusions that rounding to
    nearest preserves (it is monotone and the bounds are representable). *)

Inductive num : Type :=
  | NaN
  | Inf (neg : bool)
  | Fin (q : Q).

Module Num.

Definition of_Z (z : Z) : num := Fin (inject_Z z).

Definition is_neg (q : Q) : bool := (Qnum q <? 0)%Z.
Definition is_zero (q : Q) : bool := (Qnum q =? 0)%Z.

Definition add (a b : num) : num :=
  match a, b with
  | NaN, _ | _, NaN => NaN
  | Fin x, Fin y => Fin (Qred (x + y))
  | Fin _, Inf s => Inf s
  | Inf s, Fin _ => Inf s
  | Inf s, Inf s' => if Bool.eqb s s' then Inf s else NaN
  end.

Definition sub (a b : num) : num :=
  match a, b with
  | NaN, _ | _, NaN => NaN
  | Fin x, Fin y => Fin (Qred (x - y))
  | Fin _, Inf s => Inf (negb s)
  | Inf s, Fin _ => Inf s
  | Inf s, Inf s' => if Bool.eqb s s' then NaN else Inf s
  end.

Definition mul (a b : num) : num :=
  match a, b with
  | NaN, _ | _, NaN => NaN
  | Fin x, Fin y => Fin (Qred (x * y))
  | Fin x, Inf s => if is_zero x then NaN else Inf (xorb (is_neg x) s)
  | Inf s, Fin y => if is_zero y then NaN else Inf (xorb s (is_neg y))
  | Inf s, Inf s' => Inf (xorb s s')
  end.

(** Division.  A zero divisor is the positive zero. *)
Definition div (a b : num) : num :=
  match a, b with
  | NaN, _ | _, NaN => NaN
  | Fin x, Fin y =>
      if is_zero y then (if is_zero x then NaN else Inf (is_neg x))
      else Fin (Qred (x / y))
  | Fin _, Inf _ => Fin 0
  | Inf s, Fin y => Inf (xorb s (is_neg y))
  | Inf _, Inf _ => NaN
  end.

(** [a < b]; false as soon as one side is [NaN]. *)
Definition ltb (a b : num) : bool :=
  match a, b with
  | NaN, _ | _, NaN => false
  | Fin x, Fin y => negb (Qle_bool y x)
  | Fin _, Inf s => negb s
  | Inf s, Fin _ => s
  | Inf s, Inf s' => s && negb s'
  end.

(** [a === b] on numbers; [NaN] equals nothing. *)
Definition eqb (a b : num) : bool :=
  match a, b with
  | Fin x, Fin y => Qeq_bool x y
  | Inf s, Inf s' => Bool.eqb s s'
  | _, _ => false
  end.

(** [Math.max(a, b)] and [Math.min(a, b)]: [NaN] if either argument is. *)
Definition max2 (a b : num) : num :=
  match a, b with
  | NaN, _ | _, NaN => NaN
  | _, _ => if ltb a b then b else a
  end.

Definition min2 (a b : num) : num :=
  match a, b with
  | NaN, _ | _, NaN => NaN
  | _, _ => if ltb b a then b else a
  end.

(** [Math.max(...l)] and [Math.min(...l)]; on no argument they are
    [-Infinity] and [Infinity]. *)
Definition max_list (l : list num) : num := foldr max2 (Inf true) l.
Definition min_list (l : list num) : num := foldr min2 (Inf false) l.

(** Truthiness of a number: everything but [NaN] and zero. *)
Definition truthy (a : num) : bool :=
  match a with
  | NaN => false
  | Inf _ => true
  | Fin q => negb (is_zero q)
  end.

Definition finite (a : num) : bool :=
  match a with Fin _ => true | _ => false end.

End Num.

Declare Scope num_scope.
Delimit Scope num_scope with num.
Bind Scope num_scope with num.
Infix "+" := Num.add : num_scope.
Infix "-" := Num.sub : num_scope.
Infix "*" := Num.mul : num_scope.
Infix "/" := Num.div : num_scope.

(** ** JavaScript values

    The values that [JSON.parse] can produce, and [undefined].  An object is
    an association list; a property is looked up at its first occurrence. *)

Inductive jsval : Type :=
  | VUndefined
  | VNull
  | VBool (b : bool)
  | VNum (n : num)
  | VStr (s : string)
  | VArr (items : list jsval)
  | VObj (fields : list (string * jsval)).

Fixpoint assoc (k : string) (fs : list (string * jsval)) : option jsval :=
  match fs with
  | [] => None
  | (k', v) :: fs' => if String.eqb k k' then Some v else assoc k fs'
  end.

(** Truthiness ([!v] is its negation). *)
Definition truthy (v : jsval) : bool :=
  match v with
  | VUndefined | VNull => false
  | VBool b => b
  | VNum n => Num.truthy n
  | VStr s => negb (String.eqb s "")
  | VArr _ | VObj _ => true
  end.

(** Truthiness of what [localStorage.getItem] returns: [null] or a string. *)
Definition truthy_item (o : option string) : bool :=
  match o with
  | None => false
  | Some s => negb (String.eqb s "")
  end.

(** [a !== b] for a string [a]. *)
Definition strict_neq_str (a : string) (b : jsval) : bool :=
  match b with
  | VStr s => negb (String.eqb a s)
  | _ => true
  end.

(** [k] is an own property of the object with the fields [fs]. *)
Definition has_own (k : string) (fs : list (string * jsval)) : bool :=
  match assoc k fs with
  | Some _ => true
  | None => false
  end.

(** [null] and [undefined], the values a property cannot be read from. *)
Definition is_nullish (v : jsval) : bool :=
  match v with
  | VUndefined | VNull => true
  | _ => false
  end.

(** ** What a computation comes to: a value or an exception *)

Inductive exn : Type := TypeError | SyntaxError | RangeError | NetworkFailure.

Inductive outcome (A : Type) : Type :=
  | Return (a : A)
  | Throw (e : exn).
Arguments Return {A} a.
Arguments Throw {A} e.

#[global] Instance outcome_ret : MRet outcome := fun A a => Return a.
#[global] Instance outcome_bind : MBind outcome := fun A B f m =>
  match m with
  | Return a => f a
  | Throw e => Throw e
  end.

(** ** Conversions

    What the language does that the script relies on and that is not given
    here: the numeric value of a string, the text of a number and of a date,
    and the number of arguments a call can take.  A call with a spread
    argument fails with a [RangeError] beyond that number, which depends on
    the engine; a call with two arguments, as the script writes them out
    itself, always fits. *)
Class Builtins : Type := {
  (** [StringToNumber]: the numeric value of a string, [NaN] if it has none *)
  StringToNumber : string -> num;
  (** [Number.prototype.toString] *)
  NumberToString : num -> string;
  (** [n.toFixed(0)] *)
  toFixed0 : num -> string;
  (** [new Date(v).toLocaleString()] for a primitive [v] *)
  dateToLocaleString : jsval -> string;
  (** the most arguments a call can take *)
  max_arguments : N;
  max_arguments_two : (2 <= max_arguments)%N
}.

Section Conversions.
Context `{Builtins}.

(** [String(v)], also the conversion of [v] in a template literal, in a
    concatenation with a string, in [join] and in an assignment to
    [textContent] or a call of [setItem].

    The values are those of [JSON.parse].  An array is converted by
    [Array.prototype.toString], that is [join(",")], which writes nothing for
    [null] and [undefined] and converts the other elements in turn.  An object
    is converted by [Object.prototype.toString] unless it has an own property
    [toString]: that property holds a JSON value, which cannot be called, the
    inherited [valueOf] returns the object itself (an own [valueOf] cannot be
    called either), and the conversion throws a [TypeError]. *)
Fixpoint ToString (v : jsval) : outcome string :=
  match v with
  | VUndefined => Return "undefined"
  | VNull => Return "null"
  | VBool b => Return (if b then "true" else "false")
  | VNum n => Return (NumberToString n)
  | VStr s => Return s
  | VArr items =>
      parts ← (fix join_items (l : list jsval) : outcome (list string) :=
                 match l with
                 | [] => Return []
                 | x :: l' =>
                     s ← (if is_nullish x then Return "" else ToString x);
                     ss ← join_items l';
                     Return (s :: ss)
                 end) items;
      Return (String.concat "," parts)
  | VObj fs =>
      if has_own "toString" fs then Throw TypeError
      else Return "[object Object]"
  end.

(** What [join] writes for one element. *)
Definition join_item (v : jsval) : outcome string :=
  if is_nullish v then Return "" else ToString v.

(** [ToPrimitive]: arrays and objects become their string (with either hint:
    [valueOf] never yields a primitive on these values). *)
Definition ToPrimitive (v : jsval) : outcome jsval :=
  match v with
  | VArr _ | VObj _ => s ← ToString v; Return (VStr s)
  | _ => Return v
  end.

(** [Number(v)] *)
Definition ToNumber (v : jsval) : outcome num :=
  match v with
  | VUndefined => Return NaN
  | VNull => Return (Fin 0)
  | VBool b => Return (if b then Fin 1 else Fin 0)
  | VNum n => Return n
  | VStr s => Return (StringToNumber s)
  | VArr _ | VObj _ => s ← ToString v; Return (StringToNumber s)
  end.

(** [Number(v) || 0] *)
Definition number_or_zero (v : jsval) : outcome num :=
  n ← ToNumber v; Return (if Num.truthy n then n else Fin 0).

(** [new Date(v).toLocaleString()]: the constructor takes the primitive of
    its argument. *)
Definition date_text (v : jsval) : outcome string :=
  p ← ToPrimitive v; Return (dateToLocaleString p).

(** [Math.min(...l)] and [Math.max(...l)]: one argument for each element of
    [l]. *)
Definition spread_fits (n : nat) : bool := (N.of_nat n <=? max_arguments)%N.

Definition Math_min (l : list num) : outcome num :=
  if spread_fits (length l) then Return (Num.min_list l) else Throw RangeError.

Definition Math_max (l : list num) : outcome num :=
  if spread_fits (length l) then Return (Num.max_list l) else Throw RangeError.

End Conversions.

(** ** The browser around the script *)

(** The double quote character and the line feed, for the texts of the script
    that hold them. *)
Definition dq : string :=
  String (Ascii.Ascii false true false false false true false false) "".

Definition nl : string :=
  String (Ascii.Ascii false true false true false false false false) "".

Inductive method : Type := GET | POST | DELETE.

(** A [fetch] call: method, URL, the [Authorization] header if one is set,
    and the names of the files of the form data if a body is sent. *)
Record request : Type := Request {
  req_method : method;
  req_url : string;
  req_authorization : option string;
  req_body : option (list string)
}.

(** A response: its [ok] flag and what [res.json()] parses ([None] when the
    body is not JSON and [json()] rejects). *)
Record response : Type := Response {
  ok : bool;
  json_body : option jsval
}.

(** What a [fetch] call comes back with: a rejection or a response. *)
Inductive fetch_result : Type :=
  | NetworkError
  | Responds (r : response).

(** Calls on the 2D context of the chart canvas. *)
Inductive ctx_call : Type :=
  | ClearRect (x y w h : num)
  | SetStrokeStyle (s : string)
  | SetLineWidth (n : num)
  | SetFillStyle (s : string)
  | SetFont (s : string)
  | SetTextAlign (s : string)
  | BeginPath
  | MoveTo (x y : num)
  | LineTo (x y : num)
  | Stroke
  | FillText (text : string) (x y : num).

(** What the script does to the world outside the page and its storage, in
    the order it does it.  [EvCall f] marks an entry into the function [f] of
    the script; it is recorded for [loadUserFiles], the list refresh that the
    other functions trigger. *)
Inductive event : Type :=
  | EvFetch (r : request)
  | EvAlert (msg : string)
  | EvConfirm (msg : string)
  | EvNavigate (url : string)
  | EvConsole (label : string) (v : jsval)
  | EvCall (f : string)
  | EvCtx (c : ctx_call).

(** An element of the page: its class list, its content (what [innerHTML] or
    [textContent] was last set to), the names of the files selected in it (a
    file input) and its dimensions (a canvas). *)
Record element : Type := Element {
  classList : list string;
  content : string;
  files : list string;
  width : Z;
  height : Z
}.

(** The mutable state: [localStorage], the elements of the document by id
    (by selector text for the one [querySelector] of the script), and the
    number of requests sent so far. *)
Record world : Type := World {
  localStorage : gmap string string;
  document : gmap string element;
  sent : nat
}.

(** What the script reads and cannot change: the path of the page, the
    answer of the network to the [n]-th request, the user's answer to a
    [confirm] dialog. *)
Record env : Type := Env {
  pathname : string;
  server : nat -> request -> fetch_result;
  confirm_answer : bool
}.

(** ** The monad of the script: state, exceptions, emitted events *)

Record run (A : Type) : Type := Run {
  outcome_of : outcome A;
  world_of : world;
  events_of : list event
}.
Arguments Run {A} _ _ _.
Arguments outcome_of {A} _.
Arguments world_of {A} _.
Arguments events_of {A} _.

Definition M (A : Type) : Type := world -> run A.

#[global] Instance M_ret : MRet M := fun A a w => Run (Return a) w [].
#[global] Instance M_bind : MBind M := fun A B f m w =>
  match m w with
  | Run (Return a) w1 evs1 =>
      match f a w1 with
      | Run o w2 evs2 => Run o w2 (evs1 ++ evs2)
      end
  | Run (Throw e) w1 evs1 => Run (Throw e) w1 evs1
  end.

Definition throw {A} (e : exn) : M A := fun w => Run (Throw e) w [].

Definition lift {A} (o : outcome A) : M A := fun w => Run o w [].

Definition emit (e : event) : M unit := fun w => Run (Return tt) w [e].

(** [try { body } catch (e) { handler }] *)
Definition try_catch {A} (body : M A) (handler : exn -> M A) : M A := fun w =>
  match body w with
  | Run (Return a) w1 evs1 => Run (Return a) w1 evs1
  | Run (Throw e) w1 evs1 =>
      match handler e w1 with
      | Run o w2 evs2 => Run o w2 (evs1 ++ evs2)
      end
  end.

(** A call of an [async] function that is not awaited: the caller goes on
    whatever becomes of it, and a rejection is never seen.  The callee is run
    to its end at the point of the call: its requests are sent in this order,
    and what it writes later lands in an element no caller touches. *)
Definition spawn {A} (callee : M A) : M unit := fun w =>
  match callee w with
  | Run _ w1 evs1 => Run (Return tt) w1 evs1
  end.

(** The body of a function of the script that other functions call. *)
Definition call {A} (f : string) (body : M A) : M A :=
  emit (EvCall f);; body.

(** *** Storage, document, dialogs, navigation *)

Definition getItem (k : string) : M (option string) := fun w =>
  Run (Return (localStorage w !! k)) w [].

Definition setItem (k v : string) : M unit := fun w =>
  Run (Return tt) (World (<[k := v]> (localStorage w)) (document w) (sent w)) [].

Definition removeItem (k : string) : M unit := fun w =>
  Run (Return tt) (World (delete k (localStorage w)) (document w) (sent w)) [].

(** [document.getElementById(id)], [document.querySelector(sel)] *)
Definition getElementById (id : string) : M (option element) := fun w =>
  Run (Return (document w !! id)) w [].

Definition querySelector (sel : string) : M (option element) := fun w =>
  Run (Return (document w !! sel)) w [].

(** A write through an element reference obtained under the key [id];
    through [null] it throws. *)
Definition update_element (id : string) (ref : option element)
    (f : element -> element) : M unit := fun w =>
  match ref with
  | None => Run (Throw TypeError) w []
  | Some _ =>
      Run (Return tt)
          (World (localStorage w) (alter f id (document w)) (sent w)) []
  end.

Definition with_content (s : string) (el : element) : element :=
  Element (classList el) s (files el) (width el) (height el).

Definition class_remove (c : string) (el : element) : element :=
  Element (filter (fun c' => c' <> c) (classList el))
          (content el) (files el) (width el) (height el).

Definition class_add (c : string) (el : element) : element :=
  Element (if bool_decide (c ∈ classList el) then classList el
           else classList el ++ [c])
          (content el) (files el) (width el) (height el).

Definition set_content (id : string) (ref : option element) (s : string)
    : M unit :=
  update_element id ref (with_content s).

Definition alert (msg : string) : M unit := emit (EvAlert msg).

(** [window.location.replace(url)] *)
Definition location_replace (url : string) : M unit := emit (EvNavigate url).

(** *** Values *)

(** [v.k]: a [TypeError] on [undefined] and [null]; [undefined] where the
    property is missing.  Only the field names of the API payloads are looked
    up this way, none of which is a built-in property of a string, a number
    or an array. *)
Definition get_prop (v : jsval) (k : string) : outcome jsval :=
  match v with
  | VUndefined | VNull => Throw TypeError
  | VObj fs => Return (default VUndefined (assoc k fs))
  | _ => Return VUndefined
  end.

(** [v.map(f)]: [v.map] is a function on arrays only. *)
Definition array_map {B} (f : jsval -> outcome B) (v : jsval)
    : outcome (list B) :=
  match v with
  | VArr items => mapM f items
  | _ => Throw TypeError
  end.

(** [`Bearer ${token}`] for what [getItem] returned *)
Definition bearer (token : option string) : string :=
  "Bearer " ++ default "null" token.


(** ** The chart: scales and context calls *)

Definition padL : num := Fin 40.
Definition padR : num := Fin 10.
Definition padT : num := Fin 10.
Definition padB : num := Fin 30.
Definition vMin : num := Fin 0.
Definition vMax : num := Fin 1.

(** The literal [1e-9] *)
Definition tiny : num := Fin (1 # 1000000000).

(** The closure [x] of [renderChart]:
    [t => padL + ((t - tMin) / Math.max(1e-9, (tMax - tMin))) * plotW] *)
Definition scale_x (tMin tMax plotW t : num) : num :=
  (padL + ((t - tMin) / Num.max2 tiny (tMax - tMin)) * plotW)%num.

(** The closure [y] of [renderChart]:
    [v => padT + (1 - (v - vMin) / Math.max(1e-9, (vMax - vMin))) * plotH] *)
Definition scale_y (plotH v : num) : num :=
  (padT + (Fin 1 - (v - vMin) / Num.max2 tiny (vMax - vMin)) * plotH)%num.

(** The pixels of the points, in the order of the series. *)
Definition plot_points (tMin tMax plotW plotH : num) (times values : list num)
    : list (num * num) :=
  zip_with (fun t v => (scale_x tMin tMax plotW t, scale_y plotH v))
           times values.

(** The loop of [renderChart]: [moveTo] the first point, [lineTo] the others. *)
Definition polyline (pts : list (num * num)) : list ctx_call :=
  match pts with
  | [] => []
  | p :: rest => MoveTo p.1 p.2 :: map (fun q => LineTo q.1 q.2) rest
  end.

(** The axes and the tick labels. *)
Definition axes (w h : num) (tMinLabel tMaxLabel : string) : list ctx_call :=
  [ SetStrokeStyle "#888"; SetLineWidth (Fin 1);
    BeginPath; MoveTo padL (h - padB); LineTo (w - padR) (h - padB); Stroke;
    BeginPath; MoveTo padL padT; LineTo padL (h - padB); Stroke;
    SetFillStyle "#555"; SetFont "12px sans-serif"; SetTextAlign "center";
    FillText tMinLabel padL (h - Fin 10);
    FillText tMaxLabel (w - padR) (h - Fin 10);
    SetTextAlign "right";
    FillText "1.0" (padL - Fin 6) (padT + Fin 4);
    FillText "0.0" (padL - Fin 6) (h - padB) ]%num.

(** [series.length === 0], for a truthy [series] *)
Definition length_is_zero (series : jsval) : bool :=
  match series with
  | VArr [] => true
  | VObj fs =>
      match assoc "length" fs with
      | Some (VNum (Fin q)) => Num.is_zero q
      | _ => false
      end
  | _ => false
  end.

(** The context calls of an event list. *)
Definition ctx_calls (evs : list event) : list ctx_call :=
  omap (fun e => match e with EvCtx c => Some c | _ => None end) evs.

(** *** What the calls do to the canvas

    The state of a 2D context as far as the script can change it: the pen
    settings, the current path and what is painted on the bitmap. *)

Inductive paint : Type :=
  | Stroked (style : string) (lineWidth : num) (path : list ctx_call)
  | Texted (style font align text : string) (x y : num)
  | Erased (x y w h : num).

Record ctx_state : Type := CtxState {
  strokeStyle : string;
  lineWidth : num;
  fillStyle : string;
  font : string;
  textAlign : string;
  path : list ctx_call;
  bitmap : list paint
}.

(** One call on the context of a canvas of [cw] by [ch] pixels.  Clearing the
    whole canvas leaves an empty bitmap; [moveTo] and [lineTo] ignore
    arguments that are not finite. *)
Definition ctx_step (cw ch : Z) (s : ctx_state) (c : ctx_call) : ctx_state :=
  let '(CtxState ss lw fs fn ta pa bm) := s in
  match c with
  | ClearRect x y w h =>
      if Num.eqb x (Fin 0) && Num.eqb y (Fin 0)
         && Num.eqb w (Num.of_Z cw) && Num.eqb h (Num.of_Z ch)
      then CtxState ss lw fs fn ta pa []
      else CtxState ss lw fs fn ta pa (bm ++ [Erased x y w h])
  | SetStrokeStyle v => CtxState v lw fs fn ta pa bm
  | SetLineWidth v => CtxState ss v fs fn ta pa bm
  | SetFillStyle v => CtxState ss lw v fn ta pa bm
  | SetFont v => CtxState ss lw fs v ta pa bm
  | SetTextAlign v => CtxState ss lw fs fn v pa bm
  | BeginPath => CtxState ss lw fs fn ta [] bm
  | MoveTo x y | LineTo x y =>
      if Num.finite x && Num.finite y
      then CtxState ss lw fs fn ta (pa ++ [c]) bm
      else s
  | Stroke => CtxState ss lw fs fn ta pa (bm ++ [Stroked ss lw pa])
  | FillText t x y => CtxState ss lw fs fn ta pa (bm ++ [Texted fs fn ta t x y])
  end.

Definition ctx_run (cw ch : Z) (s : ctx_state) (cs : list ctx_call) : ctx_state :=
  foldl (ctx_step cw ch) s cs.

(** ** Paths and pages *)

(** [s.endsWith(suffix)] *)
Definition endsWith (s suffix : string) : bool :=
  (String.length suffix <=? String.length s)%nat
  && String.eqb (String.substring (String.length s - String.length suffix)
                           (String.length suffix) s) suffix.

(** [s.slice(0, -1)] *)
Definition slice_0_minus_1 (s : string) : string :=
  String.substring 0 (String.length s - 1) s.

(** The path [checkAuth] classifies: the path of the page, ["/"] if it is
    empty, without its trailing slash if it has more than one character. *)
Definition normalized_path (pathname : string) : string :=
  let path := if String.eqb pathname "" then "/" else pathname in
  if (1 <? String.length path)%nat && endsWith path "/"
  then slice_0_minus_1 path else path.

Definition onAuthPage (path : string) : bool :=
  String.eqb path "/" || String.eqb path "/auth" || String.prefix "/auth?" path.
Definition onUploadPage (path : string) : bool :=
  String.eqb path "/upload" || String.prefix "/upload?" path.
Definition onProfilePage (path : string) : bool :=
  String.eqb path "/profile" || String.prefix "/profile?" path.
Definition onAlgorithmPage (path : string) : bool :=
  String.eqb path "/algorithm" || String.prefix "/algorithm?" path.

(** [onUploadPage || onProfilePage || onAlgorithmPage] *)
Definition onPrivatePage (path : string) : bool :=
  onUploadPage path || onProfilePage path || onAlgorithmPage path.


(** ** The functions of the script *)

Section Script.
Context `{Builtins}.
Variable E : env.

(** [fetch(url, options)]: the request is sent, and the network answers the
    [n]-th request of the page as [server E n] says. *)
Definition fetch (r : request) : M response := fun w =>
  let w' := World (localStorage w) (document w) (S (sent w)) in
  match server E (sent w) r with
  | NetworkError => Run (Throw NetworkFailure) w' [EvFetch r]
  | Responds res => Run (Return res) w' [EvFetch r]
  end.

(** [await res.json()] *)
Definition res_json (res : response) : M jsval :=
  match json_body res with
  | Some v => mret v
  | None => throw SyntaxError
  end.

Definition ctx (c : ctx_call) : M unit := emit (EvCtx c).

Definition ctx_all (cs : list ctx_call) : M unit := fun w =>
  Run (Return tt) w (map EvCtx cs).

(** [Number(p.k) || 0] *)
Definition coordinate (k : string) (p : jsval) : outcome num :=
  v ← get_prop p k; number_or_zero v.

(** [series.map(p => Number(p.k) || 0)] *)
Definition column (k : string) (series : jsval) : outcome (list num) :=
  array_map (coordinate k) series.

(** [renderChart(series)].  The 2D context of the canvas is taken to exist
    whenever the canvas does. *)
Definition renderChart (series : jsval) : M unit :=
  canvas ← getElementById "engagement-chart";
  match canvas with
  | None => mret tt
  | Some cv =>
      let w := Num.of_Z (width cv) in
      let h := Num.of_Z (height cv) in
      ctx (ClearRect (Fin 0) (Fin 0) w h);;
      if negb (truthy series) || length_is_zero series then mret tt
      else
        times ← lift (column "t" series);
        values ← lift (column "value" series);
        tMin ← lift (Math_min times);
        tMax ← lift (Math_max times);
        let plotW := (w - padL - padR)%num in
        let plotH := (h - padT - padB)%num in
        ctx_all (axes w h (toFixed0 tMin ++ "s") (toFixed0 tMax ++ "s"));;
        ctx (SetStrokeStyle "#2a7");;
        ctx (SetLineWidth (Fin 2));;
        ctx BeginPath;;
        ctx_all (polyline (plot_points tMin tMax plotW plotH times values));;
        ctx Stroke
  end.

(** One row of the file list: the template literal of [loadUserFiles], with
    its line feeds and its indentation (12 spaces before the [div] tags, 16
    before the lines in between, 8 before the closing backquote). *)
Definition file_row (f : jsval) : outcome string :=
  filename ← get_prop f "filename";
  filename_text ← ToString filename;
  uploaded_at ← get_prop f "uploaded_at";
  uploaded_text ← date_text uploaded_at;
  id ← get_prop f "id";
  id_text ← ToString id;
  mret (nl ++ "            <div style=" ++ dq
        ++ "margin: 0.5rem 0; padding: 0.5rem; border: 1px solid #ccc; "
        ++ "display:flex; align-items:center; gap:0.5rem; flex-wrap:wrap;"
        ++ dq ++ ">"
        ++ nl ++ "                <span>" ++ filename_text
        ++ " (" ++ uploaded_text ++ ")</span>"
        ++ nl ++ "                <button onclick=" ++ dq
        ++ "analyzeFile(" ++ id_text ++ ")" ++ dq ++ ">Analyze</button>"
        ++ nl ++ "                <button onclick=" ++ dq
        ++ "deleteFile(" ++ id_text ++ ")" ++ dq ++ ">Delete</button>"
        ++ nl ++ "            </div>"
        ++ nl ++ "        ").

Definition files_error_html : string :=
  "<p style=" ++ dq ++ "color: red;" ++ dq ++ ">Error loading files</p>".

(** [loadUserFiles()], the list refresh *)
Definition loadUserFiles : M unit :=
  call "loadUserFiles" (
    token ← getItem "token";
    res ← fetch (Request GET "/media/files" (Some (bearer token)) None);
    data ← res_json res;
    filesEl ← getElementById "user-files";
    if ok res then
      rows ← lift (fs ← get_prop data "files"; array_map file_row fs);
      set_content "user-files" filesEl (String.concat "" rows)
    else
      set_content "user-files" filesEl files_error_html).

(** [getCurrentUser()]; [VNull] is its [null]. *)
Definition getCurrentUser : M jsval :=
  token ← getItem "token";
  if negb (truthy_item token) then mret VNull
  else
    res ← fetch (Request GET "/auth/me" (Some (bearer token)) None);
    if negb (ok res) then mret VNull
    else res_json res.

(** [if (nameEl && me && me.username) nameEl.textContent = me.username] after
    [me = await getCurrentUser()] *)
Definition show_username : M unit :=
  me ← getCurrentUser;
  nameEl ← getElementById "profile-username";
  match nameEl with
  | None => mret tt
  | Some _ =>
      if truthy me then
        username ← lift (get_prop me "username");
        if truthy username then
          text ← lift (ToString username);
          set_content "profile-username" nameEl text
        else mret tt
      else mret tt
  end.

(** [showUsernameInNav()] *)
Definition showUsernameInNav : M unit :=
  try_catch show_username (fun _ => mret tt).

(** The block that shows the login form, which [checkAuth] repeats in three
    places: if the tabs and both forms are on the page, un-hide the tabs and
    the login form and hide the registration form. *)
Definition show_auth_forms : M unit :=
  tabs ← querySelector ".tabs";
  loginForm ← getElementById "login-form";
  registerForm ← getElementById "register-form";
  match tabs, loginForm, registerForm with
  | Some _, Some _, Some _ =>
      update_element ".tabs" tabs (class_remove "hidden");;
      update_element "login-form" loginForm (class_remove "hidden");;
      update_element "register-form" registerForm (class_add "hidden")
  | _, _, _ => mret tt
  end.

Definition boot_request : request := Request GET "/meta/boot" None None.

Definition files_request (token : option string) : request :=
  Request GET "/media/files" (Some (bearer token)) None.

(** Step 1 of [checkAuth]: detect a restart of the server. *)
Definition checkAuth_boot : M unit :=
  try_catch
    (bootRes ← fetch boot_request;
     if ok bootRes then
       data ← res_json bootRes;
       boot_id ← lift (get_prop data "boot_id");
       prevBoot ← getItem "boot_id";
       (if truthy_item prevBoot && strict_neq_str (default "" prevBoot) boot_id
        then removeItem "token" else mret tt);;
       text ← lift (ToString boot_id);
       setItem "boot_id" text
     else mret tt)
    (fun _ => mret tt).

(** Step 3 of [checkAuth]: validate the token against the server. *)
Definition checkAuth_validate (token : option string) (path : string)
    : M unit :=
  try_catch
    (res ← fetch (files_request token);
     if ok res then
       if onAuthPage path then location_replace "/upload"
       else if onPrivatePage path then
         spawn loadUserFiles;;
         try_catch show_username (fun _ => mret tt)
       else mret tt
     else
       removeItem "token";;
       if onPrivatePage path then location_replace "/auth"
       else show_auth_forms)
    (fun _ =>
       removeItem "token";;
       if onUploadPage path then location_replace "/auth"
       else show_auth_forms).

(** [checkAuth()] *)
Definition checkAuth : M unit :=
  checkAuth_boot;;
  token ← getItem "token";
  let path := normalized_path (pathname E) in
  if negb (truthy_item token) then
    if onPrivatePage path then location_replace "/auth"
    else show_auth_forms
  else checkAuth_validate token path.

(** [logout()] *)
Definition logout : M unit :=
  try_catch (removeItem "token") (fun _ => mret tt);;
  location_replace "/auth".

(** [deleteFile(id)], the variant that refreshes the list whatever the
    response *)
Definition deleteFile (id : jsval) : M unit :=
  token ← getItem "token";
  if negb (truthy_item token) then mret tt
  else
    try_catch
      (id_text ← lift (ToString id);
       res ← fetch (Request DELETE ("/media/files/" ++ id_text)
                            (Some (bearer token)) None);
       spawn loadUserFiles)
      (fun _ => mret tt).

Definition token_hint : string :=
  "Set token in localStorage: localStorage.setItem(" ++ dq ++ "token" ++ dq
  ++ ", " ++ dq ++ "your_token" ++ dq ++ ")".

(** [upload()] *)
Definition upload : M unit :=
  input ← getElementById "fileInput";
  formData ← match input with
             | None => throw TypeError
             | Some el => mret (files el)
             end;
  token ← getItem "token";
  if negb (truthy_item token) then alert token_hint
  else
    res ← fetch (Request POST "/media/upload" (Some (bearer token))
                         (Some formData));
    data ← res_json res;
    resultsEl ← getElementById "results";
    if ok res then
      names ← lift (rs ← get_prop data "results";
                    array_map (fun r => get_prop r "filename") rs);
      texts ← lift (mapM join_item names);
      set_content "results" resultsEl
        ("<p style=" ++ dq ++ "color: green;" ++ dq ++ ">Uploaded: "
         ++ String.concat ", " texts ++ "</p>");;
      spawn loadUserFiles
    else
      detail ← lift (get_prop data "detail");
      text ← lift (ToString (if truthy detail then detail else VStr "Unknown"));
      set_content "results" resultsEl
        ("<p style=" ++ dq ++ "color: red;" ++ dq ++ ">Error: "
         ++ text ++ "</p>").

(** [if (errEl) errEl.textContent = text] *)
Definition show_error (errEl : option element) (text : M string) : M unit :=
  match errEl with
  | None => mret tt
  | Some _ => s ← text; set_content "chart-error" errEl s
  end.

Definition is_array (v : jsval) : bool :=
  match v with VArr _ => true | _ => false end.

(** [analyzeFile(id)] *)
Definition analyzeFile (id : jsval) : M unit :=
  token ← getItem "token";
  errEl ← getElementById "chart-error";
  show_error errEl (mret "");;
  if negb (truthy_item token) then show_error errEl (mret "Not authenticated")
  else
    try_catch
      (id_text ← lift (ToString id);
       res ← fetch (Request GET ("/media/files/" ++ id_text ++ "/analyze")
                            (Some (bearer token)) None);
       data ← res_json res;
       emit (EvConsole "analyze response" data);;
       if negb (ok res) then
         show_error errEl
           (detail ← lift (get_prop data "detail");
            lift (ToString (if truthy detail then detail
                            else VStr "Analyze failed")))
       else if negb (truthy data) then
         show_error errEl (mret "Unexpected analyze response")
       else
         series ← lift (get_prop data "series");
         if negb (is_array series) then
           show_error errEl (mret "Unexpected analyze response")
         else renderChart series)
      (fun _ => show_error errEl (mret "Connection error")).

End Script.

(** ** The first copy of the script

    Its [deleteFile] asks the user first and refreshes the list only when the
    server reports success; its file rows have no Analyze button. *)

Module FirstCopy.
Section Script.
Context `{Builtins}.
Variable E : env.

Definition file_row (f : jsval) : outcome string :=
  filename ← get_prop f "filename";
  filename_text ← ToString filename;
  uploaded_at ← get_prop f "uploaded_at";
  uploaded_text ← date_text uploaded_at;
  id ← get_prop f "id";
  id_text ← ToString id;
  mret (nl ++ "            <div style=" ++ dq
        ++ "margin: 0.5rem 0; padding: 0.5rem; border: 1px solid #ccc;"
        ++ dq ++ ">"
        ++ nl ++ "                <span>" ++ filename_text
        ++ " (" ++ uploaded_text ++ ")</span>"
        ++ nl ++ "                <button onclick=" ++ dq
        ++ "deleteFile(" ++ id_text ++ ")" ++ dq
        ++ " style=" ++ dq ++ "margin-left: 1rem;" ++ dq ++ ">Delete</button>"
        ++ nl ++ "            </div>"
        ++ nl ++ "        ").

Definition loadUserFiles : M unit :=
  call "loadUserFiles" (
    token ← getItem "token";
    res ← fetch E (Request GET "/media/files" (Some (bearer token)) None);
    data ← res_json res;
    filesEl ← getElementById "user-files";
    if ok res then
      rows ← lift (fs ← get_prop data "files"; array_map file_row fs);
      set_content "user-files" filesEl (String.concat "" rows)
    else
      set_content "user-files" filesEl files_error_html).

Definition deleteFile (id : jsval) : M unit :=
  emit (EvConfirm "Delete this file?");;
  if negb (confirm_answer E) then mret tt
  else
    token ← getItem "token";
    id_text ← lift (ToString id);
    res ← fetch E (Request DELETE ("/media/files/" ++ id_text)
                           (Some (bearer token)) None);
    if ok res then spawn loadUserFiles
    else alert "Delete failed".

End Script.
End FirstCopy.


(** ** Vocabulary of the properties *)

(** The context calls of [renderChart] on a canvas of [cw] by [ch] pixels
    once the series has given the columns [times] and [values]. *)
Definition drawing `{Builtins} (cw ch : num) (times values : list num)
    : list ctx_call :=
  let tMin := Num.min_list times in
  let tMax := Num.max_list times in
  let plotW := (cw - padL - padR)%num in
  let plotH := (ch - padT - padB)%num in
  ClearRect (Fin 0) (Fin 0) cw ch
  :: axes cw ch (toFixed0 tMin ++ "s") (toFixed0 tMax ++ "s")
  ++ [SetStrokeStyle "#2a7"; SetLineWidth (Fin 2); BeginPath]
  ++ polyline (plot_points tMin tMax plotW plotH times values)
  ++ [Stroke].

(** A series point [{t: t, value: v}] with numeric fields. *)
Definition point (t v : num) : jsval :=
  VObj [("t", VNum t); ("value", VNum v)].

(** The points of the path that is current at the end of a sequence of
    context calls, as the calls name them: what [moveTo] and [lineTo] were
    given since the last [beginPath]. *)
Fixpoint last_path (cs : list ctx_call) (acc : list (num * num))
    : list (num * num) :=
  match cs with
  | [] => acc
  | BeginPath :: cs' => last_path cs' []
  | MoveTo x y :: cs' | LineTo x y :: cs' => last_path cs' (acc ++ [(x, y)])
  | _ :: cs' => last_path cs' acc
  end.

(** The pixels [renderChart] plots the points of the series at. *)
Definition plotted_points (cs : list ctx_call) : list (num * num) :=
  last_path cs [].

(** All points of the series have the timestamp [t]. *)
Definition same_timestamp `{Builtins} (t : num) (ps : list jsval) : Prop :=
  Forall (fun p => coordinate "t" p = Return t) ps.

(** A field value that is not a number: [Number(v)] is [NaN]. *)
Definition non_numeric `{Builtins} (v : jsval) : Prop :=
  ToNumber v = Return NaN.

(** [Number(p.value)] can be computed: [p] is not [null] or [undefined] and
    the conversion of its field [value] does not throw. *)
Definition value_readable `{Builtins} (p : jsval) : Prop :=
  exists v, coordinate "value" p = Return v.

(** The series has no more points than a call can take arguments. *)
Definition fits_arguments `{Builtins} (ps : list jsval) : Prop :=
  spread_fits (length ps) = true.

(** The value of the field [k] of an object. *)
Definition field (k : string) (fs : list (string * jsval)) : jsval :=
  default VUndefined (assoc k fs).

(** The empty series, as the callers of [renderChart] can pass it. *)
Definition empty_series (series : jsval) : Prop :=
  series = VArr [] \/ series = VNull \/ series = VUndefined.

(** The context after the whole canvas has been cleared. *)
Definition cleared (s : ctx_state) : ctx_state :=
  CtxState (strokeStyle s) (lineWidth s) (fillStyle s) (font s) (textAlign s)
           (path s) [].

(** The URLs [window.location.replace] was called with, in order. *)
Definition navigations (evs : list event) : list string :=
  omap (fun e => match e with EvNavigate url => Some url | _ => None end) evs.

(** The requests sent, in order. *)
Definition requests (evs : list event) : list request :=
  omap (fun e => match e with EvFetch r => Some r | _ => None end) evs.

(** The requests that carry an [Authorization] header, in order. *)
Definition protected_requests (evs : list event) : list request :=
  omap (fun e => match e with
                 | EvFetch r =>
                     match req_authorization r with
                     | Some _ => Some r
                     | None => None
                     end
                 | _ => None
                 end) evs.

(** How many times [loadUserFiles] was entered. *)
Definition is_refresh (e : event) : bool :=
  match e with
  | EvCall f => String.eqb f "loadUserFiles"
  | _ => false
  end.

Definition refreshes (evs : list event) : nat :=
  length (List.filter is_refresh evs).

(** A token is stored, as the script tests it ([!token] is false). *)
Definition token_stored (w : world) : bool :=
  truthy_item (localStorage w !! "token").

(** The page is neither the public page nor a private one. *)
Definition unclassified (path : string) : Prop :=
  onAuthPage path = false /\ onPrivatePage path = false.

(** [GET /meta/boot] succeeds and returns a boot id that differs from the
    stored boot id [prev]. *)
Definition stored_boot_differs (E : env) (w : world) (prev : string) : Prop :=
  exists r data b,
    server E (sent w) boot_request = Responds r
    /\ ok r = true
    /\ json_body r = Some data
    /\ get_prop data "boot_id" = Return b
    /\ localStorage w !! "boot_id" = Some prev
    /\ strict_neq_str prev b = true.

(** The second request of a run of [checkAuth] is the validation request,
    and the server answers it with a response that is not [ok]. *)
Definition validation_rejected `{Builtins} (E : env) (w : world) : Prop :=
  exists tok r,
    events_of (checkAuth E w) !! 1%nat = Some (EvFetch (files_request tok))
    /\ server E (S (sent w)) (files_request tok) = Responds r
    /\ ok r = false.

(** The same, the request failing on the network. *)
Definition validation_unreachable `{Builtins} (E : env) (w : world) : Prop :=
  exists tok,
    events_of (checkAuth E w) !! 1%nat = Some (EvFetch (files_request tok))
    /\ server E (S (sent w)) (files_request tok) = NetworkError.

(** The login form is shown: the tabs and the login form are not hidden, the
    registration form is. *)
Definition forms_revealed (doc : gmap string element) : Prop :=
  exists tabs loginForm registerForm,
    doc !! ".tabs" = Some tabs
    /\ ("hidden" ∉ classList tabs)
    /\ doc !! "login-form" = Some loginForm
    /\ ("hidden" ∉ classList loginForm)
    /\ doc !! "register-form" = Some registerForm
    /\ ("hidden" ∈ classList registerForm).

Definition has_forms (doc : gmap string element) : Prop :=
  is_Some (doc !! ".tabs") /\ is_Some (doc !! "login-form")
  /\ is_Some (doc !! "register-form").

(** A run of [deleteFile] sends a [DELETE] request first, and the server
    answers it with a response. *)
Definition delete_completes `{Builtins} (E : env) (id : jsval) (w : world)
    : Prop :=
  exists req r,
    events_of (deleteFile E id w) !! 0%nat = Some (EvFetch req)
    /\ req_method req = DELETE
    /\ server E (sent w) req = Responds r.

(** *** Sample inputs *)

(** Conversions for the samples.  They are the conversions of the language
    on what the samples hold: integers and strings without a numeric value.
    The sample engine takes 65535 arguments. *)
Definition print_integer (n : num) : string :=
  match n with
  | NaN => "NaN"
  | Inf neg => if neg then "-Infinity" else "Infinity"
  | Fin q => NilZero.string_of_int (Z.to_int (Qfloor q))
  end.

Definition sample_arguments_two : (2 <= 65535)%N := ltac:(discriminate).

Definition sample_builtins : Builtins := {|
  StringToNumber := fun _ => NaN;
  NumberToString := print_integer;
  toFixed0 := print_integer;
  dateToLocaleString := fun _ => "Invalid Date";
  max_arguments := 65535;
  max_arguments_two := sample_arguments_two
|}.

(** A canvas of 300 by 150 pixels, the default size. *)
Definition sample_canvas : element := Element [] "" [] 300 150.

(** A page that holds the chart canvas and nothing else, nothing stored. *)
Definition chart_page : world :=
  World ∅ {[ "engagement-chart" := sample_canvas ]} 0.

(** A server whose boot id is ["boot-2"] and that accepts every request. *)
Definition boot_2_response : response :=
  Response true (Some (VObj [("boot_id", VStr "boot-2")])).

Definition accepting_server (path : string) : env :=
  Env path (fun _ _ => Responds boot_2_response) true.

(** A server that answers the boot probe and rejects every other request. *)
Definition rejecting_server (path : string) : env :=
  Env path (fun n _ =>
              match n with
              | O => Responds boot_2_response
              | S _ => Responds (Response false
                                   (Some (VObj [("detail", VStr "Invalid token")])))
              end) true.

(** A server that answers the boot probe and is unreachable afterwards. *)
Definition vanishing_server (path : string) : env :=
  Env path (fun n _ => match n with
                       | O => Responds boot_2_response
                       | S _ => NetworkError
                       end) true.

(** The storage of a logged-in user who last saw the boot id [boot]; no
    element on the page. *)
Definition logged_in (boot : string) : world :=
  World {[ "token" := "tok"; "boot_id" := boot ]} ∅ 0.

(** Nothing stored, no element on the page. *)
Definition logged_out : world := World ∅ ∅ 0.

(** The upload page: a file input with one file selected and the results
    paragraph; nothing stored. *)
Definition upload_page : world :=
  World ∅ {[ "fileInput" := Element [] "" ["lecture.mp4"] 0 0;
             "results" := Element [] "" [] 0 0 ]} 0.

(** A point whose [value] cannot be converted: an object whose own
    [toString] is not a function. *)
Definition unconvertible : jsval := VObj [("toString", VNum (Fin 1))].

Definition unconvertible_point : jsval :=
  VObj [("t", VNum (Fin 5)); ("value", unconvertible)].

(** A series of 65536 points, one more than the sample engine takes
    arguments. *)
Definition crowded_series : list jsval :=
  replicate (N.to_nat 65536) (point (Fin 5) (Fin 0)).

(** A context on which one line has been stroked. *)
Definition painted_context : ctx_state :=
  CtxState "#2a7" (Fin 2) "#555" "12px sans-serif" "right"
           [MoveTo (Fin 40) (Fin 120); LineTo (Fin 290) (Fin 10)]
           [Stroked "#2a7" (Fin 2)
                    [MoveTo (Fin 40) (Fin 120); LineTo (Fin 290) (Fin 10)]].

(** ** Vocabulary of the further properties *)

(** The boot id that step 1 of [checkAuth] reads off the boot probe, if the
    probe succeeds and its body can be destructured. *)
Definition probed_boot_id (E : env) (w : world) : option jsval :=
  match server E (sent w) boot_request with
  | NetworkError => None
  | Responds r =>
      if ok r then
        match json_body r with
        | None => None
        | Some data =>
            match get_prop data "boot_id" with
            | Return b => Some b
            | Throw _ => None
            end
        end
      else None
  end.

(** The test [prevBoot && prevBoot !== boot_id] of step 1, false when the
    probe gives no boot id. *)
Definition boot_change_observed (E : env) (w : world) : bool :=
  match probed_boot_id E w with
  | None => false
  | Some b =>
      truthy_item (localStorage w !! "boot_id")
      && strict_neq_str (default "" (localStorage w !! "boot_id")) b
  end.

(** The request of [getCurrentUser]. *)
Definition me_request (token : option string) : request :=
  Request GET "/auth/me" (Some (bearer token)) None.

(** The text of [v] in a template literal, where its conversion gives one
    (where it throws, no request is made of it). *)
Definition text_of `{Builtins} (v : jsval) : string :=
  match ToString v with
  | Return text => text
  | Throw _ => ""
  end.

(** The request of [deleteFile]. *)
Definition delete_request `{Builtins} (id : jsval) (token : option string)
    : request :=
  Request DELETE ("/media/files/" ++ text_of id) (Some (bearer token)) None.

(** The request of [analyzeFile]. *)
Definition analyze_request `{Builtins} (id : jsval) (token : option string)
    : request :=
  Request GET ("/media/files/" ++ text_of id ++ "/analyze")
          (Some (bearer token)) None.

(** The request of [upload]. *)
Definition upload_request (token : option string) (formData : list string)
    : request :=
  Request POST "/media/upload" (Some (bearer token)) (Some formData).

(** The content of an element of the page, if the page has it. *)
Definition content_of (w : world) (id : string) : option string :=
  content <$> document w !! id.

(** Two documents agree outside the keys [ids]. *)
Definition same_elsewhere (ids : list string) (doc doc' : gmap string element)
    : Prop :=
  forall id, id ∉ ids -> doc' !! id = doc !! id.

(** [a <= b] on finite numbers. *)
Definition num_le (a b : num) : Prop :=
  match a, b with
  | Fin x, Fin y => (x <= y)%Q
  | _, _ => False
  end.

(** The storage step 1 of [checkAuth] leaves: the token is gone if a change
    of boot id was observed, and the boot id the probe gave is stored if it
    can be converted to a string. *)
Definition storage_after_boot `{Builtins} (E : env) (w : world)
    : gmap string string :=
  match probed_boot_id E w with
  | None => localStorage w
  | Some b =>
      let ls := if boot_change_observed E w
                then delete "token" (localStorage w)
                else localStorage w in
      match ToString b with
      | Return text => <["boot_id" := text]> ls
      | Throw _ => ls
      end
  end.

(** Whether the server accepts the validation request of step 3. *)
Definition validation_accepted (E : env) (w1 : world) (tok : option string)
    : bool :=
  match server E (sent w1) (files_request tok) with
  | Responds r => ok r
  | NetworkError => false
  end.

(** What step 3 of [checkAuth] does after it has sent the validation
    request, from a world where [stored] is the stored token. *)
Definition events_after_validation (E : env) (w1 : world)
    (tok stored : option string) (path : string) : list event :=
  match server E (sent w1) (files_request tok) with
  | NetworkError => if onUploadPage path then [EvNavigate "/auth"] else []
  | Responds r =>
      if ok r then
        if onAuthPage path then [EvNavigate "/upload"]
        else if onPrivatePage path then
          [EvCall "loadUserFiles"; EvFetch (files_request stored)]
          ++ (if truthy_item stored then [EvFetch (me_request stored)] else [])
        else []
      else if onPrivatePage path then [EvNavigate "/auth"] else []
  end.

(** *** Further sample inputs *)

(** A server whose boot id is the number 7 and that accepts every request. *)
Definition numeric_boot_server (path : string) : env :=
  Env path
      (fun _ _ => Responds (Response true
                              (Some (VObj [("boot_id", VNum (Fin 7))]))))
      true.

(** The texts [upload] writes to the results element, for the texts of the
    file names and of the reason. *)
Definition uploaded_html (names : list string) : string :=
  "<p style=" ++ dq ++ "color: green;" ++ dq ++ ">Uploaded: "
  ++ String.concat ", " names ++ "</p>".

Definition upload_error_html (reason : string) : string :=
  "<p style=" ++ dq ++ "color: red;" ++ dq ++ ">Error: " ++ reason ++ "</p>".

(** A page with the upload form and the file list, a token stored. *)
Definition upload_page_logged_in : world :=
  World {[ "token" := "tok" ]}
        {[ "fileInput" := Element [] "" ["lecture.mp4"] 0 0;
           "results" := Element [] "" [] 0 0;
           "user-files" := Element [] "" [] 0 0 ]} 0.

(** A server that reports the upload of [lecture.mp4], then lists no file. *)
Definition upload_ok_response : response :=
  Response true
    (Some (VObj [("results", VArr [VObj [("filename", VStr "lecture.mp4")]])])).

Definition upload_server : env :=
  Env "/upload"
      (fun n _ => match n with
                  | O => Responds upload_ok_response
                  | S _ => Responds (Response true
                                       (Some (VObj [("files", VArr [])])))
                  end) true.

(** A server that refuses every request, with and without a reason. *)
Definition refusing_server (body : jsval) : env :=
  Env "/upload" (fun _ _ => Responds (Response false (Some body))) true.

(** A network that is down. *)
Definition offline : env := Env "/upload" (fun _ _ => NetworkError) true.

(** [String(v)] does not throw: no object with an own [toString] is reached
    through the arrays of [v]. *)
Fixpoint converts (v : jsval) : bool :=
  match v with
  | VArr items => forallb (fun x => is_nullish x || converts x) items
  | VObj fs => negb (has_own "toString" fs)
  | _ => true
  end.

(** [p.k] for a [p] that is not [null] or [undefined]. *)
Definition property (p : jsval) (k : string) : jsval :=
  match p with
  | VObj fs => field k fs
  | _ => VUndefined
  end.

(** A point both coordinates of which can be read: it is not [null] or
    [undefined], and its fields [t] and [value] can be converted. *)
Definition readable_point (p : jsval) : bool :=
  negb (is_nullish p)
  && converts (property p "t") && converts (property p "value").

(** An array of readable points. *)
Definition readable_series (series : jsval) : bool :=
  match series with
  | VArr ps => forallb readable_point ps
  | _ => false
  end.

(** The number of elements of an array. *)
Definition series_length (series : jsval) : nat :=
  match series with
  | VArr ps => length ps
  | _ => 0
  end.

(** The [clearRect] that opens [renderChart] on the canvas [cv]. *)
Definition clearing (cv : element) : ctx_call :=
  ClearRect (Fin 0) (Fin 0) (Num.of_Z (width cv)) (Num.of_Z (height cv)).

(** A pixel inside the plot area of the canvas [cv], margins included. *)
Definition in_plot_area (cv : element) (px : num * num) : Prop :=
  num_le padL px.1
  /\ num_le px.1 (Num.of_Z (width cv) - padR)
  /\ num_le padT px.2
  /\ num_le px.2 (Num.of_Z (height cv) - padB).

(** Timestamps of this size have differences that are finite in binary64:
    the subtraction [tMax - tMin] does not overflow. *)
Definition time_bound : Q := inject_Z (2 ^ 1022).

(** A point with a timestamp within [time_bound] and a value between 0 and
    1. *)
Definition unit_point `{Builtins} (p : jsval) : Prop :=
  exists tq vq,
    coordinate "t" p = Return (Fin tq)
    /\ coordinate "value" p = Return (Fin vq)
    /\ (0 <= vq)%Q /\ (vq <= 1)%Q
    /\ (- time_bound <= tq)%Q /\ (tq <= time_bound)%Q.

(** The width and the height of a canvas are unsigned 32-bit integers. *)
Definition canvas_bound : Z := 2 ^ 32.

(** Integer values of this size, on a canvas within [canvas_bound], go
    through the vertical scale without rounding in binary64: every
    intermediate result is an integer below 2^53. *)
Definition value_bound : Z := 2 ^ 20.

(** What the server answers to the request of [analyzeFile]. *)
Definition analyze_answer `{Builtins} (E : env) (id : jsval) (w : world)
    : fetch_result :=
  server E (sent w) (analyze_request id (localStorage w !! "token")).

(** The text of the error element of the chart. *)
Definition error_shown (w : world) : option string :=
  content_of w "chart-error".

(** *** Sample pages and servers of the file operations and the analysis *)

(** A server that answers every request with a body that is not JSON. *)
Definition non_json_server : env :=
  Env "/upload" (fun _ _ => Responds (Response true None)) true.

(** One file record, and a server that lists it. *)
Definition sample_file : jsval :=
  VObj [("id", VNum (Fin 1)); ("filename", VStr "lecture.mp4");
        ("uploaded_at", VStr "2024-05-01T10:00:00")].

(** The row of the file list for that record, as the page gets it. *)
Definition sample_row : string :=
  nl ++ "            <div style=" ++ dq
  ++ "margin: 0.5rem 0; padding: 0.5rem; border: 1px solid #ccc; "
  ++ "display:flex; align-items:center; gap:0.5rem; flex-wrap:wrap;" ++ dq
  ++ ">" ++ nl
  ++ "                <span>lecture.mp4 (Invalid Date)</span>" ++ nl
  ++ "                <button onclick=" ++ dq ++ "analyzeFile(1)" ++ dq
  ++ ">Analyze</button>" ++ nl
  ++ "                <button onclick=" ++ dq ++ "deleteFile(1)" ++ dq
  ++ ">Delete</button>" ++ nl
  ++ "            </div>" ++ nl
  ++ "        ".

Definition listing_response : response :=
  Response true (Some (VObj [("files", VArr [sample_file])])).

Definition listing_server : env :=
  Env "/upload" (fun _ _ => Responds listing_response) true.

(** The bodies of two refusals. *)
Definition invalid_token_body : jsval :=
  VObj [("detail", VStr "Invalid token")].

Definition too_large_body : jsval := VObj [("detail", VStr "Too large")].

(** A series that rises from 0 to 1 in ten seconds, and one that leaves the
    range of values. *)
Definition rising_series : list jsval :=
  [point (Fin 0) (Fin 0); point (Fin 10) (Fin 1)].

Definition overshooting_series : list jsval :=
  [point (Fin 0) (Fin 2); point (Fin 10) (Num.of_Z (-1))].

(** The algorithm page: the chart canvas and the error element, a token
    stored. *)
Definition chart_error_element : element := Element [] "stale" [] 0 0.

Definition analysis_page : world :=
  World {[ "token" := "tok" ]}
        {[ "engagement-chart" := sample_canvas;
           "chart-error" := chart_error_element ]} 0.

(** A server that answers every request with the rising series. *)
Definition analysis_body : jsval := VObj [("series", VArr rising_series)].

Definition analysis_server : env :=
  Env "/algorithm" (fun _ _ => Responds (Response true (Some analysis_body)))
      true.

(** * Properties *)

(** ** Arithmetic on numbers *)

Lemma Qred_of_Z (q : Q) (z : Z) : q == inject_Z z -> Qred q = inject_Z z.
Proof.
  intros Hq. rewrite (Qred_complete _ _ Hq).
  apply Qred_identity. simpl. apply Z.gcd_1_r.
Qed.

Lemma num_add_of_Z (a b : Z) :
  (Num.of_Z a + Num.of_Z b)%num = Num.of_Z (a + b).
Proof.
  unfold Num.of_Z, Num.add. f_equal. apply Qred_of_Z.
  unfold Qeq; simpl; lia.
Qed.

Lemma num_sub_of_Z (a b : Z) :
  (Num.of_Z a - Num.of_Z b)%num = Num.of_Z (a - b).
Proof.
  unfold Num.of_Z, Num.sub. f_equal. apply Qred_of_Z.
  unfold Qeq; simpl; lia.
Qed.

Lemma num_mul_of_Z (a b : Z) :
  (Num.of_Z a * Num.of_Z b)%num = Num.of_Z (a * b).
Proof.
  unfold Num.of_Z, Num.mul. f_equal. apply Qred_of_Z.
  unfold Qeq; simpl; lia.
Qed.

Lemma num_sub_diag (q : Q) : (Fin q - Fin q)%num = Fin 0.
Proof.
  unfold Num.sub. f_equal. apply (Qred_of_Z _ 0). ring.
Qed.

Lemma num_ltb_irrefl (q : Q) : Num.ltb (Fin q) (Fin q) = false.
Proof.
  unfold Num.ltb. apply negb_false_iff, Qle_bool_iff, Qle_refl.
Qed.

Lemma num_eqb_of_Z (z : Z) : Num.eqb (Num.of_Z z) (Num.of_Z z) = true.
Proof. unfold Num.of_Z, Num.eqb. apply Qeq_bool_iff. reflexivity. Qed.

(** The least and the greatest of a non-empty list of copies of one finite
    number is that number. *)
Lemma num_min_list_const (q : Q) (l : list num) :
  l <> [] -> Forall (fun t => t = Fin q) l -> Num.min_list l = Fin q.
Proof.
  intros Hne Hall. induction Hall as [|t l -> Hall IH]; [done|].
  destruct l as [|t' l].
  - reflexivity.
  - unfold Num.min_list in *. cbn [foldr]. cbn [foldr] in IH.
    rewrite IH by done. unfold Num.min2. by rewrite num_ltb_irrefl.
Qed.

Lemma num_max_list_const (q : Q) (l : list num) :
  l <> [] -> Forall (fun t => t = Fin q) l -> Num.max_list l = Fin q.
Proof.
  intros Hne Hall. induction Hall as [|t l -> Hall IH]; [done|].
  destruct l as [|t' l].
  - reflexivity.
  - unfold Num.max_list in *. cbn [foldr]. cbn [foldr] in IH.
    rewrite IH by done. unfold Num.max2. by rewrite num_ltb_irrefl.
Qed.

(** ** The scales of the chart *)

(** The plot area of a canvas is finite. *)
Lemma plotW_of_Z (cw : Z) :
  (Num.of_Z cw - padL - padR)%num = Num.of_Z (cw - 40 - 10).
Proof.
  change padL with (Num.of_Z 40). change padR with (Num.of_Z 10).
  by rewrite !num_sub_of_Z.
Qed.

Lemma plotH_of_Z (ch : Z) :
  (Num.of_Z ch - padT - padB)%num = Num.of_Z (ch - 10 - 30).
Proof.
  change padT with (Num.of_Z 10). change padB with (Num.of_Z 30).
  by rewrite !num_sub_of_Z.
Qed.

(** When the time range is empty, the horizontal scale sends the one
    finite timestamp to the left margin. *)
Lemma scale_x_degenerate (q : Q) (pw : Z) :
  scale_x (Fin q) (Fin q) (Num.of_Z pw) (Fin q) = padL.
Proof.
  unfold scale_x. rewrite num_sub_diag.
  change (Num.max2 tiny (Fin 0)) with tiny.
  change (Fin 0 / tiny)%num with (Num.of_Z 0).
  rewrite num_mul_of_Z. change padL with (Num.of_Z 40).
  rewrite num_add_of_Z. f_equal.
Qed.

(** Over the time range 0..10 the scale sends 0 to the left margin and 10 to
    the right margin. *)
Lemma scale_x_left (cw : Z) :
  scale_x (Fin 0) (Fin 10) (Num.of_Z cw - padL - padR) (Fin 0) = padL.
Proof.
  unfold scale_x. rewrite plotW_of_Z.
  change ((Fin 0 - Fin 0) / Num.max2 tiny (Fin 10 - Fin 0))%num
    with (Num.of_Z 0).
  rewrite num_mul_of_Z. change padL with (Num.of_Z 40).
  rewrite num_add_of_Z. f_equal.
Qed.

Lemma scale_x_right (cw : Z) :
  scale_x (Fin 0) (Fin 10) (Num.of_Z cw - padL - padR) (Fin 10)
  = (Num.of_Z cw - padR)%num.
Proof.
  unfold scale_x. rewrite plotW_of_Z.
  change ((Fin 10 - Fin 0) / Num.max2 tiny (Fin 10 - Fin 0))%num
    with (Num.of_Z 1).
  rewrite num_mul_of_Z. change padL with (Num.of_Z 40).
  change padR with (Num.of_Z 10).
  rewrite num_add_of_Z, num_sub_of_Z. f_equal. lia.
Qed.

(** The vertical scale sends the value 0 to the bottom axis and the value 1
    to the top of the plot area. *)
Lemma scale_y_bottom (ch : Z) :
  scale_y (Num.of_Z ch - padT - padB) (Fin 0) = (Num.of_Z ch - padB)%num.
Proof.
  unfold scale_y. rewrite plotH_of_Z.
  change (Fin 1 - (Fin 0 - vMin) / Num.max2 tiny (vMax - vMin))%num
    with (Num.of_Z 1).
  rewrite num_mul_of_Z. change padT with (Num.of_Z 10).
  change padB with (Num.of_Z 30).
  rewrite num_add_of_Z, num_sub_of_Z. f_equal. lia.
Qed.

Lemma scale_y_top (ch : Z) :
  scale_y (Num.of_Z ch - padT - padB) (Fin 1) = padT.
Proof.
  unfold scale_y. rewrite plotH_of_Z.
  change (Fin 1 - (Fin 1 - vMin) / Num.max2 tiny (vMax - vMin))%num
    with (Num.of_Z 0).
  rewrite num_mul_of_Z. change padT with (Num.of_Z 10).
  rewrite num_add_of_Z. f_equal.
Qed.

(** ** Conversions *)

(** Induction on values, through the elements of arrays. *)
Lemma jsval_array_ind (P : jsval -> Prop) :
  P VUndefined -> P VNull -> (forall b, P (VBool b)) ->
  (forall n, P (VNum n)) -> (forall s, P (VStr s)) ->
  (forall items, Forall P items -> P (VArr items)) ->
  (forall fs, P (VObj fs)) ->
  forall v, P v.
Proof.
  intros Hu Hn Hb Hnum Hs Harr Hobj.
  fix IH 1.
  intros [| |b|n|s|items|fs];
    [exact Hu | exact Hn | apply Hb | apply Hnum | apply Hs | | apply Hobj].
  apply Harr. induction items as [|x items IHitems]; constructor.
  - apply IH.
  - exact IHitems.
Qed.

(** A list is mapped through a function that throws on the elements that are
    not [good], always the same exception. *)
Lemma mapM_good {A B} (f : A -> outcome B) (good : A -> bool) (e : exn)
    (l : list A) :
  Forall (fun a => if good a then exists b, f a = Return b
                   else f a = Throw e) l ->
  if forallb good l
  then exists bs, mapM f l = Return bs /\ length bs = length l
  else mapM f l = Throw e.
Proof.
  induction 1 as [|a l Ha _ IH]; cbn [forallb mapM].
  - by exists [].
  - destruct (good a); cbn [andb].
    + destruct Ha as [b ->]. cbn.
      destruct (forallb good l).
      * destruct IH as (bs & -> & Hlen). exists (b :: bs).
        split; [done|]. cbn. by rewrite Hlen.
      * by rewrite IH.
    + by rewrite Ha.
Qed.

Section ConversionFacts.
Context `{Builtins}.

Lemma ToString_array (items : list jsval) :
  ToString (VArr items)
  = parts ← mapM join_item items; Return (String.concat "," parts).
Proof. reflexivity. Qed.

(** [String(v)] returns exactly on the values that [converts] accepts, and
    throws a [TypeError] on the others. *)
Lemma ToString_converts (v : jsval) :
  if converts v then exists text, ToString v = Return text
  else ToString v = Throw TypeError.
Proof.
  induction v as [| |b|n|s|items IH|fs] using jsval_array_ind;
    try (cbn; eauto; fail).
  - rewrite ToString_array. cbn [converts].
    pose proof (mapM_good join_item (fun x => is_nullish x || converts x)
                  TypeError items) as Hmap.
    destruct (forallb _ items).
    + destruct Hmap as (parts & -> & _); [|by eexists].
      eapply Forall_impl; [exact IH|]. intros x Hx. unfold join_item.
      destruct (is_nullish x); cbn [orb]; [by eexists | exact Hx].
    + rewrite Hmap; [done|].
      eapply Forall_impl; [exact IH|]. intros x Hx. unfold join_item.
      destruct (is_nullish x); cbn [orb]; [by eexists | exact Hx].
  - cbn. destruct (has_own "toString" fs); cbn; eauto.
Qed.

Lemma ToNumber_converts (v : jsval) :
  if converts v then exists n, ToNumber v = Return n
  else ToNumber v = Throw TypeError.
Proof.
  pose proof (ToString_converts v) as Hs.
  destruct v; try (cbn; eauto; fail).
  - unfold ToNumber. destruct (converts (VArr items)).
    + destruct Hs as [text ->]. by eexists.
    + by rewrite Hs.
  - unfold ToNumber. destruct (converts (VObj fields)).
    + destruct Hs as [text ->]. by eexists.
    + by rewrite Hs.
Qed.

Lemma number_or_zero_converts (v : jsval) :
  if converts v then exists n, number_or_zero v = Return n
  else number_or_zero v = Throw TypeError.
Proof.
  pose proof (ToNumber_converts v) as Hn. unfold number_or_zero.
  destruct (converts v).
  - destruct Hn as [n ->]. by eexists.
  - by rewrite Hn.
Qed.

(** A call with two arguments fits. *)
Lemma spread_fits_two : spread_fits 2 = true.
Proof. unfold spread_fits. apply N.leb_le. exact max_arguments_two. Qed.

End ConversionFacts.

(** ** The chart renderer *)

Section ChartFacts.
Context `{Builtins}.

Lemma map_EvCtx_app (a b : list ctx_call) :
  map EvCtx (a ++ b) = (map EvCtx a ++ map EvCtx b)%list.
Proof. apply map_app. Qed.

Lemma ctx_calls_EvCtx (cs : list ctx_call) : ctx_calls (map EvCtx cs) = cs.
Proof.
  unfold ctx_calls. induction cs as [|c cs IH]; [done|].
  cbn. by rewrite IH.
Qed.

(** Reading a coordinate: the point must not be [null] or [undefined], and
    its field must convert. *)
Lemma coordinate_property (k : string) (p : jsval) :
  coordinate k p
  = if is_nullish p then Throw TypeError else number_or_zero (property p k).
Proof. by destruct p. Qed.

Lemma coordinate_readable (k : string) (p : jsval) :
  if negb (is_nullish p) && converts (property p k)
  then exists n, coordinate k p = Return n
  else coordinate k p = Throw TypeError.
Proof.
  rewrite coordinate_property. destruct (is_nullish p); [done|].
  cbn [negb andb]. apply number_or_zero_converts.
Qed.

Lemma column_readable (k : string) (ps : list jsval) :
  if forallb (fun p => negb (is_nullish p) && converts (property p k)) ps
  then exists l, column k (VArr ps) = Return l /\ length l = length ps
  else column k (VArr ps) = Throw TypeError.
Proof.
  unfold column, array_map. apply mapM_good, Forall_true.
  intros p. apply coordinate_readable.
Qed.

Lemma readable_points_columns (ps : list jsval) :
  forallb readable_point ps
  = forallb (fun p => negb (is_nullish p) && converts (property p "t")) ps
    && forallb (fun p => negb (is_nullish p)
                         && converts (property p "value")) ps.
Proof.
  induction ps as [|p ps IH]; [done|]. cbn [forallb].
  rewrite IH. unfold readable_point.
  set (A := forallb _ ps). set (B := forallb _ ps).
  by destruct (is_nullish p), (converts (property p "t")),
    (converts (property p "value")), A, B.
Qed.

(** The two columns of an array can be read exactly when all its points are
    readable. *)
Lemma columns_readable (ps : list jsval) :
  if forallb readable_point ps
  then exists times values,
         column "t" (VArr ps) = Return times
         /\ column "value" (VArr ps) = Return values
         /\ length times = length ps /\ length values = length ps
  else column "t" (VArr ps) = Throw TypeError
       \/ column "value" (VArr ps) = Throw TypeError.
Proof.
  pose proof (column_readable "t" ps) as Ht.
  pose proof (column_readable "value" ps) as Hv.
  rewrite readable_points_columns.
  destruct (forallb _ ps); cbn [andb]; [|by left].
  destruct (forallb _ ps); [|by right].
  destruct Ht as (times & Ht & Hlt), Hv as (values & Hv & Hlv).
  by exists times, values.
Qed.

(** [renderChart] in full. *)
Lemma renderChart_run (series : jsval) (w : world) :
  renderChart series w
  = match document w !! "engagement-chart" with
    | None => Run (Return tt) w []
    | Some cv =>
        if negb (truthy series) || length_is_zero series
        then Run (Return tt) w [EvCtx (clearing cv)]
        else
          match column "t" series, column "value" series with
          | Return times, Return values =>
              if spread_fits (length times)
              then Run (Return tt) w
                       (map EvCtx (drawing (Num.of_Z (width cv))
                                           (Num.of_Z (height cv))
                                           times values))
              else Run (Throw RangeError) w [EvCtx (clearing cv)]
          | Throw e, _ | Return _, Throw e =>
              Run (Throw e) w [EvCtx (clearing cv)]
          end
    end.
Proof.
  unfold renderChart, mbind, M_bind, getElementById.
  destruct (document w !! "engagement-chart") as [cv|]; [|done].
  cbn [ctx emit].
  destruct (negb (truthy series) || length_is_zero series); [done|].
  unfold lift.
  destruct (column "t" series) as [times|e]; [|done].
  destruct (column "value" series) as [values|e]; [|done].
  unfold Math_min, Math_max.
  destruct (spread_fits (length times)); [|done].
  unfold drawing, ctx_all. cbn [app map]. f_equal. f_equal.
  rewrite map_EvCtx_app. cbn [map]. by rewrite map_EvCtx_app.
Qed.

(** On a non-empty array whose columns can be read and fit the arguments of
    a call, [renderChart] returns and sends exactly [drawing] to the
    context. *)
Lemma renderChart_draws (w : world) (cv : element) (ps : list jsval)
    (times values : list num) :
  document w !! "engagement-chart" = Some cv ->
  ps <> [] ->
  column "t" (VArr ps) = Return times ->
  column "value" (VArr ps) = Return values ->
  spread_fits (length times) = true ->
  renderChart (VArr ps) w
  = Run (Return tt) w
        (map EvCtx (drawing (Num.of_Z (width cv)) (Num.of_Z (height cv))
                            times values)).
Proof.
  intros Hcv Hne Ht Hv Hfit. rewrite renderChart_run, Hcv, Ht, Hv, Hfit.
  by destruct ps.
Qed.

(** C5.  On the series [[{t:0,value:0},{t:10,value:1}]] the polyline of
    [renderChart] starts at pixel [(padL, h - padB)], the left margin on the
    bottom axis, and goes to pixel [(w - padR, padT)], the right margin at the
    top of the plot area, [w] and [h] being the dimensions of the canvas; the
    call returns, and these two points are all of the polyline. *)
Theorem renderChart_two_point_series (w : world) (cv : element) :
  document w !! "engagement-chart" = Some cv ->
  outcome_of (renderChart (VArr [point (Fin 0) (Fin 0);
                                 point (Fin 10) (Fin 1)]) w) = Return tt
  /\ ctx_calls (events_of (renderChart (VArr [point (Fin 0) (Fin 0);
                                              point (Fin 10) (Fin 1)]) w))
     = (ClearRect (Fin 0) (Fin 0) (Num.of_Z (width cv)) (Num.of_Z (height cv))
        :: axes (Num.of_Z (width cv)) (Num.of_Z (height cv))
                (toFixed0 (Fin 0) ++ "s") (toFixed0 (Fin 10) ++ "s")
        ++ [ SetStrokeStyle "#2a7"; SetLineWidth (Fin 2); BeginPath;
             MoveTo padL (Num.of_Z (height cv) - padB);
             LineTo (Num.of_Z (width cv) - padR) padT;
             Stroke ])%list.
Proof.
  intros Hcv.
  rewrite (renderChart_draws w cv _ [Fin 0; Fin 10] [Fin 0; Fin 1] Hcv);
    [| done | done | done | apply spread_fits_two].
  split; [done|]. cbn [events_of]. rewrite ctx_calls_EvCtx.
  unfold drawing.
  change (Num.min_list [Fin 0; Fin 10]) with (Fin 0).
  change (Num.max_list [Fin 0; Fin 10]) with (Fin 10).
  cbn [plot_points zip_with polyline map fst snd].
  by rewrite scale_x_left, scale_x_right, scale_y_bottom, scale_y_top.
Qed.

End ChartFacts.

Lemma renderChart_two_point_series_witness :
  document chart_page !! "engagement-chart" = Some sample_canvas
  /\ ctx_calls (events_of (@renderChart sample_builtins
                             (VArr [point (Fin 0) (Fin 0);
                                    point (Fin 10) (Fin 1)]) chart_page))
     = (ClearRect (Fin 0) (Fin 0) (Fin 300) (Fin 150)
        :: axes (Fin 300) (Fin 150) "0s" "10s"
        ++ [ SetStrokeStyle "#2a7"; SetLineWidth (Fin 2); BeginPath;
             MoveTo (Fin 40) (Fin 120); LineTo (Fin 290) (Fin 10);
             Stroke ])%list.
Proof.
  split; [reflexivity|].
  apply (@renderChart_two_point_series sample_builtins chart_page
           sample_canvas).
  reflexivity.
Defined.

Section ChartSeries.
Context `{Builtins}.

Lemma last_path_app (cs1 cs2 : list ctx_call) (acc : list (num * num)) :
  last_path (cs1 ++ cs2) acc = last_path cs2 (last_path cs1 acc).
Proof.
  revert acc. induction cs1 as [|c cs1 IH]; intros acc; [done|].
  destruct c; cbn [app last_path]; apply IH.
Qed.

Lemma last_path_lines (pts acc : list (num * num)) :
  last_path (map (fun q => LineTo q.1 q.2) pts) acc = (acc ++ pts)%list.
Proof.
  revert acc. induction pts as [|[x y] pts IH]; intros acc.
  - by rewrite app_nil_r.
  - cbn [map last_path fst snd]. rewrite IH. by rewrite <- app_assoc.
Qed.

Lemma last_path_polyline (pts : list (num * num)) :
  last_path (polyline pts) [] = pts.
Proof.
  destruct pts as [|[x y] pts]; [done|].
  cbn [polyline last_path fst snd]. by rewrite last_path_lines.
Qed.

(** The plotted points of a drawing are the scaled points of the series. *)
Lemma plotted_points_drawing (cw ch : num) (times values : list num) :
  plotted_points (drawing cw ch times values)
  = plot_points (Num.min_list times) (Num.max_list times)
                (cw - padL - padR) (ch - padT - padB) times values.
Proof.
  unfold plotted_points, drawing.
  cbn [axes app last_path].
  rewrite last_path_app, last_path_polyline. reflexivity.
Qed.

(** Reading a column. *)
Lemma mapM_const {A} (f : A -> outcome num) (t : num) (l : list A) :
  Forall (fun a => f a = Return t) l ->
  mapM f l = Return (replicate (length l) t).
Proof.
  induction 1 as [|a l Ha _ IH]; [done|].
  cbn [mapM length replicate]. rewrite Ha. cbn. rewrite IH. reflexivity.
Qed.

Lemma mapM_returns {A B} (f : A -> outcome B) (l : list A) :
  Forall (fun a => exists b, f a = Return b) l ->
  exists bs, mapM f l = Return bs /\ length bs = length l.
Proof.
  induction 1 as [|a l [b Hb] _ [bs [IH Hlen]]].
  - by exists [].
  - exists (b :: bs). cbn [mapM]. rewrite Hb. cbn. rewrite IH.
    split; [done|]. cbn. by rewrite Hlen.
Qed.


Lemma mapM_Forall2 {A B} (f : A -> outcome B) (l : list A) (bs : list B) :
  mapM f l = Return bs -> Forall2 (fun a b => f a = Return b) l bs.
Proof.
  revert bs. induction l as [|a l IH]; intros bs; cbn [mapM].
  - intros [= <-]. constructor.
  - destruct (f a) as [b|e] eqn:Hb; [|done]. cbn.
    destruct (mapM f l) as [bs'|e]; [|done]. cbn. intros [= <-].
    constructor; [done | by apply IH].
Qed.



(** The three kinds of field the specification names are not numbers. *)
Lemma non_numeric_kinds :
  non_numeric (VNum NaN) /\ non_numeric VUndefined
  /\ (forall s, StringToNumber s = NaN -> non_numeric (VStr s)).
Proof.
  split_and!; [done | done |]. intros s Hs. unfold non_numeric. cbn.
  by rewrite Hs.
Qed.


End ChartSeries.

Section ChartClaims.
Context `{Builtins}.

Lemma plot_points_degenerate (q : Q) (pw : Z) (plotH : num) (n : nat)
    (values : list num) :
  Forall (fun px => px.1 = padL)
         (plot_points (Fin q) (Fin q) (Num.of_Z pw) plotH
                      (replicate n (Fin q)) values).
Proof.
  unfold plot_points. revert values.
  induction n as [|n IH]; intros [|v values]; cbn [replicate zip_with];
    try constructor; [apply scale_x_degenerate | apply IH].
Qed.

(** C6, amended.  For every non-empty series whose points all have the same
    timestamp, whose values can all be converted to numbers and that has no
    more points than a call can take arguments, [renderChart] returns without
    throwing; when that timestamp is finite, every point it plots is at the
    x-coordinate [padL], the left margin, and on a page that has the chart
    canvas it plots one point for each point of the series. *)
Theorem renderChart_constant_timestamp (w : world) (ps : list jsval)
    (t : num) :
  ps <> [] ->
  same_timestamp t ps ->
  Forall value_readable ps ->
  fits_arguments ps ->
  outcome_of (renderChart (VArr ps) w) = Return tt
  /\ (Num.finite t = true ->
      Forall (fun px => px.1 = padL)
        (plotted_points (ctx_calls (events_of (renderChart (VArr ps) w))))
      /\ (is_Some (document w !! "engagement-chart") ->
          length (plotted_points
                    (ctx_calls (events_of (renderChart (VArr ps) w))))
          = length ps)).
Proof.
  intros Hne Hsame Hvalues Hfit.
  pose proof (mapM_const (coordinate "t") t ps Hsame) as Ht.
  destruct (mapM_returns (coordinate "value") ps Hvalues)
    as [values [Hv Hlen]].
  destruct (document w !! "engagement-chart") as [cv|] eqn:Hcv.
  - rewrite (renderChart_draws w cv ps _ values Hcv Hne Ht Hv)
      by (by rewrite length_replicate).
    cbn [outcome_of events_of]. split; [done|].
    destruct t as [| |q]; try discriminate. intros _.
    rewrite ctx_calls_EvCtx, plotted_points_drawing.
    assert (Hq : Forall (fun t => t = Fin q) (replicate (length ps) (Fin q)))
      by (apply Forall_replicate; reflexivity).
    assert (Hne' : replicate (length ps) (Fin q) <> [])
      by (destruct ps; [done | discriminate]).
    rewrite (num_min_list_const q _ Hne' Hq), (num_max_list_const q _ Hne' Hq).
    rewrite plotW_of_Z. split; [apply plot_points_degenerate|].
    intros _. unfold plot_points. rewrite length_zip_with_l_eq.
    + apply length_replicate.
    + by rewrite length_replicate, Hlen.
  - assert (Hrun : renderChart (VArr ps) w = Run (Return tt) w []).
    { by rewrite renderChart_run, Hcv. }
    rewrite Hrun. cbn [outcome_of events_of]. split; [done|].
    intros _. split; [constructor|]. by intros [? ?].
Qed.

(** C7, amended.  On an empty, null or undefined series [renderChart] returns
    after one call on the context, the [clearRect] of the whole canvas (and
    after none if the page has no chart canvas): the pen settings and the
    current path are left as they were and the bitmap is blank. *)
Theorem renderChart_empty_series (w : world) (series : jsval) :
  empty_series series ->
  renderChart series w
  = Run (Return tt) w
        (match document w !! "engagement-chart" with
         | Some cv => [EvCtx (ClearRect (Fin 0) (Fin 0) (Num.of_Z (width cv))
                                        (Num.of_Z (height cv)))]
         | None => []
         end)
  /\ forall (cv : element) (st : ctx_state),
       document w !! "engagement-chart" = Some cv ->
       ctx_run (width cv) (height cv) st
               (ctx_calls (events_of (renderChart series w)))
       = cleared st.
Proof.
  intros Hempty.
  assert (Hrun : renderChart series w
    = Run (Return tt) w
        (match document w !! "engagement-chart" with
         | Some cv => [EvCtx (ClearRect (Fin 0) (Fin 0) (Num.of_Z (width cv))
                                        (Num.of_Z (height cv)))]
         | None => []
         end)).
  { unfold renderChart, mbind, M_bind, getElementById.
    destruct (document w !! "engagement-chart") as [cv|]; [|done].
    by destruct Hempty as [-> | [-> | ->]]. }
  split; [exact Hrun|].
  intros cv st Hcv. rewrite Hrun, Hcv. cbn [events_of].
  change (ctx_calls [EvCtx ?c]) with [c].
  destruct st. unfold ctx_run, cleared. cbn [foldl ctx_step].
  rewrite !num_eqb_of_Z. reflexivity.
Qed.


End ChartClaims.

(** C6 as stated fails in three ways.  A series whose only timestamp is
    [Infinity] (what [JSON.parse] makes of [1e999]) has all its timestamps
    equal, and its point is sent to the x-coordinate [NaN], not to [padL].
    A point whose [value] is an object with an own [toString] makes
    [Number(p.value)] throw a [TypeError].  And on a series of more points
    than a call can take arguments, 65536 for the sample engine,
    [Math.min(...times)] throws a [RangeError]. *)
Lemma renderChart_constant_timestamp_fails :
  (@same_timestamp sample_builtins (Inf false) [point (Inf false) (Fin 0)]
   /\ plotted_points (ctx_calls (events_of
        (@renderChart sample_builtins (VArr [point (Inf false) (Fin 0)])
                      chart_page)))
      = [(NaN, Fin 120)]
   /\ NaN <> padL)
  /\ (@same_timestamp sample_builtins (Fin 5) [unconvertible_point]
      /\ outcome_of (@renderChart sample_builtins (VArr [unconvertible_point])
                                  chart_page)
         = Throw TypeError)
  /\ (@same_timestamp sample_builtins (Fin 5) crowded_series
      /\ outcome_of (@renderChart sample_builtins (VArr crowded_series)
                                  chart_page)
         = Throw RangeError).
Proof.
  split_and!.
  - by repeat constructor.
  - reflexivity.
  - discriminate.
  - by repeat constructor.
  - reflexivity.
  - apply Forall_replicate. reflexivity.
  - by vm_compute.
Qed.

Lemma renderChart_constant_timestamp_witness :
  [point (Fin 5) (Fin 0); point (Fin 5) (Fin 1)] <> []
  /\ @same_timestamp sample_builtins (Fin 5)
       [point (Fin 5) (Fin 0); point (Fin 5) (Fin 1)]
  /\ Forall (fun px => px.1 = padL)
       (plotted_points (ctx_calls (events_of
          (@renderChart sample_builtins
             (VArr [point (Fin 5) (Fin 0); point (Fin 5) (Fin 1)])
             chart_page)))).
Proof.
  assert (Hne : [point (Fin 5) (Fin 0); point (Fin 5) (Fin 1)] <> [])
    by discriminate.
  assert (Hsame : @same_timestamp sample_builtins (Fin 5)
                    [point (Fin 5) (Fin 0); point (Fin 5) (Fin 1)])
    by (repeat constructor).
  assert (Hvalues : Forall (@value_readable sample_builtins)
                      [point (Fin 5) (Fin 0); point (Fin 5) (Fin 1)])
    by (repeat constructor; eexists; reflexivity).
  assert (Hfit : @fits_arguments sample_builtins
                   [point (Fin 5) (Fin 0); point (Fin 5) (Fin 1)])
    by reflexivity.
  split; [exact Hne|]. split; [exact Hsame|].
  exact (proj1 (proj2 (@renderChart_constant_timestamp sample_builtins
                         chart_page _ (Fin 5) Hne Hsame Hvalues Hfit)
                      eq_refl)).
Defined.

(** C7 as stated fails: on a canvas that shows a line, [renderChart([])]
    calls [clearRect] and the line is gone. *)
Lemma renderChart_empty_series_erases :
  ctx_calls (events_of (@renderChart sample_builtins (VArr []) chart_page))
  = [ClearRect (Fin 0) (Fin 0) (Fin 300) (Fin 150)]
  /\ ctx_run 300 150 painted_context
       (ctx_calls (events_of (@renderChart sample_builtins (VArr [])
                                           chart_page)))
     <> painted_context.
Proof.
  split; [reflexivity|].
  intros Heq. apply (f_equal bitmap) in Heq. vm_compute in Heq. discriminate.
Qed.

Lemma renderChart_empty_series_witness :
  empty_series (VArr [])
  /\ @renderChart sample_builtins (VArr []) chart_page
     = Run (Return tt) chart_page
           [EvCtx (ClearRect (Fin 0) (Fin 0) (Fin 300) (Fin 150))].
Proof.
  assert (Hempty : empty_series (VArr [])) by (by left).
  split; [exact Hempty|].
  exact (proj1 (@renderChart_empty_series sample_builtins chart_page
                  (VArr []) Hempty)).
Defined.


(** ** The session guard *)

Section GuardFacts.
Context `{Builtins}.
Variable E : env.

(** Unfolding of the monad on a run that is known. *)
Lemma bind_run {A B} (m : M A) (f : A -> M B) (w w1 : world) (a : A)
    (evs : list event) :
  m w = Run (Return a) w1 evs ->
  (m ≫= f) w
  = Run (outcome_of (f a w1)) (world_of (f a w1)) (evs ++ events_of (f a w1)).
Proof.
  intros Hm. unfold mbind, M_bind. rewrite Hm. by destruct (f a w1).
Qed.

Lemma bind_getItem {B} (k : string) (f : option string -> M B) (w : world) :
  (getItem k ≫= f) w = f (localStorage w !! k) w.
Proof.
  unfold mbind, M_bind, getItem. by destruct (f (localStorage w !! k) w).
Qed.

Lemma second_request (e : event) (a b : request) (evs : list event) :
  (e :: EvFetch a :: evs) !! 1%nat = Some (EvFetch b) -> a = b.
Proof. by intros [= ->]. Qed.

(** The forms block changes the document only. *)
Lemma show_auth_forms_run (w : world) :
  exists doc,
    show_auth_forms w = Run (Return tt) (World (localStorage w) doc (sent w)) []
    /\ (has_forms (document w) -> forms_revealed doc).
Proof.
  unfold show_auth_forms, mbind, M_bind, querySelector, getElementById.
  destruct (document w !! ".tabs") as [tabs|] eqn:Htabs;
  destruct (document w !! "login-form") as [lf|] eqn:Hlf;
  destruct (document w !! "register-form") as [rf|] eqn:Hrf;
    cbn;
    try (exists (document w); split; [by destruct w|];
         unfold has_forms; rewrite Htabs, Hlf, Hrf; intros (Ht & Hl & Hr);
         first [ by apply is_Some_None in Ht
               | by apply is_Some_None in Hl
               | by apply is_Some_None in Hr ]).
  eexists. split; [reflexivity|]. intros _.
  exists (class_remove "hidden" tabs), (class_remove "hidden" lf),
         (class_add "hidden" rf).
  split_and!.
  - rewrite !lookup_alter_ne by done. by rewrite lookup_alter_eq, Htabs.
  - cbn. rewrite list_elem_of_filter. by intros [? _].
  - rewrite lookup_alter_ne by done. rewrite lookup_alter_eq.
    rewrite lookup_alter_ne by done. by rewrite Hlf.
  - cbn. rewrite list_elem_of_filter. by intros [? _].
  - rewrite lookup_alter_eq. rewrite !lookup_alter_ne by done. by rewrite Hrf.
  - cbn. case_bool_decide; [done|]. apply elem_of_app. right.
    by apply list_elem_of_singleton.
Qed.

(** Step 1 in full: it sends the boot probe and nothing else, always
    returns, and leaves the document alone. *)
Lemma checkAuth_boot_world (w : world) :
  checkAuth_boot E w
  = Run (Return tt) (World (storage_after_boot E w) (document w) (S (sent w)))
        [EvFetch boot_request].
Proof.
  unfold checkAuth_boot, storage_after_boot, boot_change_observed,
    probed_boot_id, try_catch, mbind, M_bind, fetch.
  destruct (server E (sent w) boot_request) as [|[okr body]]; [done|].
  destruct okr; [|done]. destruct body as [data|]; [|done].
  cbn [ok res_json json_body mret M_ret lift].
  destruct (get_prop data "boot_id") as [b|e]; [|done].
  unfold getItem, setItem, removeItem. cbn [localStorage document sent].
  by destruct (truthy_item (localStorage w !! "boot_id")
               && strict_neq_str (default "" (localStorage w !! "boot_id")) b),
    (ToString b).
Qed.

Lemma storage_after_boot_token (w : world) :
  storage_after_boot E w !! "token"
  = if boot_change_observed E w then None else localStorage w !! "token".
Proof.
  unfold storage_after_boot, boot_change_observed.
  destruct (probed_boot_id E w) as [b|]; [|done]. cbn zeta.
  destruct (ToString b); rewrite ?lookup_insert_ne by done;
    (destruct (truthy_item _ && _); [apply lookup_delete_eq | done]).
Qed.

(** Step 1 can only remove the token; it removes it when a non-empty stored
    boot id differs from the one the server returns. *)
Lemma checkAuth_boot_run (w : world) :
  exists ls,
    checkAuth_boot E w
    = Run (Return tt) (World ls (document w) (S (sent w)))
          [EvFetch boot_request]
    /\ (ls !! "token" = None \/ ls !! "token" = localStorage w !! "token")
    /\ (forall prev, stored_boot_differs E w prev -> prev <> "" ->
                     ls !! "token" = None).
Proof.
  exists (storage_after_boot E w).
  split; [apply checkAuth_boot_world|].
  rewrite storage_after_boot_token. split.
  - destruct (boot_change_observed E w); auto.
  - intros prev (r & data & b & Hsrv & Hok & Hbody & Hb & Hprev & Hneq) Hne.
    unfold boot_change_observed, probed_boot_id.
    rewrite Hsrv, Hok, Hbody, Hb, Hprev.
    cbn [truthy_item default from_option id]. rewrite Hneq. apply String.eqb_neq in Hne. by rewrite Hne.
Qed.

(** Step 3 when the server rejects the token. *)
Lemma checkAuth_validate_rejected (tok : option string) (path : string)
    (w : world) (r : response) :
  server E (sent w) (files_request tok) = Responds r ->
  ok r = false ->
  exists doc,
    checkAuth_validate E tok path w
    = Run (Return tt) (World (delete "token" (localStorage w)) doc (S (sent w)))
          (EvFetch (files_request tok)
           :: if onPrivatePage path then [EvNavigate "/auth"] else [])
    /\ (onPrivatePage path = false -> has_forms (document w) ->
        forms_revealed doc).
Proof.
  intros Hsrv Hok.
  unfold checkAuth_validate, try_catch, mbind, M_bind, fetch.
  rewrite Hsrv, Hok. unfold removeItem. cbn [localStorage document sent].
  destruct (onPrivatePage path).
  - eexists. split; [reflexivity | done].
  - destruct (show_auth_forms_run
                (World (delete "token" (localStorage w)) (document w)
                       (S (sent w)))) as (doc & Hrun & Hforms).
    rewrite Hrun. exists doc. split; [reflexivity|]. intros _. exact Hforms.
Qed.

(** Step 3 when the validation request fails on the network: the redirect
    is made from the upload page only. *)
Lemma checkAuth_validate_unreachable (tok : option string) (path : string)
    (w : world) :
  server E (sent w) (files_request tok) = NetworkError ->
  exists doc,
    checkAuth_validate E tok path w
    = Run (Return tt) (World (delete "token" (localStorage w)) doc (S (sent w)))
          (EvFetch (files_request tok)
           :: if onUploadPage path then [EvNavigate "/auth"] else [])
    /\ (onUploadPage path = false -> has_forms (document w) ->
        forms_revealed doc).
Proof.
  intros Hsrv.
  unfold checkAuth_validate, try_catch, mbind, M_bind, fetch.
  rewrite Hsrv. unfold removeItem. cbn [localStorage document sent].
  destruct (onUploadPage path).
  - eexists. split; [reflexivity | done].
  - destruct (show_auth_forms_run
                (World (delete "token" (localStorage w)) (document w)
                       (S (sent w)))) as (doc & Hrun & Hforms).
    rewrite Hrun. exists doc. split; [reflexivity|]. intros _. exact Hforms.
Qed.

(** Step 3 when the server accepts the token, away from the private pages. *)
Lemma checkAuth_validate_accepted (tok : option string) (path : string)
    (w : world) (r : response) :
  server E (sent w) (files_request tok) = Responds r ->
  ok r = true ->
  onPrivatePage path = false ->
  checkAuth_validate E tok path w
  = Run (Return tt) (World (localStorage w) (document w) (S (sent w)))
        (EvFetch (files_request tok)
         :: if onAuthPage path then [EvNavigate "/upload"] else []).
Proof.
  intros Hsrv Hok Hpriv.
  unfold checkAuth_validate, try_catch, mbind, M_bind, fetch.
  rewrite Hsrv, Hok, Hpriv. by destruct (onAuthPage path).
Qed.

(** Step 3 always returns, and starts by sending the validation request. *)
Lemma checkAuth_validate_first (tok : option string) (path : string)
    (w : world) :
  exists evs,
    outcome_of (checkAuth_validate E tok path w) = Return tt
    /\ events_of (checkAuth_validate E tok path w)
       = EvFetch (files_request tok) :: evs.
Proof.
  destruct (server E (sent w) (files_request tok)) as [|r] eqn:Hsrv.
  - destruct (checkAuth_validate_unreachable tok path w Hsrv)
      as (doc & -> & _). eauto.
  - destruct (ok r) eqn:Hok.
    + destruct (onPrivatePage path) eqn:Hpriv.
      * unfold checkAuth_validate, try_catch, mbind, M_bind, fetch.
        rewrite Hsrv, Hok, Hpriv.
        destruct (onAuthPage path); [eauto|].
        unfold spawn.
        destruct (loadUserFiles E _) as [o1 w1 evs1].
        destruct (show_username E w1) as [[[]|e'] w2 evs2]; cbn; eauto.
      * rewrite (checkAuth_validate_accepted tok path w r Hsrv Hok Hpriv).
        eauto.
    + destruct (checkAuth_validate_rejected tok path w r Hsrv Hok)
        as (doc & -> & _). eauto.
Qed.

(** [checkAuth] as its first step followed by one of its two branches. *)
Lemma checkAuth_run (w : world) :
  exists ls,
    (ls !! "token" = None \/ ls !! "token" = localStorage w !! "token")
    /\ (forall prev, stored_boot_differs E w prev -> prev <> "" ->
                     ls !! "token" = None)
    /\ if truthy_item (ls !! "token") then
         checkAuth E w
         = let r := checkAuth_validate E (ls !! "token")
                      (normalized_path (pathname E))
                      (World ls (document w) (S (sent w))) in
           Run (outcome_of r) (world_of r)
               (EvFetch boot_request :: events_of r)
       else
         exists doc,
           checkAuth E w
           = Run (Return tt) (World ls doc (S (sent w)))
                 (EvFetch boot_request
                  :: if onPrivatePage (normalized_path (pathname E))
                     then [EvNavigate "/auth"] else [])
           /\ (onPrivatePage (normalized_path (pathname E)) = false ->
               has_forms (document w) -> forms_revealed doc).
Proof.
  destruct (checkAuth_boot_run w) as (ls & Hboot & Hkeep & Hdrop).
  exists ls. split; [exact Hkeep|]. split; [exact Hdrop|].
  unfold checkAuth. rewrite (bind_run _ _ _ _ _ _ Hboot).
  rewrite !bind_getItem. cbn [localStorage app].
  destruct (truthy_item (ls !! "token")); cbn [negb].
  - reflexivity.
  - destruct (onPrivatePage (normalized_path (pathname E))).
    + eexists. split; [reflexivity | done].
    + destruct (show_auth_forms_run (World ls (document w) (S (sent w))))
        as (doc & Hrun & Hforms).
      rewrite Hrun. exists doc. split; [reflexivity|]. intros _. exact Hforms.
Qed.

(** C1, amended.  Whenever [checkAuth] observes a non-empty stored boot id
    that differs from the boot id returned by [GET /meta/boot], or receives a
    response that is not [ok] from the file-list endpoint during validation,
    the token is gone from the storage when [checkAuth] completes, which it
    always does; so a token still stored then was at no point of the run known
    to be stale. *)
Theorem checkAuth_clears_stale_token (w : world) :
  (exists prev, prev <> "" /\ stored_boot_differs E w prev)
  \/ validation_rejected E w ->
  outcome_of (checkAuth E w) = Return tt
  /\ localStorage (world_of (checkAuth E w)) !! "token" = None.
Proof.
  intros Hstale.
  destruct (checkAuth_run w) as (ls & Hkeep & Hdrop & Hrun).
  destruct (truthy_item (ls !! "token")) eqn:Htok.
  - destruct Hstale as [(prev & Hne & Hdiff) | (tok & r & Hev & Hsrv & Hok)].
    { rewrite (Hdrop prev Hdiff Hne) in Htok. discriminate. }
    rewrite Hrun in Hev |- *. cbn zeta in Hev |- *.
    cbn [outcome_of world_of events_of] in Hev |- *.
    destruct (checkAuth_validate_first (ls !! "token")
                (normalized_path (pathname E))
                (World ls (document w) (S (sent w)))) as (evs & Hret & Hfirst).
    rewrite Hfirst in Hev. apply second_request in Hev as Hreq.
    rewrite <- Hreq in Hsrv.
    destruct (checkAuth_validate_rejected (ls !! "token")
                (normalized_path (pathname E))
                (World ls (document w) (S (sent w))) r Hsrv Hok)
      as (doc & Hval & _).
    rewrite Hval. cbn [outcome_of world_of localStorage].
    split; [done | apply lookup_delete_eq].
  - destruct Hrun as (doc & Hrun & _). rewrite Hrun.
    cbn [outcome_of world_of localStorage]. split; [done|].
    destruct (ls !! "token") as [t|] eqn:Hls; [|done].
    destruct Hstale as [(prev & Hne & Hdiff) | (tok & r & Hev & _)].
    { pose proof (Hdrop prev Hdiff Hne). congruence. }
    rewrite Hrun in Hev. cbn [events_of] in Hev.
    by destruct (onPrivatePage (normalized_path (pathname E))).
Qed.

(** C3.  On a page that is neither the public page nor a private page,
    [checkAuth] never calls [window.location.replace], whatever is stored and
    whatever the server answers. *)
Theorem checkAuth_unclassified_never_navigates (w : world) :
  unclassified (normalized_path (pathname E)) ->
  navigations (events_of (checkAuth E w)) = [].
Proof.
  intros [Hauth Hpriv].
  assert (Hup : onUploadPage (normalized_path (pathname E)) = false).
  { unfold onPrivatePage in Hpriv.
    by apply orb_false_iff in Hpriv as [[? ?]%orb_false_iff ?]. }
  destruct (checkAuth_run w) as (ls & _ & _ & Hrun).
  destruct (truthy_item (ls !! "token")).
  - rewrite Hrun. cbn zeta. cbn [events_of].
    destruct (server E (S (sent w)) (files_request (ls !! "token")))
      as [|r] eqn:Hsrv.
    + destruct (checkAuth_validate_unreachable (ls !! "token")
                  (normalized_path (pathname E))
                  (World ls (document w) (S (sent w))) Hsrv)
        as (doc & -> & _).
      by rewrite Hup.
    + destruct (ok r) eqn:Hok.
      * rewrite (checkAuth_validate_accepted (ls !! "token")
                  (normalized_path (pathname E))
                  (World ls (document w) (S (sent w))) r Hsrv Hok Hpriv).
        by rewrite Hauth.
      * destruct (checkAuth_validate_rejected (ls !! "token")
                    (normalized_path (pathname E))
                    (World ls (document w) (S (sent w))) r Hsrv Hok)
          as (doc & -> & _).
        by rewrite Hpriv.
  - destruct Hrun as (doc & -> & _). by rewrite Hpriv.
Qed.

(** C4.  If no token is stored and the page is a private page, [checkAuth]
    redirects to the public page and returns; the only request it has sent by
    then is the boot probe, which carries no credential, so no request to a
    protected endpoint is ever issued. *)
Theorem checkAuth_no_token_private (w : world) :
  token_stored w = false ->
  onPrivatePage (normalized_path (pathname E)) = true ->
  outcome_of (checkAuth E w) = Return tt
  /\ events_of (checkAuth E w) = [EvFetch boot_request; EvNavigate "/auth"]
  /\ protected_requests (events_of (checkAuth E w)) = [].
Proof.
  unfold token_stored. intros Htok Hpriv.
  destruct (checkAuth_run w) as (ls & Hkeep & _ & Hrun).
  assert (Hls : truthy_item (ls !! "token") = false).
  { by destruct Hkeep as [-> | ->]. }
  rewrite Hls in Hrun. destruct Hrun as (doc & -> & _).
  by rewrite Hpriv.
Qed.

(** What [checkAuth] does when the validation of a stored token fails.  The
    server rejecting the token: the token is removed, a private page redirects
    to the public page, any other page shows the login form.  The request
    failing on the network: the token is removed, the upload page redirects,
    and every other page, the profile and algorithm pages among them, shows
    the login form if it has one and stays. *)
Lemma checkAuth_validation_failure (w : world) :
  let path := normalized_path (pathname E) in
  let run := checkAuth E w in
  (validation_rejected E w ->
     localStorage (world_of run) !! "token" = None
     /\ (onPrivatePage path = true -> navigations (events_of run) = ["/auth"])
     /\ (onPrivatePage path = false -> has_forms (document w) ->
         forms_revealed (document (world_of run))))
  /\ (validation_unreachable E w ->
     localStorage (world_of run) !! "token" = None
     /\ navigations (events_of run)
        = (if onUploadPage path then ["/auth"] else [])
     /\ (onUploadPage path = false -> has_forms (document w) ->
         forms_revealed (document (world_of run)))).
Proof.
  intros path run. subst run.
  destruct (checkAuth_run w) as (ls & _ & _ & Hrun). fold path in Hrun.
  destruct (truthy_item (ls !! "token")).
  - rewrite Hrun. cbn zeta. cbn [outcome_of world_of events_of].
    destruct (checkAuth_validate_first (ls !! "token") path
                (World ls (document w) (S (sent w)))) as (evs & _ & Hfirst).
    split.
    + intros (tok & r & Hev & Hsrv & Hok).
      rewrite Hrun in Hev. cbn zeta in Hev. cbn [events_of] in Hev.
      rewrite Hfirst in Hev. apply second_request in Hev as Hreq.
      rewrite <- Hreq in Hsrv.
      destruct (checkAuth_validate_rejected (ls !! "token") path
                  (World ls (document w) (S (sent w))) r Hsrv Hok)
        as (doc & -> & Hforms).
      cbn [world_of events_of localStorage document].
      split_and!; [apply lookup_delete_eq | by intros -> | exact Hforms].
    + intros (tok & Hev & Hsrv).
      rewrite Hrun in Hev. cbn zeta in Hev. cbn [events_of] in Hev.
      rewrite Hfirst in Hev. apply second_request in Hev as Hreq.
      rewrite <- Hreq in Hsrv.
      destruct (checkAuth_validate_unreachable (ls !! "token") path
                  (World ls (document w) (S (sent w))) Hsrv)
        as (doc & -> & Hforms).
      cbn [world_of events_of localStorage document].
      split_and!; [apply lookup_delete_eq | by destruct (onUploadPage path)
                  | exact Hforms].
  - destruct Hrun as (doc & Hrun & _).
    split.
    + intros (tok & r & Hev & _). rewrite Hrun in Hev. cbn [events_of] in Hev.
      by destruct (onPrivatePage path).
    + intros (tok & Hev & _). rewrite Hrun in Hev. cbn [events_of] in Hev.
      by destruct (onPrivatePage path).
Qed.

End GuardFacts.

(** C1 as stated fails on an empty stored boot id: the server returns the
    boot id ["boot-2"], the stored one is the empty string, they differ, and
    the token is still stored when [checkAuth] is done. *)
Lemma checkAuth_blank_boot_id_keeps_token :
  stored_boot_differs (accepting_server "/upload") (logged_in "") ""
  /\ localStorage
       (world_of (@checkAuth sample_builtins (accepting_server "/upload")
                             (logged_in ""))) !! "token"
     = Some "tok".
Proof.
  split.
  - exists boot_2_response, (VObj [("boot_id", VStr "boot-2")]), (VStr "boot-2").
    by repeat split.
  - by vm_compute.
Qed.

Lemma checkAuth_clears_stale_token_witness :
  (stored_boot_differs (accepting_server "/upload") (logged_in "boot-1")
                       "boot-1"
   /\ localStorage
        (world_of (@checkAuth sample_builtins (accepting_server "/upload")
                              (logged_in "boot-1"))) !! "token"
      = None)
  /\ (@validation_rejected sample_builtins (rejecting_server "/")
        (logged_in "boot-2")
      /\ localStorage
           (world_of (@checkAuth sample_builtins (rejecting_server "/")
                                 (logged_in "boot-2"))) !! "token"
         = None).
Proof.
  assert (Hd : stored_boot_differs (accepting_server "/upload")
                 (logged_in "boot-1") "boot-1").
  { exists boot_2_response, (VObj [("boot_id", VStr "boot-2")]),
           (VStr "boot-2").
    by repeat split. }
  assert (Hr : @validation_rejected sample_builtins (rejecting_server "/")
                 (logged_in "boot-2")).
  { exists (Some "tok"),
           (Response false (Some (VObj [("detail", VStr "Invalid token")]))).
    by repeat split. }
  split; (split; [assumption|]).
  - apply (@checkAuth_clears_stale_token sample_builtins
             (accepting_server "/upload") (logged_in "boot-1")).
    left. exists "boot-1". split; [discriminate | exact Hd].
  - apply (@checkAuth_clears_stale_token sample_builtins
             (rejecting_server "/") (logged_in "boot-2")).
    right. exact Hr.
Defined.

(** C2.  The code misses part of the claim: on the profile page, with a token
    stored and the validation request failing on the network, [checkAuth]
    removes the token and does not redirect. *)
Theorem checkAuth_network_error_on_profile :
  onPrivatePage (normalized_path "/profile") = true
  /\ @validation_unreachable sample_builtins (vanishing_server "/profile")
       (logged_in "boot-2")
  /\ localStorage
       (world_of (@checkAuth sample_builtins (vanishing_server "/profile")
                             (logged_in "boot-2"))) !! "token"
     = None
  /\ navigations
       (events_of (@checkAuth sample_builtins (vanishing_server "/profile")
                              (logged_in "boot-2")))
     = [].
Proof.
  split_and!.
  - reflexivity.
  - exists (Some "tok"). by split.
  - by vm_compute.
  - by vm_compute.
Qed.

Lemma checkAuth_unclassified_never_navigates_witness :
  unclassified (normalized_path "/about/")
  /\ navigations
       (events_of (@checkAuth sample_builtins (accepting_server "/about/")
                              (logged_in "boot-1")))
     = [].
Proof.
  assert (Hu : unclassified (normalized_path "/about/")) by (by split).
  split; [exact Hu|].
  exact (@checkAuth_unclassified_never_navigates sample_builtins
           (accepting_server "/about/") (logged_in "boot-1") Hu).
Defined.

Lemma checkAuth_no_token_private_witness :
  token_stored logged_out = false
  /\ onPrivatePage (normalized_path "/profile/") = true
  /\ events_of (@checkAuth sample_builtins (accepting_server "/profile/")
                           logged_out)
     = [EvFetch boot_request; EvNavigate "/auth"].
Proof.
  assert (Ht : token_stored logged_out = false) by reflexivity.
  assert (Hp : onPrivatePage (normalized_path "/profile/") = true)
    by reflexivity.
  split; [exact Ht|]. split; [exact Hp|].
  exact (proj1 (proj2 (@checkAuth_no_token_private sample_builtins
                         (accepting_server "/profile/") logged_out Ht Hp))).
Defined.

(** ** File operations *)

Section FileFacts.
Context `{Builtins}.
Variable E : env.

Lemma first_request (a b : request) (evs : list event) :
  (EvFetch a :: evs) !! 0%nat = Some (EvFetch b) -> a = b.
Proof. by intros [= ->]. Qed.

(** The list refresh is entered once per call and sends one request. *)
Lemma loadUserFiles_events (w : world) :
  events_of (loadUserFiles E w)
  = [EvCall "loadUserFiles"; EvFetch (files_request (localStorage w !! "token"))].
Proof.
  unfold loadUserFiles, call, mbind, M_bind, emit, getItem, fetch.
  destruct (server E (sent w) _) as [|[okr body]]; [done|].
  unfold res_json. cbn [json_body ok].
  destruct body as [data|]; [|done].
  cbn [mret M_ret getElementById document].
  destruct okr.
  - match goal with |- context [lift ?o] => destruct o as [rows|e] end;
      unfold lift; [|done].
    unfold set_content, update_element.
    by destruct (document w !! "user-files").
  - unfold set_content, update_element.
    by destruct (document w !! "user-files").
Qed.

(** C8.  In the variant of [deleteFile] that refreshes the list whatever the
    response, whenever the [DELETE] request completes with a response,
    [loadUserFiles] is called exactly once, whether the response is a success
    or a failure. *)
Theorem deleteFile_refreshes_once (id : jsval) (w : world) :
  delete_completes E id w ->
  refreshes (events_of (deleteFile E id w)) = 1%nat.
Proof.
  intros (req & r & Hev & Hmeth & Hsrv). revert Hev.
  unfold deleteFile. rewrite bind_getItem.
  destruct (truthy_item (localStorage w !! "token")); cbn [negb];
    [|discriminate].
  unfold try_catch, mbind, M_bind, lift, fetch.
  destruct (ToString id) as [id_text|e]; [|discriminate].
  destruct (server E (sent w)
              (Request DELETE ("/media/files/" ++ id_text)
                       (Some (bearer (localStorage w !! "token"))) None))
    as [|r'] eqn:Hsrv'.
  { intros Hev. apply first_request in Hev. congruence. }
  intros _. unfold spawn.
  pose proof (loadUserFiles_events
                (World (localStorage w) (document w) (S (sent w)))) as Hload.
  destruct (loadUserFiles E _) as [o w1 evs1]. cbn [events_of] in Hload |- *.
  by rewrite Hload.
Qed.

(** C9, amended.  If no token is stored, [upload] issues no network request
    and changes nothing, the results element included; if moreover the page
    has the file input, it shows the alert and returns. *)
Theorem upload_without_token (w : world) :
  token_stored w = false ->
  world_of (upload E w) = w
  /\ requests (events_of (upload E w)) = []
  /\ (is_Some (document w !! "fileInput") ->
      upload E w = Run (Return tt) w [EvAlert token_hint]).
Proof.
  unfold token_stored. intros Htok.
  destruct (document w !! "fileInput") as [input|] eqn:Hin.
  - assert (Hrun : upload E w = Run (Return tt) w [EvAlert token_hint]).
    { unfold upload, mbind at 1, M_bind at 1, getElementById. rewrite Hin.
      unfold mbind at 1, M_bind at 1. cbn [mret M_ret].
      by rewrite bind_getItem, Htok. }
    rewrite Hrun. by split_and!.
  - assert (Hrun : upload E w = Run (Throw TypeError) w []).
    { unfold upload, mbind at 1, M_bind at 1, getElementById.
      by rewrite Hin. }
    rewrite Hrun. split_and!; [done | done |]. by intros [? ?].
Qed.

End FileFacts.

Lemma deleteFile_refreshes_once_witness :
  @delete_completes sample_builtins (accepting_server "/upload")
     (VNum (Fin 7)) (logged_in "boot-2")
  /\ refreshes (events_of (@deleteFile sample_builtins
                             (accepting_server "/upload") (VNum (Fin 7))
                             (logged_in "boot-2")))
     = 1%nat.
Proof.
  assert (Hd : @delete_completes sample_builtins (accepting_server "/upload")
                 (VNum (Fin 7)) (logged_in "boot-2")).
  { exists (Request DELETE "/media/files/7" (Some "Bearer tok") None),
           boot_2_response.
    by repeat split. }
  split; [exact Hd|].
  exact (@deleteFile_refreshes_once sample_builtins
           (accepting_server "/upload") (VNum (Fin 7)) (logged_in "boot-2") Hd).
Defined.

(** C9 as stated fails on a page without the file input: no token is stored,
    and [upload] throws before it shows any alert. *)
Lemma upload_without_file_input_throws :
  token_stored logged_out = false
  /\ @upload sample_builtins (accepting_server "/upload") logged_out
     = Run (Throw TypeError) logged_out [].
Proof. by split. Qed.

Lemma upload_without_token_witness :
  token_stored upload_page = false
  /\ @upload sample_builtins (accepting_server "/upload") upload_page
     = Run (Return tt) upload_page [EvAlert token_hint].
Proof.
  assert (Ht : token_stored upload_page = false) by reflexivity.
  split; [exact Ht|].
  apply (@upload_without_token sample_builtins (accepting_server "/upload")
           upload_page Ht).
  by eexists.
Defined.

(** The first copy of [deleteFile], for contrast: once the user has confirmed,
    a response that is not [ok] gets an alert and no list refresh. *)
Lemma first_copy_deleteFile_failure `{Builtins} (E : env) (id : jsval)
    (w : world) (r : response) (id_text : string) :
  confirm_answer E = true ->
  ToString id = Return id_text ->
  server E (sent w)
         (Request DELETE ("/media/files/" ++ id_text)
                  (Some (bearer (localStorage w !! "token"))) None)
  = Responds r ->
  ok r = false ->
  events_of (FirstCopy.deleteFile E id w)
  = [ EvConfirm "Delete this file?";
      EvFetch (Request DELETE ("/media/files/" ++ id_text)
                       (Some (bearer (localStorage w !! "token"))) None);
      EvAlert "Delete failed" ].
Proof.
  intros Hyes Hid Hsrv Hok.
  unfold FirstCopy.deleteFile. rewrite Hyes. cbn [negb].
  unfold mbind at 1, M_bind at 1, emit. rewrite bind_getItem.
  unfold mbind, M_bind, lift, fetch. by rewrite Hid, Hsrv, Hok.
Qed.

(** * Further properties *)

(** ** Paths and pages *)

Lemma append_cons (a : Ascii.ascii) (p q : string) :
  String a p ++ q = String a (p ++ q).
Proof. reflexivity. Qed.

Lemma string_length_snoc (p : string) (c : Ascii.ascii) :
  String.length (p ++ String c "") = S (String.length p).
Proof.
  induction p as [|a p IH]; [done|].
  rewrite append_cons. cbn [String.length String.substring]. by rewrite IH.
Qed.

Lemma substring_whole_snoc (p : string) (c : Ascii.ascii) :
  String.substring 0 (String.length p) (p ++ String c "") = p.
Proof.
  induction p as [|a p IH]; [done|].
  rewrite append_cons. cbn [String.length String.substring]. by rewrite IH.
Qed.

Lemma substring_last_snoc (p : string) (c : Ascii.ascii) :
  String.substring (String.length p) 1 (p ++ String c "") = String c "".
Proof.
  induction p as [|a p IH]; [done|].
  rewrite append_cons. cbn [String.length String.substring]. by rewrite IH.
Qed.

(** X1.  One trailing slash is dropped: for every non-empty [p], the path
    [p/] is classified as [p] is read; the root and the empty path are the
    root. *)
Theorem normalized_path_trailing_slash (p : string) :
  p <> "" ->
  normalized_path (p ++ "/") = p
  /\ normalized_path "/" = "/"
  /\ normalized_path "" = "/".
Proof.
  intros Hp. split; [|done].
  unfold normalized_path.
  assert (Hne : (p ++ "/" =? "")%string = false).
  { destruct p; [done | reflexivity]. }
  rewrite Hne. unfold endsWith, slice_0_minus_1.
  rewrite string_length_snoc. cbn [String.length].
  replace (S (String.length p) - 1)%nat with (String.length p) by lia.
  rewrite substring_last_snoc, substring_whole_snoc.
  destruct p as [|a p]; [done|]. reflexivity.
Qed.

Lemma normalized_path_trailing_slash_witness :
  "/upload" <> "" /\ normalized_path "/upload/" = "/upload".
Proof.
  assert (Hp : "/upload" <> "") by discriminate.
  split; [exact Hp|].
  exact (proj1 (normalized_path_trailing_slash "/upload" Hp)).
Defined.

(** Case analysis on the characters a path is compared with. *)
Ltac split_char :=
  match goal with
  | |- context [Ascii.eqb ?c ?d] =>
      is_var c; destruct (Ascii.eqb_spec c d) as [->|?]
  | |- context [Ascii.ascii_dec ?d ?c] =>
      is_var c; destruct (Ascii.ascii_dec d c) as [<-|?]
  end.

Ltac forget_tails :=
  repeat match goal with
         | |- context [String.eqb ?a ?b] => destruct (String.eqb a b)
         | |- context [String.prefix ?a ?b] => destruct (String.prefix a b)
         end.

(** No path is on two pages: the four flags of [checkAuth] exclude each
    other. *)
Lemma page_flags_disjoint (path : string) :
  onAuthPage path && onPrivatePage path = false
  /\ onUploadPage path && onProfilePage path = false
  /\ onUploadPage path && onAlgorithmPage path = false
  /\ onProfilePage path && onAlgorithmPage path = false.
Proof.
  unfold onPrivatePage, onAuthPage, onUploadPage, onProfilePage,
    onAlgorithmPage.
  destruct path as [|c1 [|c2 [|c3 rest]]];
    cbn [String.eqb String.prefix]; repeat split_char;
    cbn [String.eqb String.prefix Ascii.eqb Bool.eqb andb orb];
    try (by repeat split); forget_tails; by repeat split.
Qed.

(** X2.  At most one of the four page flags of [checkAuth] holds of a path:
    the public page and the three private pages exclude each other. *)
Theorem page_flags_exclusive (path : string) :
  (length (List.filter id [onAuthPage path; onUploadPage path;
                           onProfilePage path; onAlgorithmPage path])
   <= 1)%nat.
Proof.
  destruct (page_flags_disjoint path) as (Ha & Hb & Hc & Hd).
  unfold onPrivatePage in Ha.
  destruct (onAuthPage path), (onUploadPage path), (onProfilePage path),
    (onAlgorithmPage path); cbn in *; try discriminate; lia.
Qed.

(** ** Steps of the session guard *)

Ltac frame_done :=
  cbn [world_of events_of outcome_of localStorage document sent app];
  split_and!; try done; by intros ? ?.

Section GuardSteps.
Context `{Builtins}.
Variable E : env.

Lemma storage_after_boot_boot_id (w : world) :
  storage_after_boot E w !! "boot_id"
  = match probed_boot_id E w with
    | Some b =>
        match ToString b with
        | Return text => Some text
        | Throw _ => localStorage w !! "boot_id"
        end
    | None => localStorage w !! "boot_id"
    end.
Proof.
  unfold storage_after_boot.
  destruct (probed_boot_id E w) as [b|]; [|done]. cbn zeta.
  destruct (ToString b); [apply lookup_insert_eq|].
  destruct (boot_change_observed E w); [by rewrite lookup_delete_ne | done].
Qed.

(** [getCurrentUser] in full. *)
Lemma getCurrentUser_run (w : world) :
  getCurrentUser E w
  = if truthy_item (localStorage w !! "token") then
      let w' := World (localStorage w) (document w) (S (sent w)) in
      let sent_me := [EvFetch (me_request (localStorage w !! "token"))] in
      match server E (sent w) (me_request (localStorage w !! "token")) with
      | NetworkError => Run (Throw NetworkFailure) w' sent_me
      | Responds r =>
          if ok r then
            match json_body r with
            | Some v => Run (Return v) w' sent_me
            | None => Run (Throw SyntaxError) w' sent_me
            end
          else Run (Return VNull) w' sent_me
      end
    else Run (Return VNull) w [].
Proof.
  unfold getCurrentUser. rewrite bind_getItem.
  destruct (truthy_item (localStorage w !! "token")); [|done].
  cbn [negb]. unfold mbind, M_bind, fetch, me_request.
  destruct (server E (sent w) _) as [|[okr body]]; [done|].
  cbn [ok negb json_body]. destruct okr; [|done].
  unfold res_json. cbn [json_body]. by destruct body.
Qed.

(** The username refresh leaves the storage alone, sends the request of
    [getCurrentUser] and nothing else, and writes to the username element
    only. *)
Lemma show_username_frame (w : world) :
  localStorage (world_of (show_username E w)) = localStorage w
  /\ events_of (show_username E w)
     = (if truthy_item (localStorage w !! "token")
        then [EvFetch (me_request (localStorage w !! "token"))] else [])
  /\ same_elsewhere ["profile-username"] (document w)
                    (document (world_of (show_username E w))).
Proof.
  unfold show_username, mbind, M_bind, getElementById.
  rewrite getCurrentUser_run.
  destruct (truthy_item (localStorage w !! "token")).
  - cbn zeta.
    destruct (server E (sent w) _) as [|[okr body]]; [frame_done|].
    cbn [ok json_body].
    destruct okr; [destruct body as [me|]; [|frame_done] |].
    + cbn [document].
      destruct (document w !! "profile-username") as [el|] eqn:Hel;
        [|frame_done].
      destruct (truthy me); [|frame_done].
      unfold lift. destruct (get_prop me "username") as [u|e];
        [|frame_done].
      destruct (truthy u); [|frame_done].
      destruct (ToString u) as [text|e]; [|frame_done].
      unfold set_content, update_element.
      cbn [world_of events_of localStorage document app].
      split_and!; [done | done |].
      intros id Hid. apply lookup_alter_ne. set_solver.
    + cbn [document]. destruct (document w !! "profile-username"); frame_done.
  - destruct (document w !! "profile-username"); frame_done.
Qed.

(** The list refresh leaves the storage alone and writes to the file list
    element only. *)
Lemma loadUserFiles_frame (w : world) :
  localStorage (world_of (loadUserFiles E w)) = localStorage w
  /\ same_elsewhere ["user-files"] (document w)
                    (document (world_of (loadUserFiles E w))).
Proof.
  unfold loadUserFiles, call, mbind, M_bind, emit, getItem, fetch.
  destruct (server E (sent w) _) as [|[okr body]]; [frame_done|].
  unfold res_json. cbn [json_body ok].
  destruct body as [data|]; [|frame_done].
  cbn [mret M_ret getElementById document].
  destruct okr.
  - match goal with |- context [lift ?o] => destruct o as [rows|e] end;
      unfold lift; [|frame_done].
    unfold set_content, update_element.
    destruct (document w !! "user-files"); [|frame_done].
    split; [done|]. intros id Hid. apply lookup_alter_ne. set_solver.
  - unfold set_content, update_element.
    destruct (document w !! "user-files"); [|frame_done].
    split; [done|]. intros id Hid. apply lookup_alter_ne. set_solver.
Qed.

End GuardSteps.

Section GuardRuns.
Context `{Builtins}.
Variable E : env.

(** Step 3 in full, as to what it returns, stores and emits. *)
Lemma checkAuth_validate_summary (tok : option string) (path : string)
    (w : world) :
  outcome_of (checkAuth_validate E tok path w) = Return tt
  /\ localStorage (world_of (checkAuth_validate E tok path w))
     = (if validation_accepted E w tok then localStorage w
        else delete "token" (localStorage w))
  /\ events_of (checkAuth_validate E tok path w)
     = EvFetch (files_request tok)
       :: events_after_validation E w tok (localStorage w !! "token") path.
Proof.
  unfold validation_accepted, events_after_validation.
  destruct (server E (sent w) (files_request tok)) as [|r] eqn:Hsrv.
  - destruct (checkAuth_validate_unreachable E tok path w Hsrv)
      as (doc & -> & _). done.
  - destruct (ok r) eqn:Hok.
    + destruct (onPrivatePage path) eqn:Hpriv.
      * unfold checkAuth_validate, try_catch, mbind, M_bind, fetch.
        rewrite Hsrv, Hok, Hpriv.
        destruct (onAuthPage path); [done|].
        unfold spawn.
        pose proof (loadUserFiles_frame E
                      (World (localStorage w) (document w) (S (sent w))))
          as [Hls _].
        pose proof (loadUserFiles_events E
                      (World (localStorage w) (document w) (S (sent w))))
          as Hevs.
        destruct (loadUserFiles E _) as [o1 w1 evs1].
        cbn [world_of events_of localStorage] in Hls, Hevs.
        pose proof (show_username_frame E w1) as (Hls2 & Hevs2 & _).
        destruct (show_username E w1) as [[[]|e] w2 evs2];
          cbn [world_of events_of outcome_of localStorage] in *;
          rewrite Hls in *; subst evs1 evs2;
          cbn [mret M_ret outcome_of world_of events_of localStorage app];
          rewrite ?app_nil_r; by split_and!.
      * rewrite (checkAuth_validate_accepted E tok path w r Hsrv Hok Hpriv).
        done.
    + destruct (checkAuth_validate_rejected E tok path w r Hsrv Hok)
        as (doc & -> & _). done.
Qed.

(** [checkAuth] as step 1 followed by one of the two branches. *)
Lemma checkAuth_unfold (w : world) :
  checkAuth E w
  = let w1 := World (storage_after_boot E w) (document w) (S (sent w)) in
    let tok := storage_after_boot E w !! "token" in
    let path := normalized_path (pathname E) in
    let rest :=
      (if truthy_item tok then checkAuth_validate E tok path
       else if onPrivatePage path then location_replace "/auth"
            else show_auth_forms) w1 in
    Run (outcome_of rest) (world_of rest)
        (EvFetch boot_request :: events_of rest).
Proof.
  unfold checkAuth.
  rewrite (bind_run _ _ _ _ _ _ (checkAuth_boot_world E w)).
  rewrite !bind_getItem. cbn [localStorage app].
  by destruct (truthy_item (storage_after_boot E w !! "token")).
Qed.

(** What a run of [checkAuth] returns, stores and emits. *)
Lemma checkAuth_summary (w : world) :
  let ls := storage_after_boot E w in
  let w1 := World ls (document w) (S (sent w)) in
  let tok := ls !! "token" in
  let path := normalized_path (pathname E) in
  outcome_of (checkAuth E w) = Return tt
  /\ localStorage (world_of (checkAuth E w))
     = (if truthy_item tok && negb (validation_accepted E w1 tok)
        then delete "token" ls else ls)
  /\ events_of (checkAuth E w)
     = EvFetch boot_request
       :: (if truthy_item tok
           then EvFetch (files_request tok)
                :: events_after_validation E w1 tok tok path
           else if onPrivatePage path then [EvNavigate "/auth"] else []).
Proof.
  intros ls w1 tok path. rewrite checkAuth_unfold. cbn zeta.
  fold ls tok path w1. cbn [outcome_of world_of events_of].
  destruct (truthy_item tok).
  - destruct (checkAuth_validate_summary tok path w1) as (-> & -> & ->).
    cbn [andb]. by destruct (validation_accepted E w1 tok).
  - cbn [andb]. destruct (onPrivatePage path); [done|].
    destruct (show_auth_forms_run w1) as (doc & -> & _). done.
Qed.

Lemma checkAuth_final_storage_aux (w : world) :
  localStorage (world_of (checkAuth E w)) = storage_after_boot E w
  \/ localStorage (world_of (checkAuth E w))
     = delete "token" (storage_after_boot E w).
Proof.
  destruct (checkAuth_summary w) as (_ & -> & _).
  destruct (_ && _); auto.
Qed.

Lemma checkAuth_boot_id_follows_probe_aux (w : world) :
  localStorage (world_of (checkAuth E w)) !! "boot_id"
  = match probed_boot_id E w with
    | Some b =>
        match ToString b with
        | Return text => Some text
        | Throw _ => localStorage w !! "boot_id"
        end
    | None => localStorage w !! "boot_id"
    end.
Proof.
  rewrite <- storage_after_boot_boot_id.
  destruct (checkAuth_final_storage_aux w) as [-> | ->]; [done|].
  by rewrite lookup_delete_ne.
Qed.

Lemma stale_boot_run (w : world) :
  boot_change_observed E w = true ->
  protected_requests (events_of (checkAuth E w)) = []
  /\ localStorage (world_of (checkAuth E w)) !! "token" = None.
Proof.
  intros Hchg.
  pose proof (storage_after_boot_token E w) as Htok. rewrite Hchg in Htok.
  destruct (checkAuth_summary w) as (_ & -> & ->).
  rewrite Htok. cbn [truthy_item andb].
  split; [by destruct (onPrivatePage _) | exact Htok].
Qed.

End GuardRuns.

(** ** The session guard, further *)

Section GuardProperties.
Context `{Builtins}.
Variable E : env.

(** X3.  [checkAuth] never throws: whatever is stored, whatever the page
    holds and whatever the server answers or fails to answer, the promise it
    returns is fulfilled. *)
Theorem checkAuth_never_throws (w : world) :
  outcome_of (checkAuth E w) = Return tt.
Proof.
  destruct (checkAuth_summary E w) as (Hret & _ & _). exact Hret.
Qed.

(** X4.  [checkAuth] never writes a token and touches no other key of the
    storage than [token] and [boot_id]: afterwards the token is the one that
    was stored or is gone, and every other key holds what it held. *)
Theorem checkAuth_storage_frame (w : world) :
  (localStorage (world_of (checkAuth E w)) !! "token" = None
   \/ localStorage (world_of (checkAuth E w)) !! "token"
      = localStorage w !! "token")
  /\ forall k, k <> "token" -> k <> "boot_id" ->
       localStorage (world_of (checkAuth E w)) !! k = localStorage w !! k.
Proof.
  assert (Hother : forall k, k <> "boot_id" ->
            storage_after_boot E w !! k = localStorage w !! k
            \/ (k = "token" /\ storage_after_boot E w !! k = None)).
  { intros k Hk. unfold storage_after_boot.
    destruct (probed_boot_id E w) as [b|]; [|by left]. cbn zeta.
    destruct (ToString b); rewrite ?lookup_insert_ne by done.
    all: destruct (boot_change_observed E w); [|by left].
    all: destruct (decide (k = "token")) as [->|Hne];
      [ right; split; [done | apply lookup_delete_eq]
      | left; by apply lookup_delete_ne ]. }
  split.
  - destruct (checkAuth_final_storage_aux E w) as [-> | ->].
    + destruct (Hother "token") as [-> | [_ ->]]; auto.
    + left. apply lookup_delete_eq.
  - intros k Hk1 Hk2.
    destruct (Hother k Hk2) as [Hsame | [-> _]]; [|done].
    destruct (checkAuth_final_storage_aux E w) as [-> | ->]; [done|].
    by rewrite lookup_delete_ne.
Qed.

(** X5.  The stored boot id follows the probe: when [GET /meta/boot]
    succeeds with a body that can be destructured and the boot id it holds
    can be converted to a string, the boot id stored after [checkAuth] is that
    string; when the probe fails in any way (network, status, body) or the
    conversion throws (an object with an own [toString], on which [setItem]
    throws inside the [try]), the stored boot id is what it was. *)
Theorem checkAuth_boot_id_follows_probe (w : world) :
  localStorage (world_of (checkAuth E w)) !! "boot_id"
  = match probed_boot_id E w with
    | Some b =>
        match ToString b with
        | Return text => Some text
        | Throw _ => localStorage w !! "boot_id"
        end
    | None => localStorage w !! "boot_id"
    end.
Proof.
  rewrite <- storage_after_boot_boot_id.
  destruct (checkAuth_final_storage_aux E w) as [-> | ->]; [done|].
  by rewrite lookup_delete_ne.
Qed.

(** X6.  [checkAuth] navigates at most once.  It goes to [/auth] only from a
    private page and leaves no usable token behind; it goes to [/upload] only
    from the public page, only after the server has accepted the validation
    request, and keeps the token. *)
Theorem checkAuth_navigates_at_most_once (w : world) :
  let path := normalized_path (pathname E) in
  let w1 := World (storage_after_boot E w) (document w) (S (sent w)) in
  navigations (events_of (checkAuth E w)) = []
  \/ (navigations (events_of (checkAuth E w)) = ["/auth"]
      /\ onPrivatePage path = true
      /\ token_stored (world_of (checkAuth E w)) = false)
  \/ (navigations (events_of (checkAuth E w)) = ["/upload"]
      /\ onAuthPage path = true
      /\ validation_accepted E w1 (storage_after_boot E w !! "token") = true
      /\ token_stored (world_of (checkAuth E w)) = true).
Proof.
  intros path w1. unfold token_stored.
  destruct (checkAuth_summary E w) as (_ & -> & ->).
  fold path w1. set (ls := storage_after_boot E w).
  destruct (page_flags_disjoint path) as (Hdisj & _).
  assert (Hup : onUploadPage path = true -> onPrivatePage path = true).
  { unfold onPrivatePage. by intros ->. }
  destruct (truthy_item (ls !! "token")) eqn:Htok; cbn [andb].
  - unfold events_after_validation, validation_accepted.
    destruct (server E (sent w1) (files_request (ls !! "token"))) as [|r].
    + cbn [negb]. destruct (onUploadPage path) eqn:Hu; [|by left].
      right; left. split_and!; [done | by apply Hup |].
      by rewrite lookup_delete_eq.
    + destruct (ok r); cbn [negb].
      * destruct (onAuthPage path) eqn:Ha.
        { right; right. by split_and!. }
        destruct (onPrivatePage path); [|by left].
        left. by destruct (truthy_item (ls !! "token")).
      * destruct (onPrivatePage path); [|by left].
        right; left. split_and!; [done | done |].
        by rewrite lookup_delete_eq.
  - destruct (onPrivatePage path); [|by left].
    right; left. by split_and!.
Qed.

(** X7.  A token known to be stale is never sent: when step 1 observes a
    change of boot id, [checkAuth] issues no request that carries a
    credential, and the token is gone afterwards. *)
Theorem checkAuth_stale_boot_sends_no_credential (w : world) :
  boot_change_observed E w = true ->
  protected_requests (events_of (checkAuth E w)) = []
  /\ localStorage (world_of (checkAuth E w)) !! "token" = None.
Proof.
  intros Hchg.
  pose proof (storage_after_boot_token E w) as Htok. rewrite Hchg in Htok.
  destruct (checkAuth_summary E w) as (_ & -> & ->).
  rewrite Htok. cbn [truthy_item andb].
  split; [by destruct (onPrivatePage _) | exact Htok].
Qed.

(** X8.  Every credential [checkAuth] sends is the stored token: each of its
    requests that carries an [Authorization] header carries
    [Bearer <the token stored when it was called>], and it sends at most four
    requests. *)
Theorem checkAuth_sends_the_stored_token (w : world) :
  Forall (fun r => req_authorization r
                   = Some (bearer (localStorage w !! "token")))
         (protected_requests (events_of (checkAuth E w)))
  /\ (length (requests (events_of (checkAuth E w))) <= 4)%nat.
Proof.
  destruct (checkAuth_summary E w) as (_ & _ & ->).
  pose proof (storage_after_boot_token E w) as Htok.
  set (ls := storage_after_boot E w) in *.
  destruct (truthy_item (ls !! "token")) eqn:Htr.
  - assert (Hsame : ls !! "token" = localStorage w !! "token").
    { rewrite Htok in Htr |- *. by destruct (boot_change_observed E w). }
    rewrite Hsame. unfold events_after_validation.
    rewrite Hsame in Htr. rewrite Htr.
    destruct (server E _ _) as [|r].
    + destruct (onUploadPage (normalized_path (pathname E))); cbn;
        split; repeat constructor.
    + destruct (ok r), (onAuthPage (normalized_path (pathname E))),
        (onPrivatePage (normalized_path (pathname E))); cbn;
        split; repeat constructor.
  - destruct (onPrivatePage (normalized_path (pathname E))); cbn;
      split; repeat constructor.
Qed.

(** X9.  With a token the server accepts, on a private page, [checkAuth]
    stays on the page, keeps the token, and refreshes the file list once and
    asks for the current user once: after the probe it sends the validation
    request, the list request and the [/auth/me] request, in this order. *)
Theorem checkAuth_valid_token_private_page (w : world) (r : response) :
  token_stored w = true ->
  boot_change_observed E w = false ->
  server E (S (sent w)) (files_request (localStorage w !! "token"))
  = Responds r ->
  ok r = true ->
  onPrivatePage (normalized_path (pathname E)) = true ->
  events_of (checkAuth E w)
  = [ EvFetch boot_request;
      EvFetch (files_request (localStorage w !! "token"));
      EvCall "loadUserFiles";
      EvFetch (files_request (localStorage w !! "token"));
      EvFetch (me_request (localStorage w !! "token")) ]
  /\ localStorage (world_of (checkAuth E w)) !! "token"
     = localStorage w !! "token".
Proof.
  unfold token_stored. intros Htok Hchg Hsrv Hok Hpriv.
  destruct (checkAuth_summary E w) as (_ & -> & ->).
  pose proof (storage_after_boot_token E w) as Hls. rewrite Hchg in Hls.
  rewrite Hls, Htok.
  unfold events_after_validation, validation_accepted. cbn [sent].
  rewrite Hsrv, Hok, Hpriv, Htok. cbn [andb negb].
  destruct (page_flags_disjoint (normalized_path (pathname E))) as (Hd & _).
  rewrite Hpriv, andb_true_r in Hd. by rewrite Hd.
Qed.

End GuardProperties.

Lemma checkAuth_stale_boot_sends_no_credential_witness :
  boot_change_observed (accepting_server "/upload") (logged_in "boot-1") = true
  /\ protected_requests
       (events_of (@checkAuth sample_builtins (accepting_server "/upload")
                              (logged_in "boot-1")))
     = [].
Proof.
  assert (Hc : boot_change_observed (accepting_server "/upload")
                 (logged_in "boot-1") = true) by reflexivity.
  split; [exact Hc|].
  exact (proj1 (@checkAuth_stale_boot_sends_no_credential sample_builtins
                  (accepting_server "/upload") (logged_in "boot-1") Hc)).
Defined.

Lemma checkAuth_valid_token_private_page_witness :
  token_stored (logged_in "boot-2") = true
  /\ boot_change_observed (accepting_server "/profile") (logged_in "boot-2")
     = false
  /\ onPrivatePage (normalized_path "/profile") = true
  /\ events_of (@checkAuth sample_builtins (accepting_server "/profile")
                           (logged_in "boot-2"))
     = [ EvFetch boot_request;
         EvFetch (files_request (Some "tok"));
         EvCall "loadUserFiles";
         EvFetch (files_request (Some "tok"));
         EvFetch (me_request (Some "tok")) ].
Proof.
  assert (Ht : token_stored (logged_in "boot-2") = true) by reflexivity.
  assert (Hc : boot_change_observed (accepting_server "/profile")
                 (logged_in "boot-2") = false) by reflexivity.
  assert (Hp : onPrivatePage (normalized_path "/profile") = true)
    by reflexivity.
  split_and!; [exact Ht | exact Hc | exact Hp |].
  exact (proj1 (@checkAuth_valid_token_private_page sample_builtins
                  (accepting_server "/profile") (logged_in "boot-2")
                  boot_2_response Ht Hc eq_refl eq_refl Hp)).
Defined.

Section BootIds.
Context `{Builtins}.

(** X10.  A boot id that is a string makes a faithful round trip through the
    storage: after a run of [checkAuth] whose probe returned the string [s],
    a later run whose probe returns [s] again observes no change of boot id,
    and its step 1 leaves the token as it finds it. *)
Theorem checkAuth_same_boot_id_keeps_token (E E' : env) (w : world)
    (s : string) :
  probed_boot_id E w = Some (VStr s) ->
  probed_boot_id E' (world_of (checkAuth E w)) = Some (VStr s) ->
  boot_change_observed E' (world_of (checkAuth E w)) = false
  /\ storage_after_boot E' (world_of (checkAuth E w)) !! "token"
     = localStorage (world_of (checkAuth E w)) !! "token".
Proof.
  intros Hfirst Hsecond.
  assert (Hno : boot_change_observed E' (world_of (checkAuth E w)) = false).
  { unfold boot_change_observed. rewrite Hsecond.
    rewrite checkAuth_boot_id_follows_probe_aux, Hfirst.
    cbn [ToString default from_option id strict_neq_str].
    rewrite String.eqb_refl. apply andb_false_r. }
  split; [exact Hno|]. by rewrite storage_after_boot_token, Hno.
Qed.

(** X11.  A boot id that is not a string does not: [!==] compares the stored
    string with the returned value and finds them different every time.
    After a run whose probe returned such a boot id, one that [setItem] can
    convert to a string that is not empty (a number, a boolean, [null], a
    plain object), the next run logs the user out although the server returns
    the same boot id: it observes a change, removes the token and sends no
    credential. *)
Theorem checkAuth_non_string_boot_id_logs_out (E E' : env) (w : world)
    (b : jsval) (text : string) :
  probed_boot_id E w = Some b ->
  (forall s, b <> VStr s) ->
  ToString b = Return text ->
  text <> "" ->
  probed_boot_id E' (world_of (checkAuth E w)) = Some b ->
  boot_change_observed E' (world_of (checkAuth E w)) = true
  /\ localStorage (world_of (checkAuth E' (world_of (checkAuth E w))))
       !! "token" = None
  /\ protected_requests
       (events_of (checkAuth E' (world_of (checkAuth E w)))) = [].
Proof.
  intros Hfirst Hnot Htext Hne Hsecond.
  assert (Hchg : boot_change_observed E' (world_of (checkAuth E w)) = true).
  { unfold boot_change_observed. rewrite Hsecond.
    rewrite checkAuth_boot_id_follows_probe_aux, Hfirst, Htext.
    cbn [truthy_item default from_option id].
    apply andb_true_iff. split.
    - apply negb_true_iff, String.eqb_neq. exact Hne.
    - destruct b; try reflexivity. by destruct (Hnot s). }
  split; [exact Hchg|].
  destruct (stale_boot_run E' (world_of (checkAuth E w)) Hchg) as [Hp Ht].
  by split.
Qed.

End BootIds.

Lemma checkAuth_same_boot_id_keeps_token_witness :
  probed_boot_id (accepting_server "/upload") (logged_in "boot-2")
  = Some (VStr "boot-2")
  /\ boot_change_observed (accepting_server "/upload")
       (world_of (@checkAuth sample_builtins (accepting_server "/upload")
                             (logged_in "boot-2")))
     = false.
Proof.
  assert (H1 : probed_boot_id (accepting_server "/upload")
                 (logged_in "boot-2") = Some (VStr "boot-2")) by reflexivity.
  split; [exact H1|].
  exact (proj1 (@checkAuth_same_boot_id_keeps_token sample_builtins
                  (accepting_server "/upload") (accepting_server "/upload")
                  (logged_in "boot-2") "boot-2" H1 eq_refl)).
Defined.

Lemma checkAuth_non_string_boot_id_logs_out_witness :
  probed_boot_id (numeric_boot_server "/upload") logged_out
  = Some (VNum (Fin 7))
  /\ @ToString sample_builtins (VNum (Fin 7)) = Return "7"
  /\ boot_change_observed (numeric_boot_server "/upload")
       (world_of (@checkAuth sample_builtins (numeric_boot_server "/upload")
                             logged_out))
     = true.
Proof.
  assert (H1 : probed_boot_id (numeric_boot_server "/upload") logged_out
               = Some (VNum (Fin 7))) by reflexivity.
  assert (H2 : @ToString sample_builtins (VNum (Fin 7)) = Return "7")
    by reflexivity.
  split_and!; [exact H1 | exact H2 |].
  exact (proj1 (@checkAuth_non_string_boot_id_logs_out sample_builtins
                  (numeric_boot_server "/upload")
                  (numeric_boot_server "/upload") logged_out (VNum (Fin 7))
                  "7" H1 ltac:(discriminate) H2 ltac:(discriminate) eq_refl)).
Defined.

(** ** File operations, further *)

Section FileProperties.
Context `{Builtins}.
Variable E : env.

Lemma content_of_set (w : world) (id s : string) (el : element) :
  document w !! id = Some el ->
  content <$> alter (with_content s) id (document w) !! id = Some s.
Proof. intros Hel. by rewrite lookup_alter_eq, Hel. Qed.

(** X12.  [loadUserFiles] parses the body before it looks at the status: a
    response whose body is not JSON, success or error, makes it throw a
    [SyntaxError], and the page shows neither a list nor the error text: the
    document is left as it was. *)
Theorem loadUserFiles_non_json_body (w : world) (r : response) :
  server E (sent w) (files_request (localStorage w !! "token")) = Responds r ->
  json_body r = None ->
  outcome_of (loadUserFiles E w) = Throw SyntaxError
  /\ document (world_of (loadUserFiles E w)) = document w.
Proof.
  intros Hsrv Hbody.
  unfold loadUserFiles, call, mbind, M_bind, emit, getItem, fetch.
  fold (files_request (localStorage w !! "token")). rewrite Hsrv.
  unfold res_json. by rewrite Hbody.
Qed.

(** X13.  On an error status with a JSON body, [loadUserFiles] replaces the
    content of the file list element by the error text; on a page without
    that element it throws instead. *)
Theorem loadUserFiles_error_status (w : world) (r : response) (data : jsval) :
  server E (sent w) (files_request (localStorage w !! "token")) = Responds r ->
  ok r = false ->
  json_body r = Some data ->
  (is_Some (document w !! "user-files") ->
   outcome_of (loadUserFiles E w) = Return tt
   /\ content_of (world_of (loadUserFiles E w)) "user-files"
      = Some files_error_html)
  /\ (document w !! "user-files" = None ->
      outcome_of (loadUserFiles E w) = Throw TypeError).
Proof.
  intros Hsrv Hok Hbody.
  unfold loadUserFiles, call, mbind, M_bind, emit, getItem, fetch.
  fold (files_request (localStorage w !! "token")). rewrite Hsrv.
  unfold res_json. rewrite Hbody, Hok.
  cbn [mret M_ret getElementById document]. unfold content_of.
  unfold set_content, update_element.
  destruct (document w !! "user-files") as [el|] eqn:Hel.
  - split; [|done]. intros _. cbn [outcome_of world_of document].
    split; [done|]. by apply (content_of_set w _ _ el).
  - split; [|done]. by intros [? ?].
Qed.

(** A row that cannot be built fails with a [TypeError]. *)
Lemma file_row_throws (f : jsval) (e : exn) :
  file_row f = Throw e -> e = TypeError.
Proof.
  unfold file_row, date_text, ToPrimitive.
  destruct f as [| |b|n|s|items|fields]; cbn [get_prop mbind outcome_bind];
    try (by intros [= <-]).
  all: repeat match goal with
         | |- context [ToString ?v] =>
             let Hc := fresh "Hc" in
             pose proof (ToString_converts v) as Hc;
             destruct (converts v);
             [ destruct Hc as [? ->] | rewrite Hc ];
             cbn [mbind outcome_bind mret outcome_ret]
         | |- context [match ?v with VUndefined => _ | _ => _ end] =>
             destruct v; cbn [mbind outcome_bind mret outcome_ret]
         end;
    try (by intros [= <-]); try discriminate.
Qed.

Lemma mapM_of_Forall2 {A B} (f : A -> outcome B) (l : list A) (bs : list B) :
  Forall2 (fun a b => f a = Return b) l bs -> mapM f l = Return bs.
Proof.
  induction 1 as [|a b l bs Hab _ IH]; [done|].
  cbn [mapM]. rewrite Hab. cbn. by rewrite IH.
Qed.

Lemma mapM_throws {A B} (f : A -> outcome B) (l : list A) :
  Exists (fun a => exists e, f a = Throw e) l ->
  exists a e, a ∈ l /\ f a = Throw e /\ mapM f l = Throw e.
Proof.
  induction l as [|a l IH]; intros Hex; [by apply Exists_nil in Hex|].
  cbn [mapM]. destruct (f a) as [b|e] eqn:Ha.
  - apply Exists_cons in Hex as [[e He] | Hex]; [congruence|].
    destruct (IH Hex) as (a' & e & Hin & Hthrow & ->).
    exists a', e. split_and!; [by right | done | done].
  - exists a, e. split_and!; [by left | done | done].
Qed.

(** X14.  On success [loadUserFiles] replaces the content of the file list
    element by the rows of the file records, one after the other in the order
    of the response, each the text of the template for its record, and by
    nothing when the list is empty.  If the row of some record cannot be
    built (the record is [null], or its name, date or id cannot be converted
    to a string), it throws a [TypeError] instead and leaves the page as it
    was. *)
Theorem loadUserFiles_lists_files (w : world) (r : response)
    (data : jsval) (fs : list jsval) (el : element) :
  server E (sent w) (files_request (localStorage w !! "token")) = Responds r ->
  ok r = true ->
  json_body r = Some data ->
  get_prop data "files" = Return (VArr fs) ->
  document w !! "user-files" = Some el ->
  (forall rows,
     Forall2 (fun f row => file_row f = Return row) fs rows ->
     outcome_of (loadUserFiles E w) = Return tt
     /\ content_of (world_of (loadUserFiles E w)) "user-files"
        = Some (String.concat "" rows))
  /\ (Exists (fun f => exists e, file_row f = Throw e) fs ->
      outcome_of (loadUserFiles E w) = Throw TypeError
      /\ document (world_of (loadUserFiles E w)) = document w).
Proof.
  intros Hsrv Hok Hbody Hfiles Hel.
  unfold loadUserFiles, call, mbind, M_bind, emit, getItem, fetch.
  fold (files_request (localStorage w !! "token")). rewrite Hsrv.
  unfold res_json. rewrite Hbody, Hok.
  cbn [mret M_ret getElementById document lift].
  rewrite Hfiles. cbn [outcome_bind array_map]. split.
  - intros rows Hrows. rewrite (mapM_of_Forall2 _ _ _ Hrows).
    unfold content_of, set_content, update_element. rewrite Hel.
    cbn [outcome_of world_of document]. split; [done|].
    by apply (content_of_set _ _ _ el).
  - intros Hex. destruct (mapM_throws _ _ Hex) as (f & e & _ & Hf & ->).
    by rewrite (file_row_throws f e Hf).
Qed.

(** X15.  [loadUserFiles] does not test the token: with none stored it still
    sends its request, with the header [Bearer null]. *)
Theorem loadUserFiles_without_token (w : world) :
  localStorage w !! "token" = None ->
  requests (events_of (loadUserFiles E w))
  = [Request GET "/media/files" (Some "Bearer null") None].
Proof.
  intros Htok. rewrite loadUserFiles_events, Htok. reflexivity.
Qed.

End FileProperties.

Lemma loadUserFiles_non_json_body_witness :
  server non_json_server (sent upload_page_logged_in)
         (files_request (localStorage upload_page_logged_in !! "token"))
  = Responds (Response true None)
  /\ outcome_of (@loadUserFiles sample_builtins non_json_server
                                upload_page_logged_in)
     = Throw SyntaxError
  /\ document (world_of (@loadUserFiles sample_builtins non_json_server
                                        upload_page_logged_in))
     = document upload_page_logged_in.
Proof.
  split; [reflexivity|].
  exact (@loadUserFiles_non_json_body sample_builtins non_json_server
           upload_page_logged_in (Response true None) eq_refl eq_refl).
Defined.

Lemma loadUserFiles_error_status_witness :
  server (refusing_server invalid_token_body) (sent upload_page_logged_in)
         (files_request (localStorage upload_page_logged_in !! "token"))
  = Responds (Response false (Some invalid_token_body))
  /\ is_Some (document upload_page_logged_in !! "user-files")
  /\ outcome_of (@loadUserFiles sample_builtins
                   (refusing_server invalid_token_body) upload_page_logged_in)
     = Return tt
  /\ content_of (world_of (@loadUserFiles sample_builtins
                             (refusing_server invalid_token_body)
                             upload_page_logged_in)) "user-files"
     = Some files_error_html.
Proof.
  assert (Hel : is_Some (document upload_page_logged_in !! "user-files"))
    by (eexists; reflexivity).
  split; [reflexivity|]. split; [exact Hel|].
  exact (proj1 (@loadUserFiles_error_status sample_builtins
                  (refusing_server invalid_token_body) upload_page_logged_in
                  (Response false (Some invalid_token_body))
                  invalid_token_body eq_refl eq_refl eq_refl) Hel).
Defined.

Lemma loadUserFiles_lists_files_witness :
  server listing_server (sent upload_page_logged_in)
         (files_request (localStorage upload_page_logged_in !! "token"))
  = Responds listing_response
  /\ @file_row sample_builtins sample_file = Return sample_row
  /\ outcome_of (@loadUserFiles sample_builtins listing_server
                                upload_page_logged_in)
     = Return tt
  /\ content_of (world_of (@loadUserFiles sample_builtins listing_server
                                          upload_page_logged_in))
                "user-files"
     = Some sample_row.
Proof.
  assert (Hrow : @file_row sample_builtins sample_file = Return sample_row)
    by reflexivity.
  assert (Hrows : Forall2 (fun f row => @file_row sample_builtins f
                                        = Return row)
                          [sample_file] [sample_row])
    by (constructor; [exact Hrow | constructor]).
  split; [reflexivity|]. split; [exact Hrow|].
  exact (proj1 (@loadUserFiles_lists_files sample_builtins listing_server
                  upload_page_logged_in listing_response
                  (VObj [("files", VArr [sample_file])]) [sample_file]
                  (Element [] "" [] 0 0)
                  eq_refl eq_refl eq_refl eq_refl eq_refl)
               [sample_row] Hrows).
Defined.

Lemma loadUserFiles_without_token_witness :
  localStorage upload_page !! "token" = None
  /\ requests (events_of (@loadUserFiles sample_builtins listing_server
                                         upload_page))
     = [Request GET "/media/files" (Some "Bearer null") None].
Proof.
  split; [reflexivity|].
  exact (@loadUserFiles_without_token sample_builtins listing_server
           upload_page eq_refl).
Defined.

Section UploadProperties.
Context `{Builtins}.
Variable E : env.

(** The start of [upload] with the file input on the page and a token
    stored: the request is sent with the selected files. *)
Lemma upload_sends (w : world) (input : element) :
  document w !! "fileInput" = Some input ->
  token_stored w = true ->
  upload E w
  = (res ← fetch E (upload_request (localStorage w !! "token") (files input));
     data ← res_json res;
     resultsEl ← getElementById "results";
     if ok res then
       names ← lift (rs ← get_prop data "results";
                     array_map (fun r => get_prop r "filename") rs);
       texts ← lift (mapM join_item names);
       set_content "results" resultsEl (uploaded_html texts);;
       spawn (loadUserFiles E)
     else
       detail ← lift (get_prop data "detail");
       text ← lift (ToString (if truthy detail then detail
                              else VStr "Unknown"));
       set_content "results" resultsEl (upload_error_html text)) w.
Proof.
  unfold token_stored. intros Hin Htok.
  unfold upload, mbind at 1, M_bind at 1, getElementById. rewrite Hin.
  unfold mbind at 1, M_bind at 1. cbn [mret M_ret].
  rewrite bind_getItem, Htok. cbn [negb app].
  unfold uploaded_html, upload_error_html, upload_request.
  match goal with |- _ = ?R => by destruct R end.
Qed.

(** X16.  A successful upload shows the uploaded file names, joined by commas,
    in the results element and refreshes the file list once: [upload] sends
    the upload request with the selected files and the stored token, then the
    list request.  If a file name cannot be converted to a string, [join]
    throws: nothing is shown and the list is not refreshed. *)
Theorem upload_success (w : world) (input results : element) (r : response)
    (data : jsval) (rs names : list jsval) :
  document w !! "fileInput" = Some input ->
  document w !! "results" = Some results ->
  token_stored w = true ->
  server E (sent w) (upload_request (localStorage w !! "token") (files input))
  = Responds r ->
  ok r = true ->
  json_body r = Some data ->
  get_prop data "results" = Return (VArr rs) ->
  mapM (fun x => get_prop x "filename") rs = Return names ->
  (forall texts,
     mapM join_item names = Return texts ->
     outcome_of (upload E w) = Return tt
     /\ content_of (world_of (upload E w)) "results"
        = Some (uploaded_html texts)
     /\ requests (events_of (upload E w))
        = [ upload_request (localStorage w !! "token") (files input);
            files_request (localStorage w !! "token") ]
     /\ refreshes (events_of (upload E w)) = 1%nat)
  /\ (forall e,
        mapM join_item names = Throw e ->
        outcome_of (upload E w) = Throw e
        /\ document (world_of (upload E w)) = document w
        /\ requests (events_of (upload E w))
           = [upload_request (localStorage w !! "token") (files input)]
        /\ refreshes (events_of (upload E w)) = 0%nat).
Proof.
  intros Hin Hres Htok Hsrv Hok Hbody Hrs Hnames.
  rewrite (upload_sends w input Hin Htok).
  unfold mbind, M_bind, fetch. rewrite Hsrv.
  unfold res_json. rewrite Hbody, Hok.
  cbn [mret M_ret getElementById document lift]. rewrite Hrs.
  cbn [outcome_bind array_map]. rewrite Hnames, Hres. split.
  - intros texts ->.
    unfold set_content, update_element, spawn.
    set (w1 := World _ _ _).
    pose proof (loadUserFiles_frame E w1) as [Hls Hdoc].
    pose proof (loadUserFiles_events E w1) as Hevs.
    destruct (loadUserFiles E w1) as [o w2 evs].
    cbn [world_of events_of outcome_of] in *. subst evs.
    split_and!; [done | | done | done].
    unfold content_of.
    rewrite Hdoc by (by intros ?%list_elem_of_singleton).
    subst w1. cbn [document]. by apply (content_of_set w _ _ results).
  - by intros e ->.
Qed.

(** X17.  A refused upload shows the reason the server gives, or [Unknown]
    when it gives none, and does not refresh the file list: the upload
    request is the only request.  If the reason cannot be converted to a
    string, the concatenation throws and nothing is shown. *)
Theorem upload_refused (w : world) (input results : element) (r : response)
    (data detail : jsval) :
  document w !! "fileInput" = Some input ->
  document w !! "results" = Some results ->
  token_stored w = true ->
  server E (sent w) (upload_request (localStorage w !! "token") (files input))
  = Responds r ->
  ok r = false ->
  json_body r = Some data ->
  get_prop data "detail" = Return detail ->
  (forall text,
     ToString (if truthy detail then detail else VStr "Unknown")
     = Return text ->
     outcome_of (upload E w) = Return tt
     /\ content_of (world_of (upload E w)) "results"
        = Some (upload_error_html text)
     /\ requests (events_of (upload E w))
        = [upload_request (localStorage w !! "token") (files input)]
     /\ refreshes (events_of (upload E w)) = 0%nat)
  /\ (forall e,
        ToString (if truthy detail then detail else VStr "Unknown")
        = Throw e ->
        outcome_of (upload E w) = Throw e
        /\ document (world_of (upload E w)) = document w).
Proof.
  intros Hin Hres Htok Hsrv Hok Hbody Hdetail.
  rewrite (upload_sends w input Hin Htok).
  unfold mbind, M_bind, fetch. rewrite Hsrv.
  unfold res_json. rewrite Hbody, Hok.
  cbn [mret M_ret getElementById document lift]. rewrite Hdetail, Hres.
  split.
  - intros text ->. unfold set_content, update_element.
    cbn [world_of events_of outcome_of document].
    split_and!; [done | | done | done].
    by apply (content_of_set w _ _ results).
  - by intros e ->.
Qed.

(** X18.  [deleteFile] (the second copy) never throws and never touches the
    storage; without a token it does nothing at all, and when the [DELETE]
    request fails on the network it gives up silently, without refreshing the
    list. *)
Theorem deleteFile_quiet (id : jsval) (w : world) :
  outcome_of (deleteFile E id w) = Return tt
  /\ localStorage (world_of (deleteFile E id w)) = localStorage w
  /\ (token_stored w = false -> deleteFile E id w = Run (Return tt) w [])
  /\ (server E (sent w) (delete_request id (localStorage w !! "token"))
      = NetworkError ->
      refreshes (events_of (deleteFile E id w)) = 0%nat).
Proof.
  unfold token_stored, deleteFile, delete_request, text_of.
  rewrite bind_getItem.
  destruct (truthy_item (localStorage w !! "token")); cbn [negb].
  2:{ by split_and!. }
  unfold try_catch, mbind, M_bind, lift, fetch.
  destruct (ToString id) as [id_text|e].
  2:{ by split_and!. }
  destruct (server E (sent w) _) as [|r].
  { by split_and!. }
  unfold spawn.
  pose proof (loadUserFiles_frame E
                (World (localStorage w) (document w) (S (sent w))))
    as [Hls _].
  destruct (loadUserFiles E _) as [o w1 evs1].
  cbn [world_of outcome_of localStorage] in *. by split_and!.
Qed.

End UploadProperties.

Lemma upload_success_witness :
  token_stored upload_page_logged_in = true
  /\ server upload_server (sent upload_page_logged_in)
            (upload_request (localStorage upload_page_logged_in !! "token")
                            ["lecture.mp4"])
     = Responds upload_ok_response
  /\ mapM (@join_item sample_builtins) [VStr "lecture.mp4"]
     = Return ["lecture.mp4"]
  /\ outcome_of (@upload sample_builtins upload_server upload_page_logged_in)
     = Return tt
  /\ content_of (world_of (@upload sample_builtins upload_server
                                   upload_page_logged_in)) "results"
     = Some (uploaded_html ["lecture.mp4"])
  /\ requests (events_of (@upload sample_builtins upload_server
                                  upload_page_logged_in))
     = [ upload_request (localStorage upload_page_logged_in !! "token")
                        ["lecture.mp4"];
         files_request (localStorage upload_page_logged_in !! "token") ]
  /\ refreshes (events_of (@upload sample_builtins upload_server
                                   upload_page_logged_in))
     = 1%nat.
Proof.
  split; [reflexivity|]. split; [reflexivity|]. split; [reflexivity|].
  exact (proj1 (@upload_success sample_builtins upload_server
                  upload_page_logged_in
                  (Element [] "" ["lecture.mp4"] 0 0) (Element [] "" [] 0 0)
                  upload_ok_response
                  (VObj [("results",
                          VArr [VObj [("filename", VStr "lecture.mp4")]])])
                  [VObj [("filename", VStr "lecture.mp4")]]
                  [VStr "lecture.mp4"]
                  eq_refl eq_refl eq_refl eq_refl eq_refl eq_refl eq_refl
                  eq_refl)
               ["lecture.mp4"] eq_refl).
Defined.

Lemma upload_refused_witness :
  token_stored upload_page_logged_in = true
  /\ server (refusing_server too_large_body) (sent upload_page_logged_in)
            (upload_request (localStorage upload_page_logged_in !! "token")
                            ["lecture.mp4"])
     = Responds (Response false (Some too_large_body))
  /\ @ToString sample_builtins (VStr "Too large") = Return "Too large"
  /\ outcome_of (@upload sample_builtins (refusing_server too_large_body)
                         upload_page_logged_in)
     = Return tt
  /\ content_of (world_of (@upload sample_builtins
                             (refusing_server too_large_body)
                             upload_page_logged_in)) "results"
     = Some (upload_error_html "Too large")
  /\ requests (events_of (@upload sample_builtins
                            (refusing_server too_large_body)
                            upload_page_logged_in))
     = [upload_request (localStorage upload_page_logged_in !! "token")
                       ["lecture.mp4"]]
  /\ refreshes (events_of (@upload sample_builtins
                             (refusing_server too_large_body)
                             upload_page_logged_in))
     = 0%nat.
Proof.
  split; [reflexivity|]. split; [reflexivity|]. split; [reflexivity|].
  exact (proj1 (@upload_refused sample_builtins
                  (refusing_server too_large_body) upload_page_logged_in
                  (Element [] "" ["lecture.mp4"] 0 0) (Element [] "" [] 0 0)
                  (Response false (Some too_large_body)) too_large_body
                  (VStr "Too large")
                  eq_refl eq_refl eq_refl eq_refl eq_refl eq_refl eq_refl)
               "Too large" eq_refl).
Defined.

Section IdentityProperties.
Context `{Builtins}.
Variable E : env.

(** X19.  [getCurrentUser] changes neither the storage nor the document and
    sends at most one request.  Without a token it sends none and returns
    [null]; with one, a response that is not [ok] also gives [null]. *)
Theorem getCurrentUser_null_and_frame (w : world) :
  localStorage (world_of (getCurrentUser E w)) = localStorage w
  /\ document (world_of (getCurrentUser E w)) = document w
  /\ (length (requests (events_of (getCurrentUser E w))) <= 1)%nat
  /\ (token_stored w = false -> getCurrentUser E w = Run (Return VNull) w [])
  /\ (forall r,
        token_stored w = true ->
        server E (sent w) (me_request (localStorage w !! "token"))
        = Responds r ->
        ok r = false ->
        outcome_of (getCurrentUser E w) = Return VNull).
Proof.
  unfold token_stored. rewrite getCurrentUser_run.
  destruct (truthy_item (localStorage w !! "token")).
  - cbn zeta.
    destruct (server E (sent w) _) as [|r] eqn:Hsrv.
    + split_and!; first [done | cbn; lia].
    + destruct (ok r) eqn:Hok.
      * destruct (json_body r); split_and!;
          first [done | cbn; lia | intros r' _ [= <-]; congruence].
      * split_and!; first [done | cbn; lia].
  - split_and!; first [done | cbn; lia].
Qed.

(** X20.  [showUsernameInNav] is best effort: it never throws, whatever the
    network does, leaves the storage alone and writes to no element but the
    username element.  When the server returns a user with a username and the
    page has that element, the element shows the username if it can be
    converted to a string; if it cannot, the assignment throws inside the
    [try] and the page is left as it was. *)
Theorem showUsernameInNav_best_effort (w : world) :
  outcome_of (showUsernameInNav E w) = Return tt
  /\ localStorage (world_of (showUsernameInNav E w)) = localStorage w
  /\ same_elsewhere ["profile-username"] (document w)
                    (document (world_of (showUsernameInNav E w)))
  /\ (forall r me username,
        token_stored w = true ->
        server E (sent w) (me_request (localStorage w !! "token"))
        = Responds r ->
        ok r = true ->
        json_body r = Some me ->
        truthy me = true ->
        get_prop me "username" = Return username ->
        truthy username = true ->
        is_Some (document w !! "profile-username") ->
        (forall text,
           ToString username = Return text ->
           content_of (world_of (showUsernameInNav E w)) "profile-username"
           = Some text)
        /\ (forall e,
              ToString username = Throw e ->
              document (world_of (showUsernameInNav E w)) = document w)).
Proof.
  pose proof (show_username_frame E w) as (Hls & _ & Hdoc).
  split_and!.
  - unfold showUsernameInNav, try_catch.
    by destruct (show_username E w) as [[[]|e] w1 evs1].
  - unfold showUsernameInNav, try_catch.
    by destruct (show_username E w) as [[[]|e] w1 evs1].
  - unfold showUsernameInNav, try_catch.
    by destruct (show_username E w) as [[[]|e] w1 evs1].
  - unfold token_stored.
    intros r me username Htok Hsrv Hok Hbody Hme Huser Htruthy [el Hel].
    unfold showUsernameInNav, try_catch, show_username, mbind, M_bind,
      getElementById.
    rewrite getCurrentUser_run, Htok. cbn zeta. rewrite Hsrv, Hok, Hbody.
    cbn [document]. rewrite Hel, Hme. unfold lift. rewrite Huser, Htruthy.
    split.
    + intros text ->. unfold set_content, update_element, content_of.
      cbn [world_of document]. by apply (content_of_set w _ _ el).
    + by intros e ->.
Qed.

(** X21.  [logout] removes the token, keeps every other key of the storage
    (the boot id among them) and navigates to [/auth]; a [checkAuth] that runs
    on what it leaves sends no credential, and on a private page it sends the
    user to [/auth]. *)
Theorem logout_then_checkAuth (w : world) :
  events_of (logout w) = [EvNavigate "/auth"]
  /\ localStorage (world_of (logout w)) = delete "token" (localStorage w)
  /\ protected_requests (events_of (checkAuth E (world_of (logout w)))) = []
  /\ (onPrivatePage (normalized_path (pathname E)) = true ->
      navigations (events_of (checkAuth E (world_of (logout w))))
      = ["/auth"]).
Proof.
  assert (Hout : logout w
                 = Run (Return tt)
                       (World (delete "token" (localStorage w)) (document w)
                              (sent w))
                       [EvNavigate "/auth"]) by reflexivity.
  rewrite Hout. cbn [events_of world_of localStorage].
  set (w' := World _ _ _).
  assert (Htok : truthy_item (storage_after_boot E w' !! "token") = false).
  { rewrite storage_after_boot_token. subst w'. cbn [localStorage].
    rewrite lookup_delete_eq. by destruct (boot_change_observed E _). }
  destruct (checkAuth_summary E w') as (_ & _ & ->). cbn zeta.
  rewrite Htok.
  split_and!; [done | done | by destruct (onPrivatePage _) | by intros ->].
Qed.

(** X22.  The first copy of [deleteFile] refreshes the list exactly when the
    user confirmed, the id can be converted to a string and the server
    reported success, and then once.  When the user declines, nothing is
    sent.  Its template literal and its request are outside any [try]: an id
    that cannot be converted makes it throw a [TypeError] before anything is
    sent, and a request that fails on the network makes it throw as well. *)
Theorem first_copy_deleteFile_refreshes (id : jsval) (w : world) :
  refreshes (events_of (FirstCopy.deleteFile E id w))
  = (if confirm_answer E && converts id
        && match server E (sent w)
                   (delete_request id (localStorage w !! "token")) with
           | Responds r => ok r
           | NetworkError => false
           end
     then 1%nat else 0%nat)
  /\ (confirm_answer E = false ->
      FirstCopy.deleteFile E id w
      = Run (Return tt) w [EvConfirm "Delete this file?"])
  /\ (confirm_answer E = true ->
      converts id = false ->
      FirstCopy.deleteFile E id w
      = Run (Throw TypeError) w [EvConfirm "Delete this file?"])
  /\ (confirm_answer E = true ->
      converts id = true ->
      server E (sent w) (delete_request id (localStorage w !! "token"))
      = NetworkError ->
      outcome_of (FirstCopy.deleteFile E id w) = Throw NetworkFailure).
Proof.
  pose proof (ToString_converts id) as Hid.
  unfold FirstCopy.deleteFile, delete_request, text_of, mbind, M_bind, emit,
    getItem, lift, fetch.
  destruct (confirm_answer E); cbn [negb andb]; [|by split_and!].
  destruct (converts id);
    [destruct Hid as [id_text ->] | rewrite Hid; by split_and!].
  destruct (server E (sent w) _) as [|r]; [by split_and!|].
  destruct (ok r); [|by split_and!].
  unfold spawn, FirstCopy.loadUserFiles, call, mbind, M_bind, emit, getItem,
    fetch.
  cbn [localStorage document sent].
  destruct (server E (S (sent w)) _) as [|[okr body]]; [by split_and!|].
  unfold res_json. cbn [json_body ok].
  destruct body as [data|]; [|by split_and!].
  cbn [mret M_ret getElementById document].
  destruct okr.
  - match goal with |- context [lift ?o] => destruct o as [rows|e] end;
      unfold lift; [|by split_and!].
    unfold set_content, update_element.
    destruct (document w !! "user-files"); by split_and!.
  - unfold set_content, update_element.
    destruct (document w !! "user-files"); by split_and!.
Qed.

End IdentityProperties.

(** ** The chart renderer, further *)

Section ChartRuns.
Context `{Builtins}.

(** [renderChart] gives back the world it was given, and all it emits are
    calls on the canvas. *)
Lemma renderChart_world (series : jsval) (w : world) :
  world_of (renderChart series w) = w
  /\ map EvCtx (ctx_calls (events_of (renderChart series w)))
     = events_of (renderChart series w).
Proof.
  rewrite renderChart_run.
  destruct (document w !! "engagement-chart") as [cv|]; [|done].
  destruct (negb (truthy series) || length_is_zero series); [done|].
  destruct (column "t" series) as [times|e]; [|done].
  destruct (column "value" series) as [values|e]; [|done].
  destruct (spread_fits (length times)); [|done].
  cbn [world_of events_of]. by rewrite ctx_calls_EvCtx.
Qed.

(** X23.  [renderChart] touches nothing but the canvas: it leaves the
    storage and the document as they are, sends no request, and on a page
    without the chart canvas it does nothing at all, whatever it is given. *)
Theorem renderChart_frame (series : jsval) (w : world) :
  world_of (renderChart series w) = w
  /\ map EvCtx (ctx_calls (events_of (renderChart series w)))
     = events_of (renderChart series w)
  /\ (document w !! "engagement-chart" = None ->
      renderChart series w = Run (Return tt) w []).
Proof.
  rewrite renderChart_run.
  destruct (document w !! "engagement-chart") as [cv|]; [|done].
  destruct (negb (truthy series) || length_is_zero series); [done|].
  destruct (column "t" series) as [times|e]; [|done].
  destruct (column "value" series) as [values|e]; [|done].
  destruct (spread_fits (length times)); [|done].
  cbn [world_of events_of]. by rewrite ctx_calls_EvCtx.
Qed.

(** X24.  On a page with the chart canvas [renderChart] throws in two cases
    only, both on a series that is truthy and not of length zero: a
    [TypeError] when the series is not an array of readable points (an
    element is [null] or [undefined], or a field [t] or [value] cannot be
    converted to a number), and a [RangeError] when it is such an array but
    has more points than a call can take arguments.  By then the canvas has
    been cleared and nothing has been drawn. *)
Theorem renderChart_throws_iff (series : jsval) (w : world) (cv : element) :
  document w !! "engagement-chart" = Some cv ->
  outcome_of (renderChart series w)
  = (if truthy series && negb (length_is_zero series)
     then if readable_series series
          then if spread_fits (series_length series)
               then Return tt else Throw RangeError
          else Throw TypeError
     else Return tt)
  /\ (forall e, outcome_of (renderChart series w) = Throw e ->
      ctx_calls (events_of (renderChart series w)) = [clearing cv]).
Proof.
  intros Hcv. rewrite renderChart_run, Hcv.
  destruct (truthy series); cbn [negb orb andb]; [|done].
  destruct (length_is_zero series); cbn [negb andb]; [done|].
  destruct series as [| |b|n|s|ps|fs]; try done.
  cbn [readable_series series_length].
  pose proof (column_readable "t" ps) as Ht.
  pose proof (column_readable "value" ps) as Hv.
  rewrite readable_points_columns.
  destruct (forallb _ ps); cbn [andb].
  - destruct Ht as (times & -> & ->).
    destruct (forallb _ ps).
    + destruct Hv as (values & -> & _).
      by destruct (spread_fits (length ps)).
    + by rewrite Hv.
  - by rewrite Ht.
Qed.

End ChartRuns.

Lemma renderChart_throws_iff_witness :
  document chart_page !! "engagement-chart" = Some sample_canvas
  /\ outcome_of (@renderChart sample_builtins (VArr [unconvertible_point])
                              chart_page)
     = Throw TypeError
  /\ ctx_calls (events_of (@renderChart sample_builtins
                             (VArr [unconvertible_point]) chart_page))
     = [clearing sample_canvas].
Proof.
  split; [reflexivity|].
  pose proof (@renderChart_throws_iff sample_builtins
                (VArr [unconvertible_point]) chart_page sample_canvas eq_refl)
    as [Hout Hcalls].
  split; [exact Hout | exact (Hcalls TypeError Hout)].
Defined.

(** ** The plot area *)

Lemma is_zero_pos (d : Q) : (0 < d)%Q -> Num.is_zero d = false.
Proof.
  unfold Num.is_zero, Qlt. cbn. intros Hd. apply Z.eqb_neq. lia.
Qed.

Lemma max2_tiny (d0 : Q) :
  exists d, Num.max2 tiny (Fin d0) = Fin d /\ (0 < d)%Q /\ (d0 <= d)%Q.
Proof.
  unfold Num.max2, tiny, Num.ltb.
  destruct (Qle_bool d0 (1 # 1000000000)) eqn:Hle; cbn [negb].
  - apply Qle_bool_iff in Hle. eexists. split; [reflexivity|]. split; [reflexivity | exact Hle].
  - exists d0. split; [reflexivity|].
    assert (~ (d0 <= 1 # 1000000000)%Q) as Hn.
    { intros Hc. apply Qle_bool_iff in Hc. congruence. }
    apply Qnot_le_lt in Hn. split; [|apply Qle_refl].
    eapply Qlt_trans; [|exact Hn]. reflexivity.
Qed.

Lemma scale_x_range (a b t : Q) (pw : Z) :
  (0 <= pw)%Z -> (a <= t)%Q -> (t <= b)%Q ->
  exists x, scale_x (Fin a) (Fin b) (Num.of_Z pw) (Fin t) = Fin x
            /\ (40 <= x)%Q /\ (x <= 40 + inject_Z pw)%Q.
Proof.
  intros Hpw Hat Htb. unfold scale_x.
  cbn [Num.sub].
  destruct (max2_tiny (Qred (b - a))) as (d & -> & Hd & Hbd).
  rewrite Qred_correct in Hbd.
  unfold Num.div. rewrite (is_zero_pos d Hd).
  unfold Num.of_Z, Num.mul, padL, Num.add.
  eexists. split; [reflexivity|].
  rewrite !Qred_correct.
  assert (Hp : (0 <= inject_Z pw)%Q).
  { change 0%Q with (inject_Z 0). by rewrite <- Zle_Qle. }
  generalize dependent (inject_Z pw). intros p Hp.
  assert (Hr0 : (0 <= (t - a) / d)%Q).
  { apply Qle_shift_div_l; [exact Hd|]. lra. }
  assert (Hr1 : ((t - a) / d <= 1)%Q).
  { apply Qle_shift_div_r; [exact Hd|]. lra. }
  generalize dependent ((t - a) / d)%Q. intros r Hr0 Hr1.
  split; nra.
Qed.

Lemma min2_fin (x m : Q) :
  exists a, Num.min2 (Fin x) (Fin m) = Fin a /\ (a <= x)%Q /\ (a <= m)%Q
            /\ (a = x \/ a = m).
Proof.
  unfold Num.min2, Num.ltb.
  destruct (Qle_bool x m) eqn:Hle; cbn [negb].
  - apply Qle_bool_iff in Hle. exists x. split_and!; [done | apply Qle_refl | done | by left].
  - assert (~ (x <= m)%Q) as Hn.
    { intros Hc. apply Qle_bool_iff in Hc. congruence. }
    apply Qnot_le_lt, Qlt_le_weak in Hn.
    exists m. split_and!; [done | done | apply Qle_refl | by right].
Qed.

Lemma max2_fin (x m : Q) :
  exists b, Num.max2 (Fin x) (Fin m) = Fin b /\ (x <= b)%Q /\ (m <= b)%Q.
Proof.
  unfold Num.max2, Num.ltb.
  destruct (Qle_bool m x) eqn:Hle; cbn [negb].
  - apply Qle_bool_iff in Hle. exists x. split_and!; [done | apply Qle_refl | done].
  - assert (~ (m <= x)%Q) as Hn.
    { intros Hc. apply Qle_bool_iff in Hc. congruence. }
    apply Qnot_le_lt, Qlt_le_weak in Hn.
    exists m. split_and!; [done | done | apply Qle_refl].
Qed.

Lemma finite_extremes (times : list num) :
  times <> [] ->
  Forall (fun t => Num.finite t = true) times ->
  exists a b,
    Num.min_list times = Fin a /\ Num.max_list times = Fin b
    /\ Forall (fun t => exists q, t = Fin q /\ (a <= q)%Q /\ (q <= b)%Q) times.
Proof.
  intros Hne Hfin.
  induction Hfin as [|t times Ht Hfin IH]; [done|].
  destruct t as [| |x]; try discriminate.
  destruct times as [|t' times].
  - exists x, x. split_and!; [done | done |].
    constructor; [|done]. exists x. split_and!; [done | apply Qle_refl | apply Qle_refl].
  - destruct IH as (a & b & Hmin & Hmax & Hall); [done|].
    unfold Num.min_list, Num.max_list in *.
    cbn [foldr] in *. rewrite Hmin, Hmax.
    destruct (min2_fin x a) as (a' & -> & Ha1 & Ha2 & _).
    destruct (max2_fin x b) as (b' & -> & Hb1 & Hb2).
    exists a', b'. split_and!; [done | done |].
    constructor.
    + exists x. by split_and!.
    + eapply Forall_impl; [exact Hall|].
      intros t (q & -> & Hq1 & Hq2). exists q.
      split_and!; [done | by eapply Qle_trans | by eapply Qle_trans].
Qed.

Lemma scale_y_value (vq : Q) (ph : Z) :
  exists y, scale_y (Num.of_Z ph) (Fin vq) = Fin y
            /\ (y == 10 + (1 - vq) * inject_Z ph)%Q.
Proof.
  unfold scale_y.
  change (Num.max2 tiny (vMax - vMin)) with (Fin 1).
  unfold vMin, padT, Num.of_Z, Num.sub, Num.div, Num.mul, Num.add.
  change (Num.is_zero 1) with false. cbn iota.
  eexists. split; [reflexivity|].
  rewrite !Qred_correct. unfold Qdiv. change (/ 1)%Q with 1%Q. ring.
Qed.

Lemma Forall_zip_with_both {A B C} (f : A -> B -> C) (P : A -> Prop)
    (Q : B -> Prop) (R : C -> Prop) (l : list A) (k : list B) :
  (forall a b, P a -> Q b -> R (f a b)) ->
  Forall P l -> Forall Q k -> Forall R (zip_with f l k).
Proof.
  intros Hf Hl. revert k.
  induction Hl as [|a l Ha _ IH]; intros k Hk; [constructor|].
  destruct Hk as [|b k Hb Hk]; cbn [zip_with]; constructor; auto.
Qed.

Section PlotArea.
Context `{Builtins}.

(** X25.  On a canvas of at least 50 by 40 pixels, and no larger than
    [canvas_bound], a series that fits the arguments of a call and whose
    points have timestamps within [time_bound] and values between 0 and 1 is
    drawn inside the plot area: every point of the polyline lies between the
    left and right margins and between the top margin and the bottom axis,
    and there is one for each point of the series.  (Within these bounds no
    operation of the scales overflows, the margins are integers that binary64
    holds exactly, and rounding to nearest, which is monotone, keeps each
    coordinate between them.) *)
Theorem renderChart_points_in_plot_area (w : world) (cv : element)
    (ps : list jsval) :
  document w !! "engagement-chart" = Some cv ->
  (50 <= width cv <= canvas_bound)%Z ->
  (40 <= height cv <= canvas_bound)%Z ->
  ps <> [] ->
  Forall unit_point ps ->
  fits_arguments ps ->
  Forall (in_plot_area cv)
         (plotted_points (ctx_calls (events_of (renderChart (VArr ps) w))))
  /\ length (plotted_points (ctx_calls (events_of (renderChart (VArr ps) w))))
     = length ps.
Proof.
  intros Hcv [Hw _] [Hh _] Hne Hpts Hfit.
  destruct (mapM_returns (coordinate "t") ps) as (times & Ht & Hlt).
  { eapply Forall_impl; [exact Hpts|]. intros p (tq & vq & -> & _). eauto. }
  destruct (mapM_returns (coordinate "value") ps) as (values & Hv & Hlv).
  { eapply Forall_impl; [exact Hpts|]. intros p (tq & vq & _ & -> & _). eauto. }
  assert (Hfin : Forall (fun t => Num.finite t = true) times).
  { apply mapM_Forall2 in Ht. clear -Ht Hpts.
    induction Ht as [|p t ps times Hp _ IH]; [constructor|].
    apply Forall_cons in Hpts as [(tq & vq & Htq & _) Hpts].
    constructor; [|by apply IH]. rewrite Hp in Htq. by injection Htq as ->. }
  assert (Hval : Forall (fun v => exists vq, v = Fin vq /\ (0 <= vq)%Q
                                             /\ (vq <= 1)%Q) values).
  { apply mapM_Forall2 in Hv. clear -Hv Hpts.
    induction Hv as [|p v ps values Hp _ IH]; [constructor|].
    apply Forall_cons in Hpts as [(tq & vq & _ & Hvq & H0 & H1 & _) Hpts].
    constructor; [|by apply IH]. rewrite Hp in Hvq. injection Hvq as ->.
    by exists vq. }
  assert (Hne' : times <> []) by (destruct ps, times; done).
  destruct (finite_extremes times Hne' Hfin) as (a & b & Hmin & Hmax & Hall).
  unfold fits_arguments in Hfit.
  rewrite (renderChart_draws w cv ps times values Hcv Hne Ht Hv)
    by (by rewrite Hlt).
  cbn [events_of]. rewrite ctx_calls_EvCtx, plotted_points_drawing.
  rewrite Hmin, Hmax, plotW_of_Z, plotH_of_Z.
  split.
  - unfold plot_points.
    apply (Forall_zip_with_both _
             (fun t => exists q, t = Fin q /\ (a <= q)%Q /\ (q <= b)%Q)
             (fun v => exists vq, v = Fin vq /\ (0 <= vq)%Q /\ (vq <= 1)%Q)
             (in_plot_area cv) times values); [|exact Hall | exact Hval].
    intros t v (q & -> & Hq1 & Hq2) (vq & -> & H0 & H1).
    destruct (scale_x_range a b q (width cv - 40 - 10)
                ltac:(lia) Hq1 Hq2) as (x & Hx & Hx1 & Hx2).
    destruct (scale_y_value vq (height cv - 10 - 30)) as (y & Hy & Heq).
    unfold in_plot_area. cbn [fst snd]. rewrite Hx, Hy.
    change padR with (Num.of_Z 10). change padB with (Num.of_Z 30).
    rewrite !num_sub_of_Z. unfold padL, padT, Num.of_Z, num_le.
    assert (Hp : (0 <= inject_Z (height cv - 10 - 30))%Q).
    { change 0%Q with (inject_Z 0). rewrite <- Zle_Qle. lia. }
    assert (Hwd : (inject_Z (width cv - 10)
                   == 40 + inject_Z (width cv - 40 - 10))%Q).
    { change 40%Q with (inject_Z 40). rewrite <- inject_Z_plus.
      f_equiv. lia. }
    assert (Hhd : (inject_Z (height cv - 30)
                   == 10 + inject_Z (height cv - 10 - 30))%Q).
    { change 10%Q with (inject_Z 10). rewrite <- inject_Z_plus.
      f_equiv. lia. }
    rewrite Hwd, Hhd, Heq.
    revert Hp. generalize (inject_Z (height cv - 10 - 30)). intros p Hp.
    split_and!; [exact Hx1 | exact Hx2 | nra | nra].
  - unfold plot_points. rewrite length_zip_with_l_eq; lia.
Qed.

End PlotArea.

Lemma rising_series_unit_points :
  Forall (@unit_point sample_builtins) rising_series.
Proof.
  repeat constructor.
  - exists 0%Q, 0%Q. by split_and!.
  - exists 10%Q, 1%Q. by split_and!.
Defined.

Lemma renderChart_points_in_plot_area_witness :
  document chart_page !! "engagement-chart" = Some sample_canvas
  /\ Forall (@unit_point sample_builtins) rising_series
  /\ Forall (in_plot_area sample_canvas)
            (plotted_points
               (ctx_calls (events_of (@renderChart sample_builtins
                                        (VArr rising_series) chart_page))))
  /\ length (plotted_points
               (ctx_calls (events_of (@renderChart sample_builtins
                                        (VArr rising_series) chart_page))))
     = length rising_series.
Proof.
  split; [reflexivity|]. split; [exact rising_series_unit_points|].
  apply (@renderChart_points_in_plot_area sample_builtins chart_page
           sample_canvas rising_series eq_refl).
  - by vm_compute.
  - by vm_compute.
  - discriminate.
  - exact rising_series_unit_points.
  - reflexivity.
Defined.

Lemma Forall2_zip_with_r {A B C D} (f : C -> B -> D) (S : A -> B -> Prop)
    (R : A -> D -> Prop) (l : list A) (k : list B) (ts : list C) :
  (forall a b t, S a b -> R a (f t b)) ->
  Forall2 S l k -> length ts = length l ->
  Forall2 R l (zip_with f ts k).
Proof.
  intros Hf Hlk. revert ts.
  induction Hlk as [|a b l k Hab _ IH]; intros [|t ts] Hlen;
    try discriminate; cbn [zip_with]; constructor; auto.
Qed.

Lemma num_div_one (a : Z) : (Num.of_Z a / Fin 1)%num = Num.of_Z a.
Proof.
  unfold Num.of_Z, Num.div. change (Num.is_zero 1) with false. cbn iota.
  f_equal. apply Qred_of_Z. unfold Qdiv. change (/ 1)%Q with 1%Q. ring.
Qed.

(** The vertical scale on integers. *)
Lemma scale_y_integer (n ph : Z) :
  scale_y (Num.of_Z ph) (Num.of_Z n) = Num.of_Z (10 + (1 - n) * ph).
Proof.
  unfold scale_y.
  change (Num.max2 tiny (vMax - vMin)) with (Fin 1).
  change vMin with (Num.of_Z 0). change (Fin 1) with (Num.of_Z 1) at 1.
  change padT with (Num.of_Z 10).
  rewrite num_sub_of_Z, num_div_one, num_sub_of_Z, num_mul_of_Z,
    num_add_of_Z.
  f_equal. lia.
Qed.

Lemma num_le_of_Z (a b : Z) : num_le (Num.of_Z a) (Num.of_Z b) <-> (a <= b)%Z.
Proof. unfold num_le, Num.of_Z. by rewrite <- Zle_Qle. Qed.

Section Clamping.
Context `{Builtins}.

(** X26.  Values are not clamped to the range 0..1.  In a series of readable
    points that fits the arguments of a call, on a canvas higher than 40
    pixels, a point whose value is an integer [n] is drawn at the height
    [10 + (1 - n) * (h - 40)]: for [n] at least 2 above the top margin, for
    [n] at most -1 below the bottom axis, either way outside the plot area.
    (With [n] within [value_bound] and [h] within [canvas_bound] the script
    computes this height without rounding.) *)
Theorem renderChart_values_not_clamped (w : world) (cv : element)
    (ps : list jsval) :
  document w !! "engagement-chart" = Some cv ->
  (40 < height cv <= canvas_bound)%Z ->
  ps <> [] ->
  forallb readable_point ps = true ->
  fits_arguments ps ->
  Forall2 (fun p px =>
             forall n : Z,
               coordinate "value" p = Return (Num.of_Z n) ->
               (- value_bound <= n <= value_bound)%Z ->
               px.2 = Num.of_Z (10 + (1 - n) * (height cv - 40))
               /\ ((2 <= n)%Z \/ (n <= -1)%Z -> ~ in_plot_area cv px))
          ps
          (plotted_points (ctx_calls (events_of (renderChart (VArr ps) w)))).
Proof.
  intros Hcv Hh Hne Hread Hfit.
  pose proof (columns_readable ps) as Hcols. rewrite Hread in Hcols.
  destruct Hcols as (times & values & Ht & Hv & Hlt & Hlv).
  unfold fits_arguments in Hfit.
  rewrite (renderChart_draws w cv ps times values Hcv Hne Ht Hv)
    by (by rewrite Hlt).
  cbn [events_of]. rewrite ctx_calls_EvCtx, plotted_points_drawing.
  rewrite plotH_of_Z. unfold plot_points.
  apply (Forall2_zip_with_r _ (fun p v => coordinate "value" p = Return v));
    [| by apply mapM_Forall2 | exact Hlt].
  intros p v t Hp n Hn Hbound. cbn [fst snd].
  rewrite Hp in Hn. injection Hn as ->.
  rewrite scale_y_integer.
  replace (10 + (1 - n) * (height cv - 10 - 30))%Z
    with (10 + (1 - n) * (height cv - 40))%Z by lia.
  split; [done|].
  intros Hout (_ & _ & Htop & Hbottom). cbn [snd] in Htop, Hbottom.
  change padT with (Num.of_Z 10) in Htop.
  change padB with (Num.of_Z 30) in Hbottom.
  rewrite num_sub_of_Z in Hbottom.
  apply (proj1 (num_le_of_Z _ _)) in Htop.
  apply (proj1 (num_le_of_Z _ _)) in Hbottom.
  destruct Hout; nia.
Qed.

End Clamping.

Lemma renderChart_values_not_clamped_witness :
  document chart_page !! "engagement-chart" = Some sample_canvas
  /\ forallb readable_point overshooting_series = true
  /\ Forall2 (fun p px =>
                forall n : Z,
                  @coordinate sample_builtins "value" p
                  = Return (Num.of_Z n) ->
                  (- value_bound <= n <= value_bound)%Z ->
                  px.2 = Num.of_Z (10 + (1 - n) * (height sample_canvas - 40))
                  /\ ((2 <= n)%Z \/ (n <= -1)%Z ->
                      ~ in_plot_area sample_canvas px))
             overshooting_series
             (plotted_points
                (ctx_calls (events_of (@renderChart sample_builtins
                                         (VArr overshooting_series)
                                         chart_page)))).
Proof.
  split; [reflexivity|]. split; [reflexivity|].
  apply (@renderChart_values_not_clamped sample_builtins chart_page
           sample_canvas overshooting_series eq_refl).
  - split; by vm_compute.
  - discriminate.
  - reflexivity.
  - reflexivity.
Defined.

(** ** The analysis *)

Section AnalyzeProperties.
Context `{Builtins}.
Variable E : env.

(** The world once the error element, if any, has been given the text [s]. *)
Lemma show_error_run (errEl : option element) (s : string) (w : world) :
  show_error errEl (mret s) w
  = match errEl with
    | None => Run (Return tt) w []
    | Some _ =>
        Run (Return tt)
            (World (localStorage w)
                   (alter (with_content s) "chart-error" (document w))
                   (sent w)) []
    end.
Proof. by destruct errEl. Qed.

Lemma same_elsewhere_alter (f : element -> element) (id : string)
    (doc : gmap string element) :
  same_elsewhere [id] doc (alter f id doc).
Proof.
  intros k Hk. apply lookup_alter_ne. by intros ->; apply Hk; left.
Qed.

Lemma same_elsewhere_alter2 (f g : element -> element) (id : string)
    (doc : gmap string element) :
  same_elsewhere [id] doc (alter g id (alter f id doc)).
Proof.
  intros k Hk.
  assert (id <> k) by (by intros ->; apply Hk; left).
  by rewrite !lookup_alter_ne.
Qed.

Ltac focus_run t :=
  pattern t;
  match goal with |- ?P _ => let Q := fresh "Spec" in set (Q := P) end.

Ltac elsewhere :=
  let k := fresh "k" in
  let Hk := fresh "Hk" in
  intros k Hk; cbn [document];
  rewrite ?lookup_alter_ne
    by (intros Heq; apply Hk; rewrite <- Heq; constructor);
  reflexivity.

Lemma requests_ctx (cs : list ctx_call) : requests (map EvCtx cs) = [].
Proof. induction cs as [|c cs IH]; [done | exact IH]. Qed.

Lemma requests_app (a b : list event) :
  requests (a ++ b) = (requests a ++ requests b)%list.
Proof. unfold requests. apply omap_app. Qed.

Ltac run_step :=
  cbn [mret M_ret negb json_body ok localStorage document sent].

Ltac frame_leaf :=
  match goal with Spec := _ |- _ => subst Spec end;
  cbn [mret M_ret outcome_of world_of events_of localStorage document sent];
  rewrite ?requests_app, ?requests_ctx;
  split_and!;
  [ done | done | elsewhere | cbn; lia | first [done | intros _; cbn; done] ].

(** X27.  [analyzeFile] never throws, whatever the server returns and however
    malformed the series; it leaves the storage alone, writes to no element
    but the error element, sends at most one request and, without a token,
    none. *)
Theorem analyzeFile_never_throws (id : jsval) (w : world) :
  outcome_of (analyzeFile E id w) = Return tt
  /\ localStorage (world_of (analyzeFile E id w)) = localStorage w
  /\ same_elsewhere ["chart-error"] (document w)
                    (document (world_of (analyzeFile E id w)))
  /\ (length (requests (events_of (analyzeFile E id w))) <= 1)%nat
  /\ (token_stored w = false -> requests (events_of (analyzeFile E id w)) = []).
Proof.
  unfold token_stored. focus_run (analyzeFile E id w).
  unfold analyzeFile, show_error, set_content.
  unfold mbind, M_bind, getItem, getElementById, update_element, try_catch,
    fetch, emit, res_json, lift, throw.
  run_step.
  destruct (document w !! "chart-error") as [el|];
    destruct (truthy_item (localStorage w !! "token")); run_step;
    try (solve [frame_leaf]).
  all: destruct (ToString id) as [id_text|e0]; run_step;
    try (solve [frame_leaf]).
  all: match goal with
       | |- context [server E ?n ?r] =>
           destruct (server E n r) as [|[okr body]]
       end;
    run_step; try (solve [frame_leaf]).
  all: destruct body as [data|]; run_step; try (solve [frame_leaf]).
  all: destruct okr; run_step.
  all: try (destruct (get_prop data "detail") as [detail|e]; run_step;
            try match goal with
                | |- context [ToString ?v] => destruct (ToString v)
                end;
            run_step; solve [frame_leaf]).
  all: destruct (truthy data); run_step; try (solve [frame_leaf]).
  all: destruct (get_prop data "series") as [series|e]; run_step;
    try (solve [frame_leaf]).
  all: destruct (is_array series); run_step; try (solve [frame_leaf]).
  all: match goal with
       | |- context [renderChart ?s ?w0] =>
           pose proof (renderChart_world s w0) as (Hw & Hev);
           destruct (renderChart s w0) as [[[]|e] w2 evs];
           cbn [world_of events_of] in Hw, Hev; subst w2; rewrite <- Hev
       end.
  all: run_step; frame_leaf.
Qed.

(** What [renderChart] does depends on the page through the chart canvas
    only. *)
Lemma renderChart_canvas_only (series : jsval) (w w' : world) :
  document w' !! "engagement-chart" = document w !! "engagement-chart" ->
  outcome_of (renderChart series w') = outcome_of (renderChart series w)
  /\ events_of (renderChart series w') = events_of (renderChart series w).
Proof.
  intros Hcv. rewrite !renderChart_run, Hcv.
  destruct (document w !! "engagement-chart") as [cv|]; [|done].
  destruct (negb (truthy series) || length_is_zero series); [done|].
  destruct (column "t" series) as [times|e]; [|done].
  destruct (column "value" series) as [values|e]; [|done].
  by destruct (spread_fits (length times)).
Qed.

Lemma ctx_calls_app (a b : list event) :
  ctx_calls (a ++ b) = (ctx_calls a ++ ctx_calls b)%list.
Proof. unfold ctx_calls. apply omap_app. Qed.

Ltac agree :=
  repeat match goal with
         | H1 : ?t = _, H2 : ?t = _ |- _ => rewrite H1 in H2
         end.

Ltac report_leaf Hel :=
  match goal with Spec := _ |- _ => subst Spec end;
  cbn [mret M_ret outcome_of world_of events_of localStorage document sent];
  rewrite ?lookup_alter_eq, ?Hel;
  repeat first [ progress intros | match goal with |- _ /\ _ => split end ];
  simplify_eq/=; do 3 (agree; simplify_eq/=); try done.

(** X28.  With the error element on the page, [analyzeFile] leaves in it:
    [Not authenticated] without a token, and then nothing is sent.  With a
    token: [Connection error], and nothing sent either, when the id cannot
    be converted to a string; [Connection error] when the network fails, when
    the body is not JSON, when an error response has a body no property can
    be read from or a [detail] that cannot be converted to a string; the
    [detail] of an error response, or [Analyze failed] when it is falsy;
    [Unexpected analyze response] when a successful body is falsy or its
    [series] is not an array; and after rendering, the empty text if
    [renderChart] returned and [Connection error] if it threw. *)
Theorem analyzeFile_reports (id : jsval) (w : world) (el : element) :
  document w !! "chart-error" = Some el ->
  (token_stored w = false ->
   error_shown (world_of (analyzeFile E id w)) = Some "Not authenticated"
   /\ events_of (analyzeFile E id w) = [])
  /\ (token_stored w = true ->
      converts id = false ->
      error_shown (world_of (analyzeFile E id w)) = Some "Connection error"
      /\ events_of (analyzeFile E id w) = [])
  /\ (token_stored w = true ->
      converts id = true ->
      (analyze_answer E id w = NetworkError ->
       error_shown (world_of (analyzeFile E id w)) = Some "Connection error")
      /\ (forall r,
            analyze_answer E id w = Responds r ->
            json_body r = None ->
            error_shown (world_of (analyzeFile E id w))
            = Some "Connection error")
      /\ (forall r data e,
            analyze_answer E id w = Responds r ->
            ok r = false ->
            json_body r = Some data ->
            get_prop data "detail" = Throw e ->
            error_shown (world_of (analyzeFile E id w))
            = Some "Connection error")
      /\ (forall r data detail,
            analyze_answer E id w = Responds r ->
            ok r = false ->
            json_body r = Some data ->
            get_prop data "detail" = Return detail ->
            error_shown (world_of (analyzeFile E id w))
            = Some (match ToString (if truthy detail then detail
                                    else VStr "Analyze failed") with
                    | Return text => text
                    | Throw _ => "Connection error"
                    end))
      /\ (forall r data,
            analyze_answer E id w = Responds r ->
            ok r = true ->
            json_body r = Some data ->
            truthy data = false ->
            error_shown (world_of (analyzeFile E id w))
            = Some "Unexpected analyze response")
      /\ (forall r data series,
            analyze_answer E id w = Responds r ->
            ok r = true ->
            json_body r = Some data ->
            get_prop data "series" = Return series ->
            is_array series = false ->
            error_shown (world_of (analyzeFile E id w))
            = Some "Unexpected analyze response")
      /\ (forall r data series,
            analyze_answer E id w = Responds r ->
            ok r = true ->
            json_body r = Some data ->
            truthy data = true ->
            get_prop data "series" = Return series ->
            is_array series = true ->
            error_shown (world_of (analyzeFile E id w))
            = Some (match outcome_of (renderChart series w) with
                    | Return _ => ""
                    | Throw _ => "Connection error"
                    end))).
Proof.
  intros Hel. pose proof (ToString_converts id) as Hid.
  unfold token_stored, error_shown, content_of, analyze_answer,
    analyze_request, text_of.
  destruct (converts id); [destruct Hid as [id_text Hid] | ]; rewrite ?Hid.
  all: focus_run (analyzeFile E id w).
  all: unfold analyzeFile, show_error, set_content.
  all: unfold mbind, M_bind, getItem, getElementById, update_element,
         try_catch, fetch, emit, res_json, lift, throw.
  all: run_step; rewrite Hel, Hid; run_step.
  all: destruct (truthy_item (localStorage w !! "token")) eqn:Htok; run_step;
    try (solve [report_leaf Hel]).
  destruct (server E (sent w) _) as [|[okr body]] eqn:Hsrv; run_step.
  { report_leaf Hel. }
  destruct body as [data|]; run_step.
  2:{ report_leaf Hel. }
  destruct okr; run_step.
  2:{ destruct (get_prop data "detail") as [detail|e] eqn:Hdetail; run_step.
      - destruct (ToString (if truthy detail then detail
                            else VStr "Analyze failed")) as [text|e]
          eqn:Htext; run_step; report_leaf Hel; by rewrite Htext.
      - report_leaf Hel. }
  destruct (truthy data) eqn:Hdata; run_step.
  2:{ report_leaf Hel. }
  destruct (get_prop data "series") as [series|e] eqn:Hseries; run_step.
  2:{ report_leaf Hel. }
  destruct (is_array series) eqn:Harr; run_step.
  2:{ report_leaf Hel. }
  match goal with
  | |- context [renderChart series ?w0] =>
      pose proof (renderChart_world series w0) as (Hw & _);
      destruct (renderChart_canvas_only series w w0) as [Hout _];
      [ cbn [document]; by apply lookup_alter_ne
      | destruct (renderChart series w0) as [o w2 evs] ]
  end.
  cbn [world_of outcome_of] in Hw, Hout. subst w2. symmetry in Hout.
  destruct o as [[]|e]; run_step; report_leaf Hel; by rewrite Hout.
Qed.

Ltac blank_leaf :=
  match goal with Spec := _ |- _ => subst Spec end;
  cbn [mret M_ret outcome_of world_of events_of localStorage document sent];
  intros Hne; exfalso; apply Hne; reflexivity.

(** X29.  [analyzeFile] draws on the canvas only when a token is stored and
    the response is a success whose [series] is an array, and then it draws
    exactly what [renderChart] draws for that series. *)
Theorem analyzeFile_draws_only_valid_series (id : jsval) (w : world) :
  ctx_calls (events_of (analyzeFile E id w)) <> [] ->
  token_stored w = true
  /\ exists r data series,
       analyze_answer E id w = Responds r
       /\ ok r = true
       /\ json_body r = Some data
       /\ get_prop data "series" = Return series
       /\ is_array series = true
       /\ ctx_calls (events_of (analyzeFile E id w))
          = ctx_calls (events_of (renderChart series w)).
Proof.
  unfold token_stored, analyze_answer, analyze_request, text_of.
  focus_run (analyzeFile E id w).
  unfold analyzeFile, show_error, set_content.
  unfold mbind, M_bind, getItem, getElementById, update_element, try_catch,
    fetch, emit, res_json, lift, throw.
  run_step.
  destruct (document w !! "chart-error") as [el|];
    destruct (truthy_item (localStorage w !! "token")); run_step;
    try (solve [blank_leaf]).
  all: destruct (ToString id) as [id_text|e0]; run_step;
    try (solve [blank_leaf]).
  all: match goal with
       | |- context [server E ?n ?r] =>
           destruct (server E n r) as [|[okr body]]
       end;
    run_step; try (solve [blank_leaf]).
  all: destruct body as [data|]; run_step; try (solve [blank_leaf]).
  all: destruct okr; run_step.
  all: try (destruct (get_prop data "detail") as [detail|e]; run_step;
            try match goal with
                | |- context [ToString ?v] => destruct (ToString v)
                end;
            run_step; solve [blank_leaf]).
  all: destruct (truthy data); run_step; try (solve [blank_leaf]).
  all: destruct (get_prop data "series") as [series|e] eqn:Hseries; run_step;
    try (solve [blank_leaf]).
  all: destruct (is_array series) eqn:Harr; run_step;
    try (solve [blank_leaf]).
  all: match goal with
       | |- context [renderChart ?s ?w0] =>
           destruct (renderChart_canvas_only s w w0) as [_ Hev];
           [ cbn [document]; by rewrite ?lookup_alter_ne
           | destruct (renderChart s w0) as [[[]|e] w2 evs] ]
       end.
  all: run_step.
  all: match goal with Spec := _ |- _ => subst Spec end.
  all: cbn [events_of]; intros _; split; [done|].
  all: exists (Response true (Some data)), data, series.
  all: split_and!; try done.
  all: rewrite <- Hev, !ctx_calls_app; simpl; by rewrite ?app_nil_r.
Qed.

End AnalyzeProperties.

Lemma analyzeFile_reports_witness :
  document analysis_page !! "chart-error" = Some chart_error_element
  /\ error_shown (world_of (@analyzeFile sample_builtins analysis_server
                              (VNum (Fin 7)) analysis_page))
     = Some "".
Proof.
  split; [reflexivity|].
  pose proof (@analyzeFile_reports sample_builtins analysis_server
                (VNum (Fin 7)) analysis_page chart_error_element eq_refl)
    as (_ & _ & Hstored).
  destruct (Hstored eq_refl eq_refl) as (_ & _ & _ & _ & _ & _ & Hrenders).
  exact (Hrenders (Response true (Some analysis_body)) analysis_body
                  (VArr rising_series)
                  eq_refl eq_refl eq_refl eq_refl eq_refl eq_refl).
Defined.

Lemma analyzeFile_draws_only_valid_series_witness :
  ctx_calls (events_of (@analyzeFile sample_builtins analysis_server
                          (VNum (Fin 7)) analysis_page)) <> []
  /\ token_stored analysis_page = true
  /\ exists r data series,
       @analyze_answer sample_builtins analysis_server (VNum (Fin 7))
                       analysis_page = Responds r
       /\ ok r = true
       /\ json_body r = Some data
       /\ get_prop data "series" = Return series
       /\ is_array series = true
       /\ ctx_calls (events_of (@analyzeFile sample_builtins analysis_server
                                  (VNum (Fin 7)) analysis_page))
          = ctx_calls (events_of (@renderChart sample_builtins series
                                               analysis_page)).
Proof.
  assert (Hdraws : ctx_calls (events_of (@analyzeFile sample_builtins
                                           analysis_server (VNum (Fin 7))
                                           analysis_page)) <> [])
    by (vm_compute; discriminate).
  split; [exact Hdraws|].
  exact (@analyzeFile_draws_only_valid_series sample_builtins analysis_server
           (VNum (Fin 7)) analysis_page Hdraws).
Defined.
